(** * generate-wrappers.js: configuration resolution and wrapper generation

    A shallow embedding of [js/scripts/generate-wrappers.js] of pythreejs,
    the script that turns the class table [three-class-config] into one
    JavaScript and one Python wrapper per class plus the index files.

    Conventions of the embedding:
    - a JavaScript object read through its keys is an association list in
      the order in which the keys were created ([JsObject]); key order is
      observable ([Object.keys], [_.reduce]) and is the engine's: array
      indices first, then the other keys as created;
    - a field that may be [undefined] is an [option];
    - a [throw] is the [Throw] result of the error monad [Res]; the engine's
      stack exhaustion is the [RangeError] it raises;
    - the file system, the clock and the template engine are inputs. *)

From Stdlib Require Import Ascii String List Bool Arith NArith Lia.
From stdpp Require Import base tactics option list strings relations.

(** ** Strings *)

Module Str.

(** [s.replace(/c/g, d)] for a one-character pattern. *)
Fixpoint replaceChar (c d : ascii) (s : string) : string :=
  match s with
  | EmptyString => EmptyString
  | String a s' => String (if Ascii.eqb a c then d else a) (replaceChar c d s')
  end.

(** [s.endsWith(suffix)], the test made by a regular expression [/suffix$/]
    whose body is a literal. *)
Definition endsWith (suffix s : string) : bool :=
  let n := String.length s in
  let k := String.length suffix in
  Nat.leb k n && String.eqb (substring (n - k) k s) suffix.

(** [s.indexOf(pat) !== -1], the test made by an unanchored literal
    regular expression. *)
Fixpoint contains (pat s : string) : bool :=
  String.prefix pat s ||
  match s with
  | EmptyString => false
  | String _ s' => contains pat s'
  end.

(** [s.split(sep)] for a set of one-character separators. *)
Fixpoint splitOn (isSep : ascii -> bool) (s : string) : list string :=
  match s with
  | EmptyString => [EmptyString]
  | String a s' =>
      if isSep a then EmptyString :: splitOn isSep s'
      else match splitOn isSep s' with
           | [] => [String a EmptyString]
           | w :: ws => String a w :: ws
           end
  end.

(** [parts.join(sep)] *)
Fixpoint join (sep : string) (parts : list string) : string :=
  match parts with
  | [] => EmptyString
  | [p] => p
  | p :: ps => p +:+ sep +:+ join sep ps
  end.

(** [str.replace(pattern, replacement)] for a string pattern: the first
    occurrence only. *)
Fixpoint replaceFirst (pattern replacement str : string) : string :=
  if String.prefix pattern str then
    replacement +:+
      substring (String.length pattern) (String.length str - String.length pattern) str
  else
    match str with
    | EmptyString => EmptyString
    | String a rest => String a (replaceFirst pattern replacement rest)
    end.

(** Truthiness of a possibly undefined string: [undefined] and the empty
    string are falsy. *)
Definition truthy (o : option string) : bool :=
  match o with
  | Some s => negb (String.eqb s EmptyString)
  | None => false
  end.

End Str.

(** ** JavaScript objects as ordered key/value tables *)

Module JsObject.

Definition t (V : Type) : Type := list (string * V).

(** The pairs of the list are the properties in the order of their
    creation.  An array index is the canonical numeral of a number below
    [2^32 - 1]: decimal digits, no leading zero. *)
Definition digitValue (a : ascii) : option N :=
  let n := N_of_ascii a in
  if (48 <=? n)%N && (n <=? 57)%N then Some (n - 48)%N else None.

Fixpoint numeral (s : string) (acc : N) : option N :=
  match s with
  | EmptyString => Some acc
  | String a s' =>
      match digitValue a with
      | Some d => numeral s' (10 * acc + d)%N
      | None => None
      end
  end.

Definition arrayIndex (k : string) : option N :=
  match k with
  | EmptyString => None
  | String "0" EmptyString => Some 0%N
  | String "0" _ => None
  | _ =>
      match numeral k 0 with
      | Some n => if (n <? 4294967295)%N then Some n else None
      | None => None
      end
  end.

Definition isArrayIndex (k : string) : bool :=
  match arrayIndex k with Some _ => true | None => false end.

Fixpoint insertIndex (n : N) (k : string) (sorted : list (N * string))
  : list (N * string) :=
  match sorted with
  | [] => [(n, k)]
  | (m, k') :: rest =>
      if (n <? m)%N then (n, k) :: sorted else (m, k') :: insertIndex n k rest
  end.

Fixpoint indexKeys (ks : list string) : list (N * string) :=
  match ks with
  | [] => []
  | k :: ks' =>
      match arrayIndex k with
      | Some n => insertIndex n k (indexKeys ks')
      | None => indexKeys ks'
      end
  end.

(** [OrdinaryOwnPropertyKeys] on the keys in creation order. *)
Definition ownKeyOrder (ks : list string) : list string :=
  map snd (indexKeys ks) ++ List.filter (fun k => negb (isArrayIndex k)) ks.

Section Ops.
Context {V : Type}.

(** [o[k]], own properties only *)
Fixpoint get (k : string) (o : t V) : option V :=
  match o with
  | [] => None
  | (k', v) :: o' => if String.eqb k' k then Some v else get k o'
  end.

Definition has (k : string) (o : t V) : bool :=
  match get k o with Some _ => true | None => false end.

(** [Object.keys(o)]: the engine lists the keys that are array indices
    first, by their number, and the other keys after them in the order of
    their creation. *)
Definition keys (o : t V) : list string := ownKeyOrder (map fst o).

(** [o[k] = v]: an existing key keeps its position, a new key goes last. *)
Fixpoint set (k : string) (v : V) (o : t V) : t V :=
  match o with
  | [] => [(k, v)]
  | (k', v') :: o' =>
      if String.eqb k' k then (k', v) :: o' else (k', v') :: set k v o'
  end.

(** The values met when iterating over the keys of [o]. *)
Definition entries (o : t V) : list (string * V) :=
  omap (fun k => match get k o with Some v => Some (k, v) | None => None end)
       (keys o).

(** [Object.assign(target, source)]: every own key of [source] is copied
    onto [target]. *)
Definition assign (target source : t V) : t V :=
  fold_left (fun acc kv => set (fst kv) (snd kv) acc) (entries source) target.

End Ops.

End JsObject.

(** ** Errors *)

Inductive JsError : Type :=
| Error (msg : string)          (* [throw new Error(msg)] *)
| TypeError (msg : string)      (* raised by the engine or by [path] *)
| RangeError (msg : string).    (* raised by the engine: call stack exhausted *)

Inductive Res (A : Type) : Type :=
| Ok (a : A)
| Throw (e : JsError).
Arguments Ok {A} a.
Arguments Throw {A} e.

#[global] Instance Res_ret : MRet Res := fun A a => Ok a.
#[global] Instance Res_bind : MBind Res := fun A B f m =>
  match m with
  | Ok a => f a
  | Throw e => Throw e
  end.

Definition stackExhausted : JsError := RangeError "Maximum call stack size exceeded".

Definition isOk {A} (r : Res A) : bool :=
  match r with Ok _ => true | Throw _ => false end.

(** ** Node's [path] module (POSIX flavour)

    The script computes every location with [path.resolve], [path.relative],
    [path.join], [path.dirname] and [path.basename].  They are modelled on
    the segments of a path, with the results Node documents for them. *)

Module Path.

Definition isSlash (a : ascii) : bool := Ascii.eqb a "/".

Definition segments (p : string) : list string := Str.splitOn isSlash p.

Definition isAbsolute (p : string) : bool :=
  match p with
  | String a _ => isSlash a
  | EmptyString => false
  end.

Definition trailingSlash (p : string) : bool := Str.endsWith "/" p.

(** One step of [normalizeString]; the stack holds the segments kept so
    far, the last one first. *)
Definition pushSegment (allowAboveRoot : bool) (stack : list string) (seg : string)
  : list string :=
  if String.eqb seg "" || String.eqb seg "." then stack
  else if String.eqb seg ".." then
    match stack with
    | top :: rest =>
        if String.eqb top ".." then (if allowAboveRoot then seg :: stack else stack)
        else rest
    | [] => if allowAboveRoot then [seg] else []
    end
  else seg :: stack.

Definition normalizeSegments (allowAboveRoot : bool) (segs : list string) : list string :=
  rev (fold_left (pushSegment allowAboveRoot) segs []).

Definition normalizeString (p : string) (allowAboveRoot : bool) : string :=
  Str.join "/" (normalizeSegments allowAboveRoot (segments p)).

(** [path.normalize(p)] *)
Definition normalize (p : string) : string :=
  if String.eqb p "" then "."
  else
    let abs := isAbsolute p in
    let q := normalizeString p (negb abs) in
    let q := if String.eqb q "" && negb abs then "." else q in
    let q := if negb (String.eqb q "") && trailingSlash p then q +:+ "/" else q in
    if abs then "/" +:+ q else q.

(** [path.join(a, b)] *)
Definition join (a b : string) : string :=
  match String.eqb a "", String.eqb b "" with
  | true, true => "."
  | true, false => normalize b
  | false, true => normalize a
  | false, false => normalize (a +:+ "/" +:+ b)
  end.

(** The loop of [path.resolve]: arguments are taken from the right until an
    absolute one is met; the working directory comes last. *)
Fixpoint resolveLoop (cwd : string) (rargs : list string) (acc : string) : string * bool :=
  match rargs with
  | [] => (cwd +:+ "/" +:+ acc, isAbsolute cwd)
  | p :: rest =>
      if String.eqb p "" then resolveLoop cwd rest acc
      else if isAbsolute p then (p +:+ "/" +:+ acc, true)
      else resolveLoop cwd rest (p +:+ "/" +:+ acc)
  end.

(** [path.resolve(...args)] in working directory [cwd] *)
Definition resolve (cwd : string) (args : list string) : string :=
  let '(joined, abs) := resolveLoop cwd (rev args) "" in
  let q := normalizeString joined (negb abs) in
  if abs then "/" +:+ q
  else if String.eqb q "" then "." else q.

(** Index of the last non-empty segment. *)
Fixpoint lastNonEmpty (segs : list string) : option nat :=
  match segs with
  | [] => None
  | s :: rest =>
      match lastNonEmpty rest with
      | Some i => Some (S i)
      | None => if String.eqb s "" then None else Some 0
      end
  end.

(** [path.dirname(p)] *)
Definition dirname (p : string) : string :=
  if String.eqb p "" then "."
  else
    match lastNonEmpty (segments p) with
    | None => "/"
    | Some 0 => "."
    | Some i =>
        let pre := Str.join "/" (take i (segments p)) in
        if String.eqb pre "" then "/"
        else if isAbsolute p && Nat.eqb (String.length pre) 1 then "//"
        else pre
    end.

(** [path.basename(p)] *)
Definition basename (p : string) : string :=
  match lastNonEmpty (segments p) with
  | None => ""
  | Some i => nth i (segments p) ""
  end.

Definition dropEnd (n : nat) (s : string) : string :=
  substring 0 (String.length s - n) s.

(** [path.basename(p, ext)]: the extension is removed from the last
    segment when it is a proper suffix of it. *)
Definition basenameExt (p ext : string) : string :=
  if String.eqb ext "" || negb (Nat.leb (String.length ext) (String.length p))
  then basename p
  else if String.eqb ext p then ""
  else
    match lastNonEmpty (segments p) with
    | None => p
    | Some i =>
        let b := nth i (segments p) "" in
        if Str.endsWith ext b then
          (if String.eqb ext b then b else dropEnd (String.length ext) b)
        else if Str.endsWith b ext then
          b +:+ Str.join "/" (map (fun _ => "") (drop i (segments p)))
        else b
    end.

Fixpoint stripCommon (xs ys : list string) : list string * list string :=
  match xs, ys with
  | x :: xs', y :: ys' => if String.eqb x y then stripCommon xs' ys' else (xs, ys)
  | _, _ => (xs, ys)
  end.

Definition nonEmptySegments (p : string) : list string :=
  filter (fun s => s <> "") (segments p).

(** [path.relative(from, to)] in working directory [cwd] *)
Definition relative (cwd from to : string) : string :=
  let f := resolve cwd [from] in
  let t := resolve cwd [to] in
  if String.eqb f t then ""
  else
    let '(up, down) := stripCommon (nonEmptySegments f) (nonEmptySegments t) in
    Str.join "/" (map (fun _ => "..") up ++ down).

End Path.

(** ** The class table

    [prop-types.js] and [three-class-config.js] are data of the script; the
    table is an input of every function below. *)

(** Modelled from the spec: the classes of [prop-types.js] are not part of
    the script.  A property descriptor is known by its capability surface:
    the class it is an instance of, the class or classes it names, and what
    its methods return. *)
Inductive PropClass : Type :=
| ThreeType | InitializedThreeType | ThreeTypeArray | ThreeTypeDict
| OtherType.

(** The value of [prop.typeName]: a string, an array of strings, or anything
    else ([undefined] for the descriptors that name no class). *)
Inductive TypeName : Type :=
| TypeNameString (s : string)
| TypeNameArray (names : list string)
| TypeNameOther.

Record PropType : Type := {
  propClass : PropClass;
  typeName : TypeName;
  serializer : option string;
  enumTypeName : option string;
  getJSPropertyValue : string;
  getPropArrayName : option string;
  getPropertyConverterFn : option string;
  getPropertyAssignmentFn : string;
  getTraitlet : string;
  getPythonDefaultValue : string;
}.

(** [prop instanceof Types.ThreeType || prop instanceof Types.InitializedThreeType
     || prop instanceof Types.ThreeTypeArray || prop instanceof Types.ThreeTypeDict] *)
Definition isThreeReference (p : PropType) : bool :=
  match propClass p with
  | ThreeType | InitializedThreeType | ThreeTypeArray | ThreeTypeDict => true
  | OtherType => false
  end.

(** An entry of [classConfigs], and also the object [getClassConfig] returns:
    the result starts as a copy of the entry and gains [allProperties]. *)
Record ClassConfig : Type := {
  relativePath : option string;
  superClass : option string;
  properties : option (JsObject.t PropType);
  constructorArgs : option (list string);
  dependencies : option (list string);
  propsDefinedByThree : option (list string);
  allProperties : option (JsObject.t PropType);
}.

Definition emptyConfig : ClassConfig :=
  {| relativePath := None; superClass := None; properties := None;
     constructorArgs := None; dependencies := None;
     propsDefinedByThree := None; allProperties := None |}.

Definition ClassConfigs : Type := JsObject.t ClassConfig.

(** The names every object inherits from [Object.prototype]; the operator
    [in] and a property read see them. *)
Definition objectPrototypeKeys : list string :=
  [ "constructor"; "hasOwnProperty"; "isPrototypeOf"; "propertyIsEnumerable";
    "toLocaleString"; "toString"; "valueOf"; "__proto__";
    "__defineGetter__"; "__defineSetter__"; "__lookupGetter__"; "__lookupSetter__" ].

Definition inheritedKey (k : string) : bool :=
  existsb (String.eqb k) objectPrototypeKeys.

(** [className in classConfigs] *)
Definition inClassConfigs (classConfigs : ClassConfigs) (className : string) : bool :=
  JsObject.has className classConfigs || inheritedKey className.

(** [classConfigs[className]] once [className in classConfigs] holds: an
    inherited member carries none of the fields of an entry. *)
Definition classConfigAt (classConfigs : ClassConfigs) (className : string)
  : option ClassConfig :=
  match JsObject.get className classConfigs with
  | Some c => Some c
  | None => if inheritedKey className then Some emptyConfig else None
  end.

Definition orElse {A} (o d : option A) : option A :=
  match o with Some _ => o | None => d end.

(** [_.defaults(result, defaults)]: every field left [undefined] is filled. *)
Definition applyDefaults (result : ClassConfig) (defaults : option ClassConfig)
  : ClassConfig :=
  match defaults with
  | None => result
  | Some d =>
      {| relativePath := orElse (relativePath result) (relativePath d);
         superClass := orElse (superClass result) (superClass d);
         properties := orElse (properties result) (properties d);
         constructorArgs := orElse (constructorArgs result) (constructorArgs d);
         dependencies := orElse (dependencies result) (dependencies d);
         propsDefinedByThree :=
           orElse (propsDefinedByThree result) (propsDefinedByThree d);
         allProperties := orElse (allProperties result) (allProperties d) |}
  end.

(** [x || []] *)
Definition orEmpty {A} (o : option (list A)) : list A :=
  match o with Some l => l | None => [] end.

Definition normalizeClassName (className : string) : string :=
  Str.replaceChar "." "_" className.

(** [curClass.superClass && curClass.superClass !== classConfigs._defaults.superClass]:
    the superclass to resolve first, if any.  Reading [superClass] of a
    missing [_defaults] record raises. *)
Definition superClassToResolve (classConfigs : ClassConfigs) (curClass : ClassConfig)
  : Res (option string) :=
  if Str.truthy (superClass curClass) then
    match JsObject.get "_defaults" classConfigs with
    | None => Throw (TypeError "Cannot read property 'superClass' of undefined")
    | Some d =>
        match superClass curClass, superClass d with
        | Some s, Some s0 => Ok (if String.eqb s s0 then None else Some s)
        | Some s, None => Ok (Some s)
        | None, _ => Ok None
        end
    end
  else Ok None.

(** [getClassConfig(className)]; [depth] is the room left on the call stack. *)
Fixpoint getClassConfig (depth : nat) (classConfigs : ClassConfigs) (className : string)
  : Res ClassConfig :=
  match depth with
  | 0 => Throw stackExhausted
  | S depth' =>
      let className := normalizeClassName className in
      match classConfigAt classConfigs className with
      | None => Throw (Error ("invalid class name: " +:+ className))
      | Some curClass =>
          let own := [] ++ orEmpty (propsDefinedByThree curClass) in
          sup ← superClassToResolve classConfigs curClass;
          inherited ←
            match sup with
            | Some superName =>
                superClassConfig ← getClassConfig depth' classConfigs superName;
                mret (JsObject.assign [] (default [] (allProperties superClassConfig)),
                      own ++ orEmpty (propsDefinedByThree superClassConfig))
            | None => mret ([], own)
            end;
          let result :=
            {| relativePath := relativePath curClass;
               superClass := superClass curClass;
               properties := properties curClass;
               constructorArgs := constructorArgs curClass;
               dependencies := dependencies curClass;
               propsDefinedByThree := Some (snd inherited);
               allProperties :=
                 Some (JsObject.assign (fst inherited)
                         (default [] (properties curClass))) |} in
          mret (applyDefaults result (JsObject.get "_defaults" classConfigs))
      end
  end.

(** ** The superclass chain of a class *)

(** [superStep cs a b]: resolving [a] makes [getClassConfig] resolve [b]. *)
Definition superStep (classConfigs : ClassConfigs) (a b : string) : Prop :=
  exists c,
    classConfigAt classConfigs (normalizeClassName a) = Some c /\
    superClassToResolve classConfigs c = Ok (Some b).

(** [SuperChain cs name chain]: [chain] lists the entries met from [name]
    upwards, the most derived class first, down to a class that has no
    superclass to resolve (none, or the one of [_defaults]). *)
Inductive SuperChain (classConfigs : ClassConfigs) : string -> list ClassConfig -> Prop :=
| SuperChain_root name c :
    classConfigAt classConfigs (normalizeClassName name) = Some c ->
    superClassToResolve classConfigs c = Ok None ->
    SuperChain classConfigs name [c]
| SuperChain_step name c superName rest :
    classConfigAt classConfigs (normalizeClassName name) = Some c ->
    superClassToResolve classConfigs c = Ok (Some superName) ->
    SuperChain classConfigs superName rest ->
    SuperChain classConfigs name (c :: rest).

(** The descriptor of property [p] given by the most derived class of the
    chain that declares it. *)
Fixpoint mostDerived (p : string) (chain : list ClassConfig) : option PropType :=
  match chain with
  | [] => None
  | c :: ancestors =>
      match JsObject.get p (default [] (properties c)) with
      | Some d => Some d
      | None => mostDerived p ancestors
      end
  end.

(** What a cycle guard would give: at some stack depth the resolution ends
    with an error thrown by the script itself. *)
Definition failsWithScriptError (classConfigs : ClassConfigs) (className : string) : Prop :=
  exists depth msg, getClassConfig depth classConfigs className = Throw (Error msg).

(** ** The environment of a run *)

(** What the script reads from outside: the working directory and its own
    directory ([__dirname]), the class table, which files exist
    ([fse.existsSync]), and the room on the call stack. *)
Record Env : Type := {
  cwd : string;
  scriptDir : string;
  classConfigs : ClassConfigs;
  existsSync : string -> bool;
  stackDepth : nat;
}.

Definition baseDir (env : Env) : string := Path.resolve (cwd env) [scriptDir env; ".."].
Definition jsSrcDir (env : Env) : string := Path.resolve (cwd env) [baseDir env; "src/"].
Definition pySrcDir (env : Env) : string :=
  Path.resolve (cwd env) [baseDir env; ".."; "pythreejs"].

Definition AUTOGEN_EXT : string := "autogen".
Definition JS_AUTOGEN_EXT : string := "." +:+ AUTOGEN_EXT +:+ ".js".
Definition generatorScriptName : string := "generate-wrappers.js".

Definition CUSTOM_CLASSES : list string :=
  [ "textures/ImageTexture.js"; "textures/TextTexture.js";
    "cameras/CombinedCamera.js"; "controls/Controls.js";
    "controls/OrbitControls.js"; "controls/TrackballControls.js";
    "controls/FlyControls.js"; "controls/Picker.js";
    "core/BaseGeometry.js"; "core/BaseBufferGeometry.js";
    "objects/CloneArray.js"; "objects/Blackbox.js" ].

(** [path] functions reject an argument that is not a string. *)
Definition assertPath (p : option string) : Res string :=
  match p with
  | Some s => Ok s
  | None => Throw (TypeError "Path must be a string. Received undefined")
  end.

(** [key[0] === '_'] *)
Definition startsWithUnderscore (key : string) : bool :=
  match key with
  | String a _ => Ascii.eqb a "_"
  | EmptyString => false
  end.

Definition optionStringEqb (a b : option string) : bool :=
  match a, b with
  | Some x, Some y => String.eqb x y
  | None, None => true
  | _, _ => false
  end.

(** [getExtraDefines(className)]: the other classes of the same source
    unit.  This is the list returned; the line printed with it is
    [logExtraDefines] below. *)
Definition getExtraDefines (classConfigs : ClassConfigs) (className : string)
  : Res (list string) :=
  let className := normalizeClassName className in
  match classConfigAt classConfigs className with
  | None => Throw (Error ("invalid class name: " +:+ className))
  | Some cur =>
      let sourceUnit := relativePath cur in
      Ok (omap (fun kv : string * ClassConfig =>
                  let key := fst kv in
                  if startsWithUnderscore key then None
                  else if optionStringEqb (relativePath (snd kv)) sourceUnit
                          && negb (String.eqb key className)
                       then Some key else None)
               (JsObject.entries classConfigs))
  end.

(** [relativePathToPythonImportPath(relativePath)] *)
Definition isPathSep (a : ascii) : bool := Ascii.eqb a "\" || Ascii.eqb a "/".

Definition relativePathToPythonImportPath (relativePath : string) : string :=
  let tokens := Str.splitOn isPathSep relativePath in
  let firstToken := hd "" tokens in
  if Nat.leb (length tokens) 0 then "."
  else
    let '(tokens, result) :=
      if String.eqb firstToken "." then (tl tokens, "")
      else if String.eqb firstToken ".." then (tl tokens, ".")
      else (tokens, "") in
    let '(result, sawFolderToken) :=
      fold_left (fun (st : string * bool) token =>
                   if String.eqb token "." then st
                   else if String.eqb token ".." then (fst st +:+ ".", snd st)
                   else (fst st +:+ "." +:+ token, true))
                tokens (result, false) in
    if negb sawFolderToken then result +:+ "." else result.

(** ** Effects of the generators

    A generator logs to the console and hands files to [fse.outputFile].
    What was logged and written before a [throw] stays. *)

Inductive LogEntry : Type :=
| LogText (line : string)
| LogError (e : JsError).

Record Effects : Type := {
  console : list LogEntry;
  outputFiles : list (string * string);   (* [fse.outputFile]: path, content *)
  ensuredFiles : list string;             (* [fse.ensureFile]: path *)
}.

Definition noEffects : Effects :=
  {| console := []; outputFiles := []; ensuredFiles := [] |}.

Definition andThen (a b : Effects) : Effects :=
  {| console := console a ++ console b;
     outputFiles := outputFiles a ++ outputFiles b;
     ensuredFiles := ensuredFiles a ++ ensuredFiles b |}.

Record Gen (A : Type) : Type := mkGen { effects : Effects; outcome : Res A }.
Arguments mkGen {A} effects outcome.
Arguments effects {A} g.
Arguments outcome {A} g.

#[global] Instance Gen_ret : MRet Gen := fun A a => mkGen noEffects (Ok a).
#[global] Instance Gen_bind : MBind Gen := fun A B f m =>
  match outcome m with
  | Ok a => mkGen (andThen (effects m) (effects (f a))) (outcome (f a))
  | Throw e => mkGen (effects m) (Throw e)
  end.

Definition liftRes {A} (r : Res A) : Gen A := mkGen noEffects r.
Definition consoleLog (entry : LogEntry) : Gen unit :=
  mkGen {| console := [entry]; outputFiles := []; ensuredFiles := [] |} (Ok tt).
Definition outputFile (path content : string) : Gen unit :=
  mkGen {| console := []; outputFiles := [(path, content)]; ensuredFiles := [] |} (Ok tt).
Definition ensureFile (path : string) : Gen unit :=
  mkGen {| console := []; outputFiles := []; ensuredFiles := [path] |} (Ok tt).
(** Run a generator for its effects only, as [forEach] does with what its
    callback returns. *)
Definition forEffects {A} (g : Gen A) : Gen unit :=
  mkGen (effects g) (Ok tt).

Fixpoint foldRes {A B} (f : A -> B -> Res A) (l : list B) (a : A) : Res A :=
  match l with
  | [] => Ok a
  | b :: l' => a' ← f a b; foldRes f l' a'
  end.

Fixpoint mapRes {A B} (f : A -> Res B) (l : list A) : Res (list B) :=
  match l with
  | [] => Ok []
  | a :: l' => b ← f a; bs ← mapRes f l'; mret (b :: bs)
  end.

Fixpoint forEachGen {A} (f : A -> Gen unit) (l : list A) : Gen unit :=
  match l with
  | [] => mret tt
  | a :: l' => _ ← f a; forEachGen f l'
  end.

(** The end of [getExtraDefines]: a list that is not empty is printed,
    [console.log('extra defines found: ' + shared)]. *)
Definition logExtraDefines (shared : list string) : Gen unit :=
  if Nat.ltb 0 (length shared)
  then consoleLog (LogText ("extra defines found: " +:+ Str.join "," shared))
  else mret tt.

(** What [createJavascriptWrapper] and [createPythonWrapper] return: the
    promise of the write, or [Promise.resolve(false)] for a skipped class. *)
Inductive CreateResult : Type :=
| Skipped
| Written (path : string).

Definition Date : Type := string.
Definition newline : string := String (ascii_of_nat 10) EmptyString.

(** ** The JavaScript wrapper *)

Module JsRequire.
(** What [getRequireInfoFromClassDescriptor] returns. *)
Record t : Type := {
  className : string;
  relativePath : string;
  modelName : string;
  absolutePath : string;
  requirePath : string;
}.
End JsRequire.

Module JsProperty.
Record t : Type := {
  defaultJson : string;
  property_array_name : option string;
  property_converter : option string;
  property_assigner : string;
}.
End JsProperty.

Module JsOverride.
Record t : Type := { relativePath : string; modelName : string }.
End JsOverride.

Module JsContext.
(** The rendering context handed to the template [js_wrapper]. *)
Record t : Type := {
  now : Date;
  generatorScriptName : string;
  className : string;
  viewName : option string;
  modelName : string;
  superClass : JsRequire.t;
  constructor_args : list string;
  properties : JsObject.t JsProperty.t;
  dependencies : JsObject.t JsRequire.t;
  props_created_by_three : option (list string);
  serialized_props : JsObject.t string;
  enum_properties : JsObject.t string;
  override_class : option JsOverride.t;
}.

(** The context with another date. *)
Definition setNow (date : Date) (c : t) : t :=
{| now := date;
   generatorScriptName := generatorScriptName c;
   className := className c;
   viewName := viewName c;
   modelName := modelName c;
   superClass := superClass c;
   constructor_args := constructor_args c;
   properties := properties c;
   dependencies := dependencies c;
   props_created_by_three := props_created_by_three c;
   serialized_props := serialized_props c;
   enum_properties := enum_properties c;
   override_class := override_class c |}.
End JsContext.

Module JsWrapper.
(** The fields of a [JavascriptWrapper] instance. *)
Record t : Type := {
  jsDestPath : string;
  destDir : string;
  relativePathToBase : string;
  jsAutoDestPath : string;
  className : string;
  config : ClassConfig;
  modelName : string;
  hasOverride : bool;
  superClass : JsRequire.t;
  dependencies : JsObject.t JsRequire.t;
  properties : JsObject.t JsProperty.t;
  serializedProps : JsObject.t string;
  enum_properties : JsObject.t string;
  constructorArgs : list string;
  overrideClass : option JsOverride.t;
  context : JsContext.t;
  output : string;
}.
End JsWrapper.

Module JavascriptWrapper.

(** [getRequireInfoFromClassDescriptor(classDescriptor)]; [destDir] is
    [this.destDir]. *)
Definition getRequireInfoFromClassDescriptor
  (env : Env) (destDir : string) (classDescriptor : option string) : Res JsRequire.t :=
  match classDescriptor with
  | Some classDescriptor =>
      described ←
        (if inClassConfigs (classConfigs env) classDescriptor then
           config ← getClassConfig (stackDepth env) (classConfigs env) classDescriptor;
           mret (classDescriptor, relativePath config)
         else
           mret (Path.basenameExt classDescriptor ".js", Some classDescriptor));
      relPath ← assertPath (snd described);
      let absolutePath := Path.resolve (cwd env) [jsSrcDir env; relPath] in
      let absPath :=
        if existsSync env (absolutePath +:+ ".js") then absolutePath +:+ ".js"
        else absolutePath +:+ JS_AUTOGEN_EXT in
      let requirePath :=
        Str.replaceChar "\" "/" (Path.relative (cwd env) destDir absPath) in
      let requirePath :=
        match requirePath with
        | String "." _ => requirePath
        | _ => "./" +:+ requirePath
        end in
      mret {| JsRequire.className := fst described;
              JsRequire.relativePath := relPath;
              JsRequire.modelName := fst described +:+ "Model";
              JsRequire.absolutePath := absolutePath;
              JsRequire.requirePath := requirePath |}
  | None => Throw (Error "invalid classDescriptor: undefined")
  end.

(** [processSuperClass()] *)
Definition processSuperClass (env : Env) (destDir : string) (config : ClassConfig)
  : Res JsRequire.t :=
  getRequireInfoFromClassDescriptor env destDir (superClass config).

(** The callback of the second [_.reduce] of [processDependencies]. *)
Definition inferDependencies (env : Env) (destDir : string)
  (result : JsObject.t JsRequire.t) (prop : PropType) : Res (JsObject.t JsRequire.t) :=
  if isThreeReference prop then
    match typeName prop with
    | TypeNameString name =>
        if String.eqb name "this" then Ok result
        else
          let typeName := if String.eqb name "" then "./_base/Three" else name in
          info ← getRequireInfoFromClassDescriptor env destDir (Some typeName);
          mret (JsObject.set typeName info result)
    | TypeNameArray names =>
        foldRes (fun result typeName =>
                   info ← getRequireInfoFromClassDescriptor env destDir (Some typeName);
                   mret (JsObject.set typeName info result))
                names result
    | TypeNameOther => Ok result
    end
  else Ok result.

(** [processDependencies()] *)
Definition processDependencies (env : Env) (destDir : string) (config : ClassConfig)
  : Res (JsObject.t JsRequire.t) :=
  dependencies ←
    foldRes (fun result depName =>
               info ← getRequireInfoFromClassDescriptor env destDir (Some depName);
               mret (JsObject.set depName info result))
            (orEmpty (dependencies config)) [];
  foldRes (inferDependencies env destDir)
          (map snd (JsObject.entries (default [] (properties config))))
          dependencies.

(** [processProperties()]: the render records, the serializers and the
    enum types of the own properties. *)
Definition processProperties (config : ClassConfig)
  : JsObject.t JsProperty.t * JsObject.t string * JsObject.t string :=
  let own := JsObject.entries (default [] (properties config)) in
  let rendered :=
    map (fun kv : string * PropType =>
           (fst kv,
            {| JsProperty.defaultJson := getJSPropertyValue (snd kv);
               JsProperty.property_array_name := getPropArrayName (snd kv);
               JsProperty.property_converter := getPropertyConverterFn (snd kv);
               JsProperty.property_assigner := getPropertyAssignmentFn (snd kv) |}))
        own in
  let serialized :=
    omap (fun kv : string * PropType =>
            if Str.truthy (serializer (snd kv))
            then option_map (pair (fst kv)) (serializer (snd kv)) else None)
         own in
  let enums :=
    fold_left (fun result (kv : string * PropType) =>
                 if Str.truthy (enumTypeName (snd kv))
                 then match enumTypeName (snd kv) with
                      | Some e => JsObject.set (fst kv) e result
                      | None => result
                      end
                 else result)
              own [] in
  (rendered, serialized, enums).

(** [getModelToThreeGetter(propName)] *)
Definition getModelToThreeGetter (config : ClassConfig) (propName : string) : Res string :=
  match JsObject.get propName (default [] (allProperties config)) with
  | Some prop =>
      if Str.truthy (getPropertyConverterFn prop) then
        Ok ("this." +:+ default "" (getPropertyConverterFn prop)
            +:+ "ModelToThree(this.get('" +:+ propName +:+ "'), '" +:+ propName +:+ "')")
      else Ok ("this.get('" +:+ propName +:+ "')")
  | None =>
      if inheritedKey propName
      then Throw (TypeError "prop.getPropertyConverterFn is not a function")
      else Throw (Error ("invalid propName: " +:+ propName))
  end.

Definition getConstructorParametersObject (config : ClassConfig) : Res (list string) :=
  lines ← mapRes (fun propName =>
                    getter ← getModelToThreeGetter config propName;
                    mret ("                " +:+ propName +:+ ": " +:+ getter +:+ ","))
                 (JsObject.keys (default [] (properties config)));
  mret (["{"] ++ lines ++ ["            }"]).

(** [processConstructorArgs()] *)
Definition processConstructorArgs (config : ClassConfig) : Res (list string) :=
  match constructorArgs config with
  | None => Throw (TypeError "Cannot read property 'map' of undefined")
  | Some args =>
      mapRes (fun propName =>
                if String.eqb propName "parameters" then
                  lines ← getConstructorParametersObject config;
                  mret (Str.join newline lines)
                else getModelToThreeGetter config propName)
             args
  end.

(** [processOverrideClass()]; [this.modelClass] is never set. *)
Definition processOverrideClass (hasOverride : bool) (className : string)
  : Gen (option JsOverride.t) :=
  if negb hasOverride then mret None
  else
    _ ← consoleLog (LogText ("JS override exists for " +:+ className));
    mret (Some {| JsOverride.relativePath := "./" +:+ className +:+ ".js";
                  JsOverride.modelName := "Override" +:+ "." +:+ "undefined" |}).

(** The first branch of the constructor: the class is the one given, or
    the one named after the source unit, whose extra classes then get
    wrappers of their own.  Returns [this.className] and
    [this.jsAutoDestPath]. *)
Definition nameClass
  (createExtra : string -> option string -> Gen CreateResult)
  (env : Env) (modulePath : string) (className : option string)
  (jsAutoDestPath : string) : Gen (string * string) :=
  if Str.truthy className then
    let name := default "" className in
    mret (name,
          Path.resolve (cwd env)
            [Path.dirname jsAutoDestPath; name +:+ "." +:+ AUTOGEN_EXT +:+ ".js"])
  else
    let name := normalizeClassName (Path.basenameExt modulePath ".js") in
    extraDefines ← liftRes (getExtraDefines (classConfigs env) name);
    _ ← logExtraDefines extraDefines;
    _ ← forEachGen (fun extraClassName =>
                      forEffects (createExtra modulePath (Some extraClassName)))
                   extraDefines;
    mret (name, jsAutoDestPath).

(** [new JavascriptWrapper(modulePath, className)].  [createExtra] is
    [createJavascriptWrapper], called for the extra classes of the source
    unit; [template] is the compiled [js_wrapper] template and [now] the
    clock reading. *)
Definition new
  (createExtra : string -> option string -> Gen CreateResult)
  (env : Env) (template : JsContext.t -> string) (now : Date)
  (modulePath : string) (className : option string) : Gen JsWrapper.t :=
  let jsDestPath := Path.resolve (cwd env) [jsSrcDir env; modulePath] in
  let destDir := Path.dirname jsDestPath in
  let relativePathToBase := Path.relative (cwd env) destDir (jsSrcDir env) in
  let jsAutoDestPath :=
    Path.resolve (cwd env)
      [destDir; Path.basenameExt jsDestPath ".js" +:+ "." +:+ AUTOGEN_EXT +:+ ".js"] in
  named ← nameClass createExtra env modulePath className jsAutoDestPath;
  let className := fst named in
  let jsAutoDestPath := snd named in
  config ← liftRes (getClassConfig (stackDepth env) (classConfigs env) className);
  let modelName := className +:+ "Model" in
  let customSrcPath :=
    Path.join (Path.dirname jsDestPath) (Path.basenameExt jsDestPath ".js" +:+ ".js") in
  let hasOverride := existsSync env customSrcPath in
  superClass ← liftRes (processSuperClass env destDir config);
  dependencies ← liftRes (processDependencies env destDir config);
  let '(properties, serializedProps, enum_properties) := processProperties config in
  constructorArgs ← liftRes (processConstructorArgs config);
  overrideClass ← processOverrideClass hasOverride className;
  let context :=
    {| JsContext.now := now;
       JsContext.generatorScriptName := generatorScriptName;
       JsContext.className := className;
       JsContext.viewName := None;
       JsContext.modelName := modelName;
       JsContext.superClass := superClass;
       JsContext.constructor_args := constructorArgs;
       JsContext.properties := properties;
       JsContext.dependencies := dependencies;
       JsContext.props_created_by_three := propsDefinedByThree config;
       JsContext.serialized_props := serializedProps;
       JsContext.enum_properties := enum_properties;
       JsContext.override_class := overrideClass |} in
  mret {| JsWrapper.jsDestPath := jsDestPath;
          JsWrapper.destDir := destDir;
          JsWrapper.relativePathToBase := relativePathToBase;
          JsWrapper.jsAutoDestPath := jsAutoDestPath;
          JsWrapper.className := className;
          JsWrapper.config := config;
          JsWrapper.modelName := modelName;
          JsWrapper.hasOverride := hasOverride;
          JsWrapper.superClass := superClass;
          JsWrapper.dependencies := dependencies;
          JsWrapper.properties := properties;
          JsWrapper.serializedProps := serializedProps;
          JsWrapper.enum_properties := enum_properties;
          JsWrapper.constructorArgs := constructorArgs;
          JsWrapper.overrideClass := overrideClass;
          JsWrapper.context := context;
          JsWrapper.output := template context |}.

Definition getOutputFilename (wrapper : JsWrapper.t) : string :=
  JsWrapper.jsAutoDestPath wrapper.

End JavascriptWrapper.

(** The text logged after ["skipping: "]. *)
Definition skippedUnit (modulePath : string) (className : option string) : string :=
  modulePath +:+ (if Str.truthy className then ":" +:+ default "" className else "").

(** [createJavascriptWrapper(modulePath, className)]; [depth] is the room
    left on the call stack for the nested wrappers of extra classes. *)
Fixpoint createJavascriptWrapperAt (depth : nat)
  (env : Env) (template : JsContext.t -> string) (now : Date)
  (modulePath : string) (className : option string) : Gen CreateResult :=
  let constructed :=
    match depth with
    | 0 => liftRes (Throw stackExhausted)
    | S depth' =>
        JavascriptWrapper.new (createJavascriptWrapperAt depth' env template now)
          env template now modulePath className
    end in
  match outcome constructed with
  | Throw e =>
      _ ← forEffects constructed;
      _ ← consoleLog (LogText "error creating wrapper: ");
      _ ← consoleLog (LogError e);
      _ ← consoleLog (LogText ("skipping: " +:+ skippedUnit modulePath className));
      mret Skipped
  | Ok wrapper =>
      _ ← forEffects constructed;
      _ ← outputFile (JavascriptWrapper.getOutputFilename wrapper) (JsWrapper.output wrapper);
      mret (Written (JavascriptWrapper.getOutputFilename wrapper))
  end.

Definition createJavascriptWrapper (env : Env) := createJavascriptWrapperAt (stackDepth env) env.

(** ** The Python wrapper *)

Module PyRequire.
(** What the Python [getRequireInfoFromClassDescriptor] returns. *)
Record t : Type := {
  className : string;
  relativePath : string;
  absolutePath : string;
  requirePath : string;
  pyRelativePath : string;
}.

(** [info.className = name] *)
Definition setClassName (name : string) (info : t) : t :=
  {| className := name;
     relativePath := relativePath info;
     absolutePath := absolutePath info;
     requirePath := requirePath info;
     pyRelativePath := pyRelativePath info |}.
End PyRequire.

Module PyProperty.
Record t : Type := { trait_declaration : string; defaultJson : string }.
End PyProperty.

Module PyConstructorArg.
Record t : Type := { name : string; prop_defaultJson : string }.
End PyConstructorArg.

Module PyContext.
(** The rendering context handed to the template [py_wrapper]. *)
Record t : Type := {
  now : Date;
  generatorScriptName : string;
  threejs_docs_url : string;
  py_base_relative_path : string;
  constructor_args : list PyConstructorArg.t;
  constructor_hasParameters : bool;
  className : string;
  modelName : string;
  superClass : PyRequire.t;
  properties : JsObject.t PyProperty.t;
  dependencies : JsObject.t PyRequire.t;
  hasOverride : bool;
  isCustom : bool;
}.

(** The context with another date. *)
Definition setNow (date : Date) (c : t) : t :=
{| now := date;
   generatorScriptName := generatorScriptName c;
   threejs_docs_url := threejs_docs_url c;
   py_base_relative_path := py_base_relative_path c;
   constructor_args := constructor_args c;
   constructor_hasParameters := constructor_hasParameters c;
   className := className c;
   modelName := modelName c;
   superClass := superClass c;
   properties := properties c;
   dependencies := dependencies c;
   hasOverride := hasOverride c;
   isCustom := isCustom c |}.
End PyContext.

Module PyWrapper.
(** The fields of a [PythonWrapper] instance. *)
Record t : Type := {
  modulePath : string;
  dirRelativePath : string;
  destDirAbsolutePath : string;
  destDirRelativeToBase : string;
  basename : string;
  className : string;
  pyDestPath : string;
  pyAutoDestPath : string;
  pyBaseRelativePath : string;
  hasOverride : bool;
  isCustom : bool;
  hasParameters : bool;
  config : ClassConfig;
  superClass : PyRequire.t;
  dependencies : JsObject.t PyRequire.t;
  properties : JsObject.t PyProperty.t;
  docsUrl : string;
  constructorArgs : list PyConstructorArg.t;
  context : PyContext.t;
  output : string;
}.
End PyWrapper.

Module PythonWrapper.

(** [getRequireInfoFromClassDescriptor(classDescriptor)];
    [destDirAbsolutePath] is [this.destDirAbsolutePath]. *)
Definition getRequireInfoFromClassDescriptor
  (env : Env) (destDirAbsolutePath : string) (classDescriptor : option string)
  : Res PyRequire.t :=
  match classDescriptor with
  | Some classDescriptor =>
      described ←
        (if inClassConfigs (classConfigs env) classDescriptor then
           config ← getClassConfig (stackDepth env) (classConfigs env) classDescriptor;
           mret (classDescriptor, relativePath config)
         else
           mret (Path.basenameExt classDescriptor ".js", Some classDescriptor));
      relPath ← assertPath (snd described);
      let absolutePath := Path.resolve (cwd env) [pySrcDir env; relPath] in
      let absolutePath :=
        if negb (existsSync env (absolutePath +:+ ".py"))
        then absolutePath +:+ "_" +:+ AUTOGEN_EXT
        else absolutePath in
      let requirePath := Path.relative (cwd env) destDirAbsolutePath absolutePath in
      mret {| PyRequire.className := fst described;
              PyRequire.relativePath := relPath;
              PyRequire.absolutePath := absolutePath;
              PyRequire.requirePath := requirePath;
              PyRequire.pyRelativePath := relativePathToPythonImportPath requirePath |}
  | None => Throw (Error "invalid classDescriptor: undefined")
  end.

(** [if (info.className === 'Three') info.className = 'ThreeWidget'] *)
Definition renameThree (info : PyRequire.t) : PyRequire.t :=
  if String.eqb (PyRequire.className info) "Three"
  then PyRequire.setClassName "ThreeWidget" info
  else info.

(** [processSuperClass()] *)
Definition processSuperClass (env : Env) (destDirAbsolutePath : string)
  (config : ClassConfig) : Res PyRequire.t :=
  info ← getRequireInfoFromClassDescriptor env destDirAbsolutePath (superClass config);
  mret (renameThree info).

(** The callback of the second [_.reduce] of [processDependencies]. *)
Definition inferDependencies (env : Env) (destDirAbsolutePath : string)
  (result : JsObject.t PyRequire.t) (prop : PropType) : Res (JsObject.t PyRequire.t) :=
  if isThreeReference prop then
    match typeName prop with
    | TypeNameString name =>
        if String.eqb name "this" then Ok result
        else
          let typeName := if String.eqb name "" then "./_base/Three" else name in
          info ← getRequireInfoFromClassDescriptor env destDirAbsolutePath (Some typeName);
          mret (JsObject.set typeName (renameThree info) result)
    | TypeNameArray names =>
        foldRes (fun result typeName =>
                   info ← getRequireInfoFromClassDescriptor env destDirAbsolutePath
                            (Some typeName);
                   mret (JsObject.set typeName info result))
                names result
    | TypeNameOther => Ok result
    end
  else Ok result.

(** [processDependencies()] *)
Definition processDependencies (env : Env) (destDirAbsolutePath : string)
  (config : ClassConfig) : Res (JsObject.t PyRequire.t) :=
  dependencies ←
    foldRes (fun result depName =>
               info ← getRequireInfoFromClassDescriptor env destDirAbsolutePath
                        (Some depName);
               mret (JsObject.set depName info result))
            (orEmpty (dependencies config)) [];
  foldRes (inferDependencies env destDirAbsolutePath)
          (map snd (JsObject.entries (default [] (properties config))))
          dependencies.

(** [processProperties()] *)
Definition processProperties (config : ClassConfig) : JsObject.t PyProperty.t :=
  map (fun kv : string * PropType =>
         (fst kv,
          {| PyProperty.trait_declaration := getTraitlet (snd kv);
             PyProperty.defaultJson := getPythonDefaultValue (snd kv) |}))
      (JsObject.entries (default [] (properties config))).

(** [processConstructorArgs()]: the arguments, and whether one of them is
    the [parameters] bag. *)
Definition processConstructorArgs (config : ClassConfig)
  : Res (list PyConstructorArg.t * bool) :=
  match constructorArgs config with
  | None => Throw (TypeError "Cannot read property 'map' of undefined")
  | Some args =>
      constructorArgs ←
        mapRes (fun propName =>
                  if String.eqb propName "parameters" then
                    mret {| PyConstructorArg.name := propName;
                            PyConstructorArg.prop_defaultJson := "{}" |}
                  else
                    match JsObject.get propName (default [] (allProperties config)) with
                    | Some prop =>
                        mret {| PyConstructorArg.name := propName;
                                PyConstructorArg.prop_defaultJson :=
                                  getPythonDefaultValue prop |}
                    | None =>
                        if inheritedKey propName
                        then Throw (TypeError "getPythonDefaultValue is not a function")
                        else Throw (TypeError
                               "Cannot read property 'getPythonDefaultValue' of undefined")
                    end)
               args;
      mret (constructorArgs, existsb (String.eqb "parameters") args)
  end.

(** [processDocsUrl()]; the [null] stored first for a custom class is
    overwritten by the address. *)
Definition processDocsUrl (modulePath : string) : string :=
  let refTokens := Str.splitOn isPathSep modulePath in
  let refTokens :=
    take (length refTokens - 1) refTokens
      ++ [Path.basenameExt (List.last refTokens "") ".js"] in
  let refUrl := "http://threejs.org/docs/#api/" +:+ Str.join "/" refTokens in
  let refUrl := Str.replaceFirst "Renderers/WebGL/Plugins/" "Renderers.WebGL.Plugins/" refUrl in
  let refUrl := Str.replaceFirst "Renderers/WebGL/" "Renderers.WebGL/" refUrl in
  let refUrl := Str.replaceFirst "Renderers/Shaders/" "Renderers.Shaders/" refUrl in
  let refUrl := Str.replaceFirst "Extras/Animation/" "Extras.Animation/" refUrl in
  let refUrl := Str.replaceFirst "Extras/Core/" "Extras.Core/" refUrl in
  let refUrl := Str.replaceFirst "Extras/Curves/" "Extras.Curves/" refUrl in
  let refUrl := Str.replaceFirst "Extras/Geometries/" "Extras.Geometries/" refUrl in
  let refUrl := Str.replaceFirst "Extras/Helpers/" "Extras.Helpers/" refUrl in
  let refUrl := Str.replaceFirst "Extras/Objects/" "Extras.Objects/" refUrl in
  refUrl.

(** The first branch of the constructor: the class is the one given, or
    the one named after the source unit, whose extra classes then get
    wrappers of their own.  Returns [this.className]. *)
Definition nameClass
  (createExtra : string -> option string -> Gen CreateResult)
  (env : Env) (modulePath : string) (className : option string) : Gen string :=
  if Str.truthy className then mret (default "" className)
  else
    let name := normalizeClassName (Path.basenameExt modulePath ".js") in
    extraDefines ← liftRes (getExtraDefines (classConfigs env) name);
    _ ← logExtraDefines extraDefines;
    _ ← forEachGen (fun extraClassName =>
                      forEffects (createExtra modulePath (Some extraClassName)))
                   extraDefines;
    mret name.

(** [new PythonWrapper(modulePath, className)]; [createExtra] is
    [createPythonWrapper]. *)
Definition new
  (createExtra : string -> option string -> Gen CreateResult)
  (env : Env) (template : PyContext.t -> string) (now : Date)
  (modulePath : string) (className : option string) : Gen PyWrapper.t :=
  let dirRelativePath := Path.dirname modulePath in
  let destDirAbsolutePath := Path.resolve (cwd env) [pySrcDir env; dirRelativePath] in
  let destDirRelativeToBase :=
    Path.relative (cwd env) destDirAbsolutePath (pySrcDir env) in
  let basename := Path.basenameExt modulePath ".js" in
  className ← nameClass createExtra env modulePath className;
  let pyDestPath := Path.resolve (cwd env) [destDirAbsolutePath; className +:+ ".py"] in
  let pyAutoDestPath :=
    Path.resolve (cwd env)
      [destDirAbsolutePath; className +:+ "_" +:+ AUTOGEN_EXT +:+ ".py"] in
  let pyBaseRelativePath :=
    relativePathToPythonImportPath
      (Path.relative (cwd env) destDirAbsolutePath (pySrcDir env)) in
  let hasOverride := existsSync env pyDestPath in
  let isCustom := existsb (String.eqb modulePath) CUSTOM_CLASSES in
  config ← liftRes (getClassConfig (stackDepth env) (classConfigs env) className);
  superClass ← liftRes (processSuperClass env destDirAbsolutePath config);
  dependencies ← liftRes (processDependencies env destDirAbsolutePath config);
  let properties := processProperties config in
  let docsUrl := processDocsUrl modulePath in
  args ← liftRes (processConstructorArgs config);
  let context :=
    {| PyContext.now := now;
       PyContext.generatorScriptName := generatorScriptName;
       PyContext.threejs_docs_url := docsUrl;
       PyContext.py_base_relative_path := pyBaseRelativePath;
       PyContext.constructor_args := fst args;
       PyContext.constructor_hasParameters := snd args;
       PyContext.className := className;
       PyContext.modelName := className +:+ "Model";
       PyContext.superClass := superClass;
       PyContext.properties := properties;
       PyContext.dependencies := dependencies;
       PyContext.hasOverride := hasOverride;
       PyContext.isCustom := isCustom |} in
  mret {| PyWrapper.modulePath := modulePath;
          PyWrapper.dirRelativePath := dirRelativePath;
          PyWrapper.destDirAbsolutePath := destDirAbsolutePath;
          PyWrapper.destDirRelativeToBase := destDirRelativeToBase;
          PyWrapper.basename := basename;
          PyWrapper.className := className;
          PyWrapper.pyDestPath := pyDestPath;
          PyWrapper.pyAutoDestPath := pyAutoDestPath;
          PyWrapper.pyBaseRelativePath := pyBaseRelativePath;
          PyWrapper.hasOverride := hasOverride;
          PyWrapper.isCustom := isCustom;
          PyWrapper.hasParameters := snd args;
          PyWrapper.config := config;
          PyWrapper.superClass := superClass;
          PyWrapper.dependencies := dependencies;
          PyWrapper.properties := properties;
          PyWrapper.docsUrl := docsUrl;
          PyWrapper.constructorArgs := fst args;
          PyWrapper.context := context;
          PyWrapper.output := template context |}.

Definition getOutputFilename (wrapper : PyWrapper.t) : string :=
  PyWrapper.pyAutoDestPath wrapper.

End PythonWrapper.

(** [createPythonWrapper(modulePath, className)] *)
Fixpoint createPythonWrapperAt (depth : nat)
  (env : Env) (template : PyContext.t -> string) (now : Date)
  (modulePath : string) (className : option string) : Gen CreateResult :=
  let constructed :=
    match depth with
    | 0 => liftRes (Throw stackExhausted)
    | S depth' =>
        PythonWrapper.new (createPythonWrapperAt depth' env template now)
          env template now modulePath className
    end in
  match outcome constructed with
  | Throw e =>
      _ ← forEffects constructed;
      _ ← consoleLog (LogError e);
      _ ← consoleLog (LogText ("skipping: " +:+ skippedUnit modulePath className));
      mret Skipped
  | Ok wrapper =>
      _ ← forEffects constructed;
      let fname := PythonWrapper.getOutputFilename wrapper in
      _ ← outputFile fname (PyWrapper.output wrapper);
      mret (Written fname)
  end.

Definition createPythonWrapper (env : Env) := createPythonWrapperAt (stackDepth env) env.

(** ** Dependency inference, stated once for both languages *)

(** The names a property descriptor makes [processDependencies] resolve:
    nothing for a descriptor of another class or for the self-reference
    ['this'], the base type for an empty name, every element of an array. *)
Definition referencedNames (prop : PropType) : list string :=
  if isThreeReference prop then
    match typeName prop with
    | TypeNameString name =>
        if String.eqb name "this" then []
        else [if String.eqb name "" then "./_base/Three" else name]
    | TypeNameArray names => names
    | TypeNameOther => []
    end
  else [].

(** The names taken from a single string, to which the Python generator
    applies its renaming. *)
Definition singleNames (prop : PropType) : list string :=
  match typeName prop with
  | TypeNameString _ => referencedNames prop
  | _ => []
  end.

(** The names taken from an array of names. *)
Definition arrayNames (prop : PropType) : list string :=
  match typeName prop with
  | TypeNameArray _ => referencedNames prop
  | _ => []
  end.

Section DependencyScan.
Context {Info : Type}.
(** [resolve] stands for [getRequireInfoFromClassDescriptor] of either
    generator and [post] for what is done to the entry of a single name. *)
Variable resolve : string -> Res Info.
Variable post : Info -> Info.

Definition scanName (finish : Info -> Info) (result : JsObject.t Info) (name : string)
  : Res (JsObject.t Info) :=
  info ← resolve name;
  mret (JsObject.set name (finish info) result).

Definition scanProperty (result : JsObject.t Info) (prop : PropType)
  : Res (JsObject.t Info) :=
  if isThreeReference prop then
    match typeName prop with
    | TypeNameString name =>
        if String.eqb name "this" then Ok result
        else scanName post result (if String.eqb name "" then "./_base/Three" else name)
    | TypeNameArray names => foldRes (scanName id) names result
    | TypeNameOther => Ok result
    end
  else Ok result.

Definition scanConfig (config : ClassConfig) : Res (JsObject.t Info) :=
  dependencies ← foldRes (scanName id) (orEmpty (dependencies config)) [];
  foldRes scanProperty
          (map snd (JsObject.entries (default [] (properties config))))
          dependencies.
End DependencyScan.

(** The [require] path of [target] as seen from [destDir]. *)
Definition jsRequirePathTo (env : Env) (destDir target : string) : string :=
  let p := Str.replaceChar "\" "/" (Path.relative (cwd env) destDir target) in
  match p with
  | String "." _ => p
  | _ => "./" +:+ p
  end.

(** Every entry of a dependency table is what its key resolves to, as it is
    (allowed for the keys in [Q]) or after [post] (allowed for those in [P]). *)
Definition entriesResolved {Info : Type}
  (resolve : string -> Res Info) (post : Info -> Info) (P Q : string -> Prop)
  (deps : JsObject.t Info) : Prop :=
  forall k e, JsObject.get k deps = Some e ->
    exists i, resolve k = Ok i /\ ((e = i /\ Q k) \/ (e = post i /\ P k)).

(** The own properties met by [_.reduce(this.config.properties, ...)]. *)
Definition ownProperties (config : ClassConfig) : list PropType :=
  map snd (JsObject.entries (default [] (properties config))).

(** A field of a resolved configuration: the class's own value, else the
    one of [_defaults]. *)
Definition defaulted {A} (field : ClassConfig -> option A)
  (classConfigs : ClassConfigs) (cur : ClassConfig) : option A :=
  match JsObject.get "_defaults" classConfigs with
  | Some d => orElse (field cur) (field d)
  | None => field cur
  end.

(** [this.className] of a wrapper built for [modulePath] and [className]. *)
Definition wrapperClassName (modulePath : string) (className : option string) : string :=
  if Str.truthy className then default "" className
  else normalizeClassName (Path.basenameExt modulePath ".js").

(** [this.destDir] of a JavaScript wrapper and [this.destDirAbsolutePath] of
    a Python wrapper built for [modulePath]. *)
Definition jsDestDirOf (env : Env) (modulePath : string) : string :=
  Path.dirname (Path.resolve (cwd env) [jsSrcDir env; modulePath]).
Definition pyDestDirOf (env : Env) (modulePath : string) : string :=
  Path.resolve (cwd env) [pySrcDir env; Path.dirname modulePath].

(** [mapPromiseFnOverFileList(fileList, mapFn)]: [mapFn] is called on every
    file in turn and the results are gathered. *)
Fixpoint mapPromiseFnOverFileList {A} (fileList : list string) (mapFn : string -> Gen A)
  : Gen (list A) :=
  match fileList with
  | [] => mret []
  | filePath :: rest =>
      result ← mapFn filePath;
      results ← mapPromiseFnOverFileList rest mapFn;
      mret (result :: results)
  end.

(** The result of a generator call that does not throw. *)
Definition resultOf (g : Gen CreateResult) : CreateResult :=
  match outcome g with
  | Ok r => r
  | Throw _ => Skipped
  end.

(** Configuration resolution or reference resolution throws [e] while the
    JavaScript wrapper of the class is constructed. *)
Definition jsResolutionThrows (env : Env) (modulePath : string) (className : option string)
  (e : JsError) : Prop :=
  let name := wrapperClassName modulePath className in
  let destDir := jsDestDirOf env modulePath in
  getClassConfig (stackDepth env) (classConfigs env) name = Throw e
  \/ exists config,
       getClassConfig (stackDepth env) (classConfigs env) name = Ok config /\
       (JavascriptWrapper.processSuperClass env destDir config = Throw e
        \/ (exists sup, JavascriptWrapper.processSuperClass env destDir config = Ok sup) /\
           JavascriptWrapper.processDependencies env destDir config = Throw e).

(** The same for the Python wrapper. *)
Definition pyResolutionThrows (env : Env) (modulePath : string) (className : option string)
  (e : JsError) : Prop :=
  let name := wrapperClassName modulePath className in
  let destDir := pyDestDirOf env modulePath in
  getClassConfig (stackDepth env) (classConfigs env) name = Throw e
  \/ exists config,
       getClassConfig (stackDepth env) (classConfigs env) name = Ok config /\
       (PythonWrapper.processSuperClass env destDir config = Throw e
        \/ (exists sup, PythonWrapper.processSuperClass env destDir config = Ok sup) /\
           PythonWrapper.processDependencies env destDir config = Throw e).

(** ** Index files *)

Module JsIndexContext.
(** The rendering context handed to the template [js_index]. *)
Record t : Type := {
  now : Date;
  generatorScriptName : string;
  top_level : bool;
  submodules : list string;
}.

(** The context with another date. *)
Definition setNow (date : Date) (c : t) : t :=
{| now := date;
   generatorScriptName := generatorScriptName c;
   top_level := top_level c;
   submodules := submodules c |}.
End JsIndexContext.

(** An element of [excludes]: a regular expression anchored at the end, or a
    string compared as a whole. *)
Inductive ExcludePattern : Type :=
| EndsWith (suffix : string)
| Exactly (filePath : string).

Definition excludes : list ExcludePattern :=
  [ EndsWith ".swp"; EndsWith ".DS_Store"; EndsWith "index.js";
    Exactly "./embed.js"; Exactly "./extension.js" ].

(** [_.any(excludes, ...)] *)
Definition shouldExclude (filePath : string) : bool :=
  existsb (fun testPattern =>
             match testPattern with
             | EndsWith suffix => Str.endsWith suffix filePath
             | Exactly s => String.eqb s filePath
             end)
          excludes.

(** [RE_AUTOGEN_EXT.test(filePath)] *)
Definition RE_AUTOGEN_EXT (filePath : string) : bool :=
  Str.endsWith ".autogen.js" filePath.

(** The override looked for next to a generated file. *)
Definition overridePathOf (filePath : string) : string :=
  let dirname := Path.dirname filePath in
  let basename := Path.basenameExt filePath JS_AUTOGEN_EXT in
  let overrideName := basename +:+ ".js" in
  "./" +:+ Path.join dirname overrideName.

(** [dirFiles.indexOf(overridePath) > -1] *)
Definition overrideListed (dirFiles : list string) (filePath : string) : bool :=
  existsb (String.eqb (overridePathOf filePath)) dirFiles.

(** The callback of [dirFiles.filter]; [dirFiles] is the mapped listing. *)
Definition keptInIndex (dirPath : string) (dirFiles : list string) (filePath : string) : bool :=
  if Str.contains "_base" dirPath && RE_AUTOGEN_EXT filePath then false
  else if shouldExclude filePath then false
  else if RE_AUTOGEN_EXT filePath then negb (overrideListed dirFiles filePath)
  else true.

(** The [submodules] of the index of [dirPath], from the names [readdir]
    returns for it. *)
Definition indexedFiles (dirPath : string) (dirFiles : list string) : list string :=
  let dirFiles := map (fun filename => "./" +:+ Path.join dirPath filename) dirFiles in
  let dirFiles' := List.filter (keptInIndex dirPath dirFiles) dirFiles in
  map (fun filePath => "./" +:+ Path.basename filePath) dirFiles'.

(** The lines logged by the filter: one for each generated file left out in
    favour of its override. *)
Definition overrideLogs (dirPath : string) (dirFiles : list string) : list LogEntry :=
  let dirFiles := map (fun filename => "./" +:+ Path.join dirPath filename) dirFiles in
  map (fun filePath => LogText ("override exists for: " +:+ filePath))
      (List.filter (fun filePath =>
                      negb (Str.contains "_base" dirPath && RE_AUTOGEN_EXT filePath)
                      && negb (shouldExclude filePath)
                      && RE_AUTOGEN_EXT filePath
                      && overrideListed dirFiles filePath)
                   dirFiles).

(** [writeIndexForDir(dirPath, isTopLevel)]; [readdir] lists a directory. *)
Definition writeIndexForDir (env : Env) (jsIndexTemplate : JsIndexContext.t -> string)
  (now : Date) (readdir : string -> list string) (dirPath : string) (isTopLevel : bool)
  : Gen unit :=
  let dirAbsPath := Path.resolve (cwd env) [jsSrcDir env; dirPath] in
  let dirFiles := readdir dirAbsPath in
  _ ← forEachGen consoleLog (overrideLogs dirPath dirFiles);
  let context :=
    {| JsIndexContext.now := now;
       JsIndexContext.generatorScriptName := generatorScriptName;
       JsIndexContext.top_level := isTopLevel;
       JsIndexContext.submodules := indexedFiles dirPath dirFiles |} in
  let output := jsIndexTemplate context in
  let outputPath := Path.resolve (cwd env) [jsSrcDir env; dirPath; "index.js"] in
  outputFile outputPath output.

(** [writeJavascriptIndexFiles()]; [dirs] is what the glob ['**/'] matches
    under the JavaScript source directory. *)
Definition writeJavascriptIndexFiles (env : Env)
  (jsIndexTemplate : JsIndexContext.t -> string) (now : Date)
  (readdir : string -> list string) (dirs : list string) : Gen unit :=
  _ ← consoleLog (LogText "Writing javascript indices...");
  _ ← forEachGen (fun dirPath => writeIndexForDir env jsIndexTemplate now readdir dirPath false)
                 dirs;
  writeIndexForDir env jsIndexTemplate now readdir "." true.

Module PyInitContext.
(** The rendering context handed to the template [py_top_level_init]. *)
Record t : Type := {
  generatorScriptName : string;
  now : Date;
  modules : list string;      (* the [pyRelativePath] of each module *)
}.

(** The context with another date. *)
Definition setNow (date : Date) (c : t) : t :=
{| generatorScriptName := generatorScriptName c;
   now := date;
   modules := modules c |}.
End PyInitContext.

(** [createPythonModuleInitFile(modulePath)] *)
Definition createPythonModuleInitFile (env : Env) (modulePath : string) : Gen unit :=
  let dirname := Path.dirname modulePath in
  let pyInitFilePath := Path.resolve (cwd env) [pySrcDir env; dirname; "__init__.py"] in
  ensureFile pyInitFilePath.

(** The callback of the glob of [createTopLevelPythonModuleFile]: the import
    path pushed for [filePath], if any. *)
Definition topLevelModule (env : Env) (filePath : string) : option string :=
  let modulePath := Path.dirname filePath in
  let moduleName := Str.replaceChar "." "_" (Path.basenameExt filePath ".py") in
  let overridden :=
    Str.contains "autogen" moduleName &&
    (let overrideName := Str.replaceFirst "_autogen" "" moduleName in
     let overridePath :=
       Path.resolve (cwd env) [pySrcDir env; modulePath; overrideName +:+ ".py"] in
     existsSync env overridePath) in
  if overridden then None
  else if negb (String.eqb modulePath ".") then
    Some ("." +:+ Str.join "." (Str.splitOn isPathSep modulePath) +:+ "." +:+ moduleName)
  else Some ("." +:+ moduleName).

(** [createTopLevelPythonModuleFile()]; [pyFiles] is what the glob
    ['**/*.py'] matches under the Python source directory, in the order of
    the matches, which becomes the order of the imports. *)
Definition createTopLevelPythonModuleFile (env : Env)
  (pyTopLevelInitTemplate : PyInitContext.t -> string) (now : Date)
  (pyFiles : list string) : Gen unit :=
  _ ← forEachGen (fun filePath =>
                    match topLevelModule env filePath with
                    | Some _ => mret tt
                    | None =>
                        consoleLog (LogText
                          ("Python override exists: "
                           +:+ Str.replaceFirst "_autogen" ""
                                 (Str.replaceChar "." "_" (Path.basenameExt filePath ".py"))
                           +:+ ". Skipping..."))
                    end)
                 pyFiles;
  let context :=
    {| PyInitContext.generatorScriptName := generatorScriptName;
       PyInitContext.now := now;
       PyInitContext.modules := omap (topLevelModule env) pyFiles |} in
  let output := pyTopLevelInitTemplate context in
  let outFilePath := Path.resolve (cwd env) [pySrcDir env; "__init__.py"] in
  outputFile outFilePath output.

(** ** The whole run *)

(** The compiled templates. *)
Record Templates : Type := {
  jsWrapperTemplate : JsContext.t -> string;
  jsIndexTemplate : JsIndexContext.t -> string;
  pyWrapperTemplate : PyContext.t -> string;
  pyTopLevelInitTemplate : PyInitContext.t -> string;
}.

(** What the globs and [readdir] find: the modules of the three.js source
    tree, as reported to [createJavascriptFiles] and as reported to
    [createPythonFiles], which glob the tree separately; the directories of
    the JavaScript tree with their listings; and the Python files of the
    Python tree.  A list is in the order in which the glob reports its
    matches to the callback; that order is the glob's and may differ from
    one call to the next over the same tree. *)
Record Listings : Type := {
  threeModules : list string;
  jsDirs : list string;
  readdir : string -> list string;
  pyThreeModules : list string;
  pyFiles : list string;
}.

(** [createJavascriptFiles()] *)
Definition createJavascriptFiles (env : Env) (templates : Templates) (now : Date)
  (found : Listings) : Gen unit :=
  _ ← mapPromiseFnOverFileList (threeModules found)
        (fun modulePath =>
           createJavascriptWrapper env (jsWrapperTemplate templates) now modulePath None);
  _ ← mapPromiseFnOverFileList CUSTOM_CLASSES
        (fun modulePath =>
           createJavascriptWrapper env (jsWrapperTemplate templates) now modulePath None);
  writeJavascriptIndexFiles env (jsIndexTemplate templates) now (readdir found) (jsDirs found).

(** [createPythonFiles()] *)
Definition createPythonFiles (env : Env) (templates : Templates) (now : Date)
  (found : Listings) : Gen unit :=
  if negb (existsSync env (pySrcDir env)) then mret tt
  else
    let wrap := fun relativePath =>
      _ ← createPythonWrapper env (pyWrapperTemplate templates) now relativePath None;
      createPythonModuleInitFile env relativePath in
    _ ← mapPromiseFnOverFileList (pyThreeModules found) wrap;
    _ ← mapPromiseFnOverFileList CUSTOM_CLASSES wrap;
    _ ← createPythonModuleInitFile env "_base/__init__";
    createTopLevelPythonModuleFile env (pyTopLevelInitTemplate templates) now (pyFiles found).

(** [generateFiles()] *)
Definition generateFiles (env : Env) (templates : Templates) (now : Date)
  (found : Listings) : Gen unit :=
  _ ← createJavascriptFiles env templates now found;
  createPythonFiles env templates now found.


(** ** Directory listings *)

(** A name without a slash. *)
Fixpoint noSlash (s : string) : bool :=
  match s with
  | EmptyString => true
  | String a s' => negb (Path.isSlash a) && noSlash s'
  end.

(** A name as [readdir] returns it: not empty, without a slash, and neither
    [.] nor [..]. *)
Definition entryName (f : string) : Prop :=
  noSlash f = true /\ f <> "" /\ f <> "." /\ f <> "..".

(** A segment that [normalizeString] keeps as it is. *)
Definition plainSegment (s : string) : Prop :=
  s <> "" /\ s <> "." /\ s <> "..".

(** The classes a JavaScript wrapper refers to directly: its superclass and
    the keys of its dependency table; the template imports both. *)
Definition referencedClasses (w : JsWrapper.t) : list string :=
  JsRequire.className (JsWrapper.superClass w) :: JsObject.keys (JsWrapper.dependencies w).

(** ** Data of the examples *)

(** A descriptor that names no class, a descriptor of a class-referencing
    kind, the customary [_defaults] record and an entry with a path, a
    superclass and own properties. *)
Definition plainProp : PropType :=
  {| propClass := OtherType; typeName := TypeNameOther; serializer := None;
     enumTypeName := None; getJSPropertyValue := "null"; getPropArrayName := None;
     getPropertyConverterFn := None; getPropertyAssignmentFn := "assignDirect";
     getTraitlet := "Any()"; getPythonDefaultValue := "None" |}.

Definition threeProp (cls : PropClass) (name : TypeName) : PropType :=
  {| propClass := cls; typeName := name; serializer := None;
     enumTypeName := None; getJSPropertyValue := "null"; getPropArrayName := None;
     getPropertyConverterFn := Some "convertThreeType";
     getPropertyAssignmentFn := "assignDirect";
     getTraitlet := "Instance()"; getPythonDefaultValue := "None" |}.

Definition defaultsEntry : ClassConfig :=
  {| relativePath := None; superClass := Some "Three"; properties := Some [];
     constructorArgs := Some []; dependencies := None;
     propsDefinedByThree := Some []; allProperties := None |}.

Definition classEntry (path : string) (super : option string)
  (props : JsObject.t PropType) : ClassConfig :=
  {| relativePath := Some path; superClass := super; properties := Some props;
     constructorArgs := None; dependencies := None;
     propsDefinedByThree := None; allProperties := None |}.

(** The table of the specification's example: [Ring] extends [Shape], which
    extends the root class [Base]; [RingOutline] is defined in the source
    unit of [Ring]. *)
Definition exampleConfigs : ClassConfigs :=
  [ ("_defaults", defaultsEntry);
    ("Base", classEntry "./core/Base" None [("color", plainProp)]);
    ("Shape", classEntry "./core/Shape" (Some "Base") [("radius", plainProp)]);
    ("Ring", classEntry "./geometries/Ring" (Some "Shape") [("innerRadius", plainProp)]);
    ("RingOutline", classEntry "./geometries/Ring" (Some "Shape") []) ].

(** A table whose superclass references run in a circle. *)
Definition cyclicConfigs : ClassConfigs :=
  [ ("_defaults", defaultsEntry);
    ("A", classEntry "./core/A" (Some "B") []);
    ("B", classEntry "./core/B" (Some "A") []) ].

(** A table with a class whose name is written with a dot elsewhere, a
    class whose superclass is not in the table, and a class that refers to
    the latter. *)
Definition sparseConfigs : ClassConfigs :=
  [ ("_defaults", defaultsEntry);
    ("Ring_Outline", classEntry "./geometries/Ring" None []);
    ("Child", classEntry "./core/Child" (Some "Missing") []);
    ("Holder", classEntry "./core/Holder" None
       [("child", threeProp ThreeType (TypeNameString "Child"))]) ].

(** The environment of the examples: no override file exists. *)
Definition exampleEnv : Env :=
  {| cwd := "/repo/js";
     scriptDir := "/repo/js/scripts";
     classConfigs := exampleConfigs;
     existsSync := fun _ => false;
     stackDepth := 16 |}.

(** A table with references between classes: [Mesh] names [Material] by a
    single name, leaves the type of [geometry] unnamed, names [Object3D] and
    [Light] in an array and lists the base type as an explicit dependency;
    [SkinnedMesh] extends [Mesh] and refers to no class itself. *)
Definition sceneConfigs : ClassConfigs :=
  [ ("_defaults", defaultsEntry);
    ("Object3D", classEntry "./core/Object3D" None
       [("parent", threeProp ThreeType (TypeNameString "this"))]);
    ("Material", classEntry "./materials/Material" None []);
    ("Light", classEntry "./lights/Light" (Some "Object3D")
       [("color", plainProp)]);
    ("Spot", classEntry "./lights/Spot" (Some "Light")
       [("target", threeProp InitializedThreeType (TypeNameString "Three"))]);
    ("Mesh",
       {| relativePath := Some "./objects/Mesh";
          superClass := Some "Object3D";
          properties :=
            Some [ ("material", threeProp ThreeType (TypeNameString "Material"));
                   ("geometry", threeProp ThreeType (TypeNameString ""));
                   ("attachments",
                     threeProp ThreeTypeArray (TypeNameArray ["Object3D"; "Light"])) ];
          constructorArgs := Some ["geometry"; "material"];
          dependencies := Some ["Three"];
          propsDefinedByThree := None;
          allProperties := None |});
    ("SkinnedMesh", classEntry "./objects/SkinnedMesh" (Some "Mesh")
       [("bindMode", plainProp)]) ].

(** The environment of [sceneConfigs]: the Python tree exists and [Material]
    has a hand-written override in both trees. *)
Definition sceneEnv : Env :=
  {| cwd := "/repo/js";
     scriptDir := "/repo/js/scripts";
     classConfigs := sceneConfigs;
     existsSync := fun p =>
       String.eqb p "/repo/js/src/materials/Material.js"
       || String.eqb p "/repo/pythreejs/materials/Material.py"
       || String.eqb p "/repo/pythreejs";
     stackDepth := 16 |}.

(** The resolved configuration of [Mesh], the directories its wrappers are
    written to, and its dependency tables. *)
Definition meshConfig : ClassConfig :=
  Eval vm_compute in
    match getClassConfig 16 sceneConfigs "Mesh" with
    | Ok c => c
    | Throw _ => emptyConfig
    end.

Definition meshJsDestDir : string := "/repo/js/src/objects".
Definition meshPyDestDir : string := "/repo/pythreejs/objects".

Definition meshJsDependencies : JsObject.t JsRequire.t :=
  Eval vm_compute in
    match JavascriptWrapper.processDependencies sceneEnv meshJsDestDir meshConfig with
    | Ok d => d
    | Throw _ => []
    end.

Definition meshPyDependencies : JsObject.t PyRequire.t :=
  Eval vm_compute in
    match PythonWrapper.processDependencies sceneEnv meshPyDestDir meshConfig with
    | Ok d => d
    | Throw _ => []
    end.

(** A template that prints the class name and the generation date, as the
    header of a generated file does. *)
Definition datedJsTemplate (context : JsContext.t) : string :=
  "// " +:+ JsContext.className context +:+ newline
  +:+ "// Date: " +:+ JsContext.now context +:+ newline.

Definition datedPyTemplate (context : PyContext.t) : string :=
  "# " +:+ PyContext.className context +:+ newline
  +:+ "# Date: " +:+ PyContext.now context +:+ newline.

(** The Python dependency table of [Spot], whose own property names
    ['Three'] as a single name. *)
Definition spotPyDependencies : JsObject.t PyRequire.t :=
  Eval vm_compute in
    match getClassConfig 16 sceneConfigs "Spot" with
    | Ok c =>
        match PythonWrapper.processDependencies sceneEnv "/repo/pythreejs/lights" c with
        | Ok d => d
        | Throw _ => []
        end
    | Throw _ => []
    end.

(** The environment of [sparseConfigs]. *)
Definition sparseEnv : Env :=
  {| cwd := "/repo/js";
     scriptDir := "/repo/js/scripts";
     classConfigs := sparseConfigs;
     existsSync := fun _ => false;
     stackDepth := 16 |}.


(** Templates without a date. *)
Definition plainTemplates : Templates :=
  {| jsWrapperTemplate := fun context => "// " +:+ JsContext.className context +:+ newline;
     jsIndexTemplate := fun context =>
       Str.join newline (JsIndexContext.submodules context);
     pyWrapperTemplate := fun context => "# " +:+ PyContext.className context +:+ newline;
     pyTopLevelInitTemplate := fun context =>
       Str.join newline (PyInitContext.modules context) |}.

(** What a run over [sceneEnv] finds: two source units, and the two trees as
    the wrappers leave them. *)
Definition sceneListings : Listings :=
  {| threeModules := ["objects/Mesh.js"; "materials/Material.js"];
     jsDirs := ["objects/"; "materials/"];
     readdir := fun dir =>
       if String.eqb dir "/repo/js/src/objects" then ["Mesh.autogen.js"; "index.js"]
       else if String.eqb dir "/repo/js/src/materials"
            then ["Material.autogen.js"; "Material.js"; "index.js"]
       else if String.eqb dir "/repo/js/src" then ["objects"; "materials"; "index.js"]
       else [];
     pyThreeModules := ["objects/Mesh.js"; "materials/Material.js"];
     pyFiles := ["objects/Mesh_autogen.py"; "materials/Material_autogen.py";
                 "materials/Material.py"] |}.

(** The environment of [cyclicConfigs]. *)
Definition cyclicEnv : Env :=
  {| cwd := "/repo/js";
     scriptDir := "/repo/js/scripts";
     classConfigs := cyclicConfigs;
     existsSync := fun _ => false;
     stackDepth := 1000 |}.

(** ** Further notions and example data *)

(** A table where every level of a chain declares something of its own:
    [PerspectiveCamera] extends [Camera], which extends [Object3D]; [Camera]
    has constructor arguments, [PerspectiveCamera] has none.  The third
    constructor argument of [OrthographicCamera] names no property, and
    [CubeCamera] takes the bag of [parameters]. *)
Definition cameraConfigs : ClassConfigs :=
  [ ("_defaults", defaultsEntry);
    ("Object3D",
       {| relativePath := Some "./core/Object3D"; superClass := None;
          properties := Some [("position", plainProp)];
          constructorArgs := None; dependencies := None;
          propsDefinedByThree := Some ["children"]; allProperties := None |});
    ("Camera",
       {| relativePath := Some "./cameras/Camera"; superClass := Some "Object3D";
          properties := Some [("matrixWorldInverse", plainProp)];
          constructorArgs := Some ["position"]; dependencies := Some ["Object3D"];
          propsDefinedByThree := Some ["matrixWorldInverse"; "projectionMatrix"];
          allProperties := None |});
    ("PerspectiveCamera",
       {| relativePath := Some "./cameras/PerspectiveCamera"; superClass := Some "Camera";
          properties := Some [("fov", plainProp)];
          constructorArgs := None; dependencies := None;
          propsDefinedByThree := None; allProperties := None |});
    ("OrthographicCamera",
       {| relativePath := Some "./cameras/OrthographicCamera"; superClass := Some "Camera";
          properties := Some [("left", plainProp)];
          constructorArgs := Some ["left"; "position"; "near"]; dependencies := None;
          propsDefinedByThree := None; allProperties := None |});
    ("CubeCamera",
       {| relativePath := Some "./cameras/CubeCamera"; superClass := Some "Object3D";
          properties := Some [("near", plainProp); ("far", plainProp)];
          constructorArgs := Some ["parameters"]; dependencies := None;
          propsDefinedByThree := None; allProperties := None |}) ].

(** A token of a path: a name without a separator of either kind. *)
Fixpoint noPathSep (s : string) : bool :=
  match s with
  | EmptyString => true
  | String a s' => negb (isPathSep a) && noPathSep s'
  end.

(** A string of [n] dots. *)
Fixpoint dots (n : nat) : string :=
  match n with
  | 0 => EmptyString
  | S n' => String "." (dots n')
  end.

(** The callback of [tokens.forEach] in [relativePathToPythonImportPath],
    on the pair of [result] and [sawFolderToken]. *)
Definition importPathStep (st : string * bool) (token : string) : string * bool :=
  if String.eqb token "." then st
  else if String.eqb token ".." then (fst st +:+ ".", snd st)
  else (fst st +:+ "." +:+ token, true).

(** Two calls have the same fate: both return, or both throw the same
    error. *)
Definition sameFate {A B} (x : Res A) (y : Res B) : Prop :=
  match x, y with
  | Ok _, Ok _ => True
  | Throw e1, Throw e2 => e1 = e2
  | _, _ => False
  end.

(** Two calls that build a table have the same fate, and the tables they
    return have the same keys in the same order. *)
Definition sameTable {A B} (x : Res (JsObject.t A)) (y : Res (JsObject.t B)) : Prop :=
  match x, y with
  | Ok a, Ok b => JsObject.keys a = JsObject.keys b
  | Throw e1, Throw e2 => e1 = e2
  | _, _ => False
  end.

(** The same, on the keys in the order of their creation. *)
Definition sameSlots {A B} (x : Res (JsObject.t A)) (y : Res (JsObject.t B)) : Prop :=
  match x, y with
  | Ok a, Ok b => map fst a = map fst b
  | Throw e1, Throw e2 => e1 = e2
  | _, _ => False
  end.

(** The names [processDependencies] resolves for a class: its explicit
    dependencies and the names its own properties refer to. *)
Definition namedBy (config : ClassConfig) (k : string) : Prop :=
  In k (orEmpty (dependencies config))
  \/ exists prop, In prop (ownProperties config) /\ In k (referencedNames prop).

(** The resolved configuration of [Holder] in [sparseConfigs], whose own
    property refers to a class that cannot be resolved. *)
Definition holderConfig : ClassConfig :=
  Eval vm_compute in
    match getClassConfig 16 sparseConfigs "Holder" with
    | Ok c => c
    | Throw _ => emptyConfig
    end.

(** The resolved configurations of the cameras of [cameraConfigs]. *)
Definition cameraConfig : ClassConfig :=
  Eval vm_compute in
    match getClassConfig 16 cameraConfigs "Camera" with
    | Ok c => c
    | Throw _ => emptyConfig
    end.

Definition orthographicCameraConfig : ClassConfig :=
  Eval vm_compute in
    match getClassConfig 16 cameraConfigs "OrthographicCamera" with
    | Ok c => c
    | Throw _ => emptyConfig
    end.

Definition cubeCameraConfig : ClassConfig :=
  Eval vm_compute in
    match getClassConfig 16 cameraConfigs "CubeCamera" with
    | Ok c => c
    | Throw _ => emptyConfig
    end.

(** The JavaScript constructor arguments of [CubeCamera]. *)
Definition cubeCameraJsArgs : list string :=
  Eval vm_compute in
    match JavascriptWrapper.processConstructorArgs cubeCameraConfig with
    | Ok args => args
    | Throw _ => []
    end.

(** The names the generators give to the files they write: a generated
    JavaScript module, a JavaScript index, a generated Python module, a
    Python package file. *)
Definition generatedFileName (path : string) : Prop :=
  Str.endsWith ".autogen.js" path = true \/ Str.endsWith "index.js" path = true \/
  Str.endsWith "_autogen.py" path = true \/ Str.endsWith "__init__.py" path = true.

(** What a run over [exampleEnv] finds when only the source unit of [Ring]
    is there. *)
Definition ringListings : Listings :=
  {| threeModules := ["geometries/Ring.js"];
     jsDirs := ["geometries/"];
     readdir := fun dir =>
       if String.eqb dir "/repo/js/src/geometries"
       then ["Ring.autogen.js"; "RingOutline.autogen.js"]
       else ["geometries"];
     pyThreeModules := ["geometries/Ring.js"];
     pyFiles := [] |}.

(** [templateDir] *)
Definition templateDir (env : Env) : string :=
  Path.resolve (cwd env) [scriptDir env; "templates"].

(** The file [compileTemplate(templateName)] reads. *)
Definition templatePath (env : Env) (templateName : string) : string :=
  let templateName := Path.basenameExt templateName ".mustache" in
  Path.resolve (cwd env) [templateDir env; templateName +:+ ".mustache"].

(** [compileTemplate(templateName)]; [readFileSync] gives the text of a file
    and [compile] is [Handlebars.compile]. *)
Definition compileTemplate {Context : Type} (env : Env)
  (readFileSync : string -> string) (compile : string -> Context -> string)
  (templateName : string) : Context -> string :=
  compile (readFileSync (templatePath env templateName)).

(** A directory name as a glob returns it in a relative path: not empty,
    without a separator of either kind, and neither [.] nor [..]. *)
Definition dirName (d : string) : Prop :=
  noPathSep d = true /\ d <> "" /\ d <> "." /\ d <> "..".

(** The extra classes of the source unit [modulePath], none when the class
    named after the unit is unknown. *)
Definition extraClassesOf (env : Env) (modulePath : string) : list string :=
  match getExtraDefines (classConfigs env) (wrapperClassName modulePath None) with
  | Ok extras => extras
  | Throw _ => []
  end.

(** [prop.serializer] and [prop.enumTypeName] when truthy. *)
Definition truthyString (o : option string) : option string :=
  if Str.truthy o then o else None.

(** The render record of a property in the JavaScript template. *)
Definition jsPropertyOf (prop : PropType) : JsProperty.t :=
  {| JsProperty.defaultJson := getJSPropertyValue prop;
     JsProperty.property_array_name := getPropArrayName prop;
     JsProperty.property_converter := getPropertyConverterFn prop;
     JsProperty.property_assigner := getPropertyAssignmentFn prop |}.

(** A class with a serialized property and a property of an enum type. *)
Definition textureConfig : ClassConfig :=
  {| relativePath := Some "./textures/Texture"; superClass := None;
     properties :=
       Some [ ("image",
               {| propClass := OtherType; typeName := TypeNameOther;
                  serializer := Some "serializers.image"; enumTypeName := None;
                  getJSPropertyValue := "null"; getPropArrayName := None;
                  getPropertyConverterFn := None;
                  getPropertyAssignmentFn := "assignDirect";
                  getTraitlet := "Any()"; getPythonDefaultValue := "None" |});
              ("wrapS",
               {| propClass := OtherType; typeName := TypeNameOther;
                  serializer := Some ""; enumTypeName := Some "WrappingModes";
                  getJSPropertyValue := "'ClampToEdgeWrapping'"; getPropArrayName := None;
                  getPropertyConverterFn := Some "convertEnum";
                  getPropertyAssignmentFn := "assignDirect";
                  getTraitlet := "Enum()"; getPythonDefaultValue := "'ClampToEdgeWrapping'" |});
              ("name", plainProp) ];
     constructorArgs := Some ["image"]; dependencies := None;
     propsDefinedByThree := None; allProperties := None |}.

(** A list of pairs in which the key [k] has one value only. *)
Definition functionalOn {V : Type} (k : string) (l : JsObject.t V) : Prop :=
  forall v v', In (k, v) l -> In (k, v') l -> v = v'.

(** The file whose existence makes a JavaScript wrapper overridden:
    [customSrcPath] of the constructor. *)
Definition customSrcPath (w : JsWrapper.t) : string :=
  Path.join (Path.dirname (JsWrapper.jsDestPath w))
            (Path.basenameExt (JsWrapper.jsDestPath w) ".js" +:+ ".js").



(** The assignments [processDependencies] makes to the dependency table, in
    the order of the code: the key, and whether the Python generator renames
    the entry after the assignment (a single type name) or not (an explicit
    dependency, a name of an array). *)
Definition propertyWrites (prop : PropType) : list (string * bool) :=
  map (fun k => (k, true)) (singleNames prop)
  ++ map (fun k => (k, false)) (arrayNames prop).

Definition dependencyWrites (config : ClassConfig) : list (string * bool) :=
  map (fun k => (k, false)) (orEmpty (dependencies config))
  ++ flat_map propertyWrites (ownProperties config).

(** The last assignment to the key [k], if there is one. *)
Definition lastWrite (k : string) (writes : list (string * bool)) : option bool :=
  fold_left (fun last w => if String.eqb (fst w) k then Some (snd w) else last)
            writes None.

(** Every entry of the table is what its key resolves to, finished as its
    last assignment says. *)
Definition writtenBy {Info : Type} (resolve : string -> Res Info) (post : Info -> Info)
  (writes : list (string * bool)) (deps : JsObject.t Info) : Prop :=
  forall k,
    JsObject.get k deps
    = match lastWrite k writes with
      | Some renamed =>
          match resolve k with
          | Ok i => Some (if renamed then post i else i)
          | Throw _ => None
          end
      | None => None
      end.

(** A table with a class that lists ['Three'] as an explicit dependency and
    names it in a property, and a class that names it in a property by a
    single name and then in an array. *)
Definition renameConfigs : ClassConfigs :=
  [ ("_defaults", defaultsEntry);
    ("Listed",
       {| relativePath := Some "./core/Listed"; superClass := None;
          properties := Some [("base", threeProp ThreeType (TypeNameString "Three"))];
          constructorArgs := None; dependencies := Some ["Three"];
          propsDefinedByThree := None; allProperties := None |});
    ("Twice", classEntry "./core/Twice" None
       [ ("one", threeProp ThreeType (TypeNameString "Three"));
         ("many", threeProp ThreeTypeArray (TypeNameArray ["Three"])) ]) ].

Definition renameEnv : Env :=
  {| cwd := "/repo/js";
     scriptDir := "/repo/js/scripts";
     classConfigs := renameConfigs;
     existsSync := fun _ => false;
     stackDepth := 16 |}.



(** * Properties *)

(** ** Node path examples *)

Example path_resolve_ex :
  Path.resolve "/" ["/repo/js/src"; "./core/Object3D"] = "/repo/js/src/core/Object3D".
Proof. reflexivity. Qed.
Example path_resolve_up : Path.resolve "/" ["/repo/js/scripts"; ".."] = "/repo/js".
Proof. reflexivity. Qed.
Example path_relative_ex :
  Path.relative "/" "/repo/js/src/core" "/repo/js/src/math/Box3.autogen.js"
  = "../math/Box3.autogen.js".
Proof. reflexivity. Qed.
Example path_relative_same : Path.relative "/" "/repo/js/src" "/repo/js/src" = "".
Proof. reflexivity. Qed.
Example path_dirname_ex : Path.dirname "./core/Object3D.autogen.js" = "./core".
Proof. reflexivity. Qed.
Example path_dirname_top : Path.dirname "./Three.js" = ".".
Proof. reflexivity. Qed.
Example path_dirname_file : Path.dirname "Three.js" = ".".
Proof. reflexivity. Qed.
Example path_dirname_root : Path.dirname "/Three.js" = "/".
Proof. reflexivity. Qed.
Example path_basename_ex : Path.basenameExt "./_base/Three" ".js" = "Three".
Proof. reflexivity. Qed.
Example path_basename_ext : Path.basenameExt "core/Object3D.js" ".js" = "Object3D".
Proof. reflexivity. Qed.
Example path_basename_only_ext : Path.basenameExt "core/.js" ".js" = ".js".
Proof. reflexivity. Qed.
Example path_basename_autogen :
  Path.basenameExt "./core/Object3D.autogen.js" ".autogen.js" = "Object3D".
Proof. reflexivity. Qed.
Example path_join_ex : Path.join "core/" "Object3D.js" = "core/Object3D.js".
Proof. reflexivity. Qed.
Example path_join_dot : Path.join "." "index.js" = "index.js".
Proof. reflexivity. Qed.
Example path_join_dotdir : Path.join "./core" "Object3D.js" = "core/Object3D.js".
Proof. reflexivity. Qed.

(** ** Lemmas on objects *)

Module JsObjectFacts.
Import JsObject.

Section Facts.
Context {V : Type}.
Implicit Types (o target source : t V) (k : string) (v : V).

Lemma get_set_eq k v o : get k (set k v o) = Some v.
Proof.
  induction o as [|[k' v'] o IH]; simpl.
  - by rewrite String.eqb_refl.
  - destruct (String.eqb k' k) eqn:E; simpl; rewrite E; auto.
Qed.

Lemma get_set_ne k k' v o : k <> k' -> get k' (set k v o) = get k' o.
Proof.
  intros Hne. induction o as [|[k0 v0] o IH]; simpl.
  - destruct (String.eqb_spec k k'); congruence.
  - destruct (String.eqb_spec k0 k) as [->|Hk]; simpl.
    + destruct (String.eqb_spec k k'); congruence.
    + by rewrite IH.
Qed.

Lemma get_set k k' v o :
  get k' (set k v o) = if String.eqb k k' then Some v else get k' o.
Proof.
  destruct (String.eqb_spec k k') as [->|Hne].
  - apply get_set_eq.
  - by apply get_set_ne.
Qed.

Lemma has_set k k' v o : has k' (set k v o) = String.eqb k k' || has k' o.
Proof. unfold has. rewrite get_set. by destruct (String.eqb k k'). Qed.

Lemma insertIndex_In n k sorted (x : N * string) :
  In x (insertIndex n k sorted) <-> x = (n, k) \/ In x sorted.
Proof.
  induction sorted as [|[m k'] rest IH]; simpl.
  - split; intros [?|?]; auto.
  - destruct (n <? m)%N; simpl.
    + split; intros [?|?]; auto.
    + rewrite IH. tauto.
Qed.

Lemma insertIndex_length n k sorted :
  length (insertIndex n k sorted) = S (length sorted).
Proof.
  induction sorted as [|[m k'] rest IH]; simpl; [done|].
  destruct (n <? m)%N; simpl; [done|]. by rewrite IH.
Qed.

Lemma indexKeys_In ks n k :
  In (n, k) (indexKeys ks) <-> In k ks /\ arrayIndex k = Some n.
Proof.
  induction ks as [|k0 ks IH]; simpl; [tauto|].
  destruct (arrayIndex k0) as [m|] eqn:E.
  - rewrite insertIndex_In, IH. split.
    + intros [[= -> ->]|[? ?]]; auto.
    + intros [[->|?] Hn]; [left; congruence|right; auto].
  - rewrite IH. split; [tauto|]. intros [[->|?] Hn]; [congruence|auto].
Qed.

(** The engine's order keeps the keys: it only moves them. *)
Lemma ownKeyOrder_In ks k : In k (ownKeyOrder ks) <-> In k ks.
Proof.
  unfold ownKeyOrder. rewrite in_app_iff, in_map_iff, filter_In. split.
  - intros [([n k'] & Hk & Hin)|[Hin _]]; [|done].
    simpl in Hk; subst k'. by apply indexKeys_In in Hin as [? _].
  - intros Hin. unfold isArrayIndex. destruct (arrayIndex k) as [n|] eqn:E.
    + left. exists (n, k). split; [done|]. by apply indexKeys_In.
    + by right.
Qed.

Lemma ownKeyOrder_length ks : length (ownKeyOrder ks) = length ks.
Proof.
  unfold ownKeyOrder. rewrite List.length_app, List.length_map.
  induction ks as [|k ks IH]; simpl; [done|].
  unfold isArrayIndex at 1. destruct (arrayIndex k); simpl.
  - rewrite insertIndex_length. lia.
  - lia.
Qed.

(** Keys that are names, not numbers, stay in the order of their creation. *)
Lemma ownKeyOrder_names ks :
  Forall (fun k => isArrayIndex k = false) ks -> ownKeyOrder ks = ks.
Proof.
  intros Hks. unfold ownKeyOrder.
  assert (indexKeys ks = []) as ->.
  { induction Hks as [|k ks Hk _ IH]; simpl; [done|].
    unfold isArrayIndex in Hk. by destruct (arrayIndex k). }
  simpl. induction Hks as [|k ks Hk _ IH]; simpl; [done|].
  rewrite Hk. simpl. by rewrite IH.
Qed.

Lemma keys_In k o : In k (keys o) <-> In k (map fst o).
Proof. apply ownKeyOrder_In. Qed.

Lemma keys_length o : length (keys o) = length o.
Proof. unfold keys. by rewrite ownKeyOrder_length, List.length_map. Qed.

(** Array indices come first, by their number; ["01"] is a name. *)
Example keys_array_indices_first :
  keys [("b", 1); ("10", 2); ("2", 3); ("a", 4); ("01", 5)] = ["2"; "10"; "b"; "a"; "01"].
Proof. reflexivity. Qed.

Lemma get_Some_in_keys k v o : get k o = Some v -> In k (keys o).
Proof.
  rewrite keys_In.
  induction o as [|[k' v'] o IH]; simpl; [done|].
  destruct (String.eqb_spec k' k); auto.
Qed.

Lemma get_None_not_in_keys k o : get k o = None -> ~ In k (keys o).
Proof.
  rewrite keys_In.
  induction o as [|[k' v'] o IH]; simpl; [tauto|].
  destruct (String.eqb_spec k' k); [done|]. intros H [?|?]; [done|]. by apply IH.
Qed.

(** Folding assignments of entries that agree with [source]. *)
Lemma get_fold_set k (l : list (string * V)) source target :
  (forall k' v', In (k', v') l -> get k' source = Some v') ->
  get k (fold_left (fun acc kv => set (fst kv) (snd kv) acc) l target)
  = if existsb (String.eqb k) (map fst l) then get k source else get k target.
Proof.
  revert target. induction l as [|[k0 v0] l IH]; intros target Hl; simpl; [done|].
  rewrite IH by (intros; apply Hl; by right).
  destruct (existsb (String.eqb k) (map fst l)) eqn:E.
  - by rewrite orb_true_r.
  - rewrite orb_false_r, get_set, (String.eqb_sym k k0).
    destruct (String.eqb_spec k0 k) as [->|]; [|done].
    symmetry. apply Hl. by left.
Qed.

Lemma entries_sound k v o : In (k, v) (entries o) -> get k o = Some v.
Proof.
  unfold entries. intros Hin. apply list_elem_of_In, list_elem_of_omap in Hin.
  destruct Hin as (k' & _ & Hk'). destruct (get k' o) eqn:E; congruence.
Qed.

Lemma entries_complete k v o : get k o = Some v -> In (k, v) (entries o).
Proof.
  intros Hget. unfold entries. apply list_elem_of_In, list_elem_of_omap.
  exists k. split; [|by rewrite Hget].
  apply list_elem_of_In. by eapply get_Some_in_keys.
Qed.

Lemma entries_keys k o :
  existsb (String.eqb k) (map fst (entries o)) = has k o.
Proof.
  unfold has. destruct (get k o) eqn:E.
  - apply existsb_exists. exists k. split; [|apply String.eqb_refl].
    apply in_map_iff. exists (k, v). split; [done|]. by apply entries_complete.
  - apply not_true_is_false. intros (k' & Hin & Heq)%existsb_exists.
    apply String.eqb_eq in Heq as <-.
    apply in_map_iff in Hin as ([k1 v1] & Hk & Hin). simpl in Hk; subst k1.
    apply entries_sound in Hin. congruence.
Qed.

(** [Object.assign] overlays: a key of the source replaces the target's. *)
Lemma get_assign k target source :
  get k (assign target source)
  = match get k source with Some v => Some v | None => get k target end.
Proof.
  unfold assign. rewrite (get_fold_set k _ source).
  - rewrite entries_keys. unfold has. by destruct (get k source).
  - intros. by apply entries_sound.
Qed.

End Facts.
End JsObjectFacts.

(** ** Configuration resolution *)

Section Resolution.
Variable classConfigs : ClassConfigs.

Lemma superStep_functional a b b' :
  superStep classConfigs a b -> superStep classConfigs a b' -> b = b'.
Proof. intros (c & Hc & Hs) (c' & Hc' & Hs'). congruence. Qed.

(** Along a cycle every class has a successor, for ever. *)
Lemma cycle_unbounded c d :
  rtc (superStep classConfigs) c d ->
  tc (superStep classConfigs) d d ->
  forall n, exists e,
    nsteps (superStep classConfigs) n c e /\ rtc (superStep classConfigs) e d.
Proof.
  intros Hcd Hdd n. induction n as [|n (e & Hn & He)].
  - exists c. split; [constructor | done].
  - destruct He as [e | e e' d He Hrest].
    + inversion Hdd as [? ? H1 | ? d' ? H1 Hrest]; subst.
      * exists e. split; [eapply nsteps_r; eauto | apply rtc_refl].
      * exists d'. split; [eapply nsteps_r; eauto | by apply tc_rtc].
    + exists e'. split; [eapply nsteps_r; eauto | done].
Qed.

(** A class with arbitrarily long chains above it is never resolved: the
    recursion uses up any stack. *)
Lemma getClassConfig_endless depth : forall c,
  (forall n, exists e, nsteps (superStep classConfigs) n c e) ->
  getClassConfig depth classConfigs c = Throw stackExhausted.
Proof.
  induction depth as [|depth IH]; intros c Hc; [done|].
  destruct (Hc 1) as (e & He). inversion He as [|? ? e1 ? Hstep H0]; subst.
  inversion H0; subst. destruct Hstep as (cur & Hcur & Hsup).
  simpl. rewrite Hcur. simpl. rewrite Hsup. simpl.
  rewrite IH; [done|].
  intros n. destruct (Hc (S n)) as (e' & He').
  inversion He' as [|? ? e2 ? Hstep' Hn]; subst.
  assert (e2 = e) as -> by (eapply superStep_functional; [exact Hstep'|by exists cur]).
  eauto.
Qed.

Lemma applyDefaults_allProperties r d all :
  allProperties r = Some all -> allProperties (applyDefaults r d) = Some all.
Proof. intros H. destruct d; simpl; by rewrite H. Qed.

(** The equation of one call of [getClassConfig]. *)
Lemma getClassConfig_step depth name c sup :
  classConfigAt classConfigs (normalizeClassName name) = Some c ->
  superClassToResolve classConfigs c = Ok sup ->
  getClassConfig (S depth) classConfigs name =
    (inherited ←
       match sup with
       | Some superName =>
           superClassConfig ← getClassConfig depth classConfigs superName;
           mret (JsObject.assign [] (default [] (allProperties superClassConfig)),
                 orEmpty (propsDefinedByThree c)
                   ++ orEmpty (propsDefinedByThree superClassConfig))
       | None => mret ([], orEmpty (propsDefinedByThree c))
       end;
     mret (applyDefaults
             {| relativePath := relativePath c;
                superClass := superClass c;
                properties := properties c;
                constructorArgs := constructorArgs c;
                dependencies := dependencies c;
                propsDefinedByThree := Some (snd inherited);
                allProperties :=
                  Some (JsObject.assign (fst inherited) (default [] (properties c))) |}
             (JsObject.get "_defaults" classConfigs))).
Proof. intros Hc Hs. simpl. rewrite Hc. simpl. by rewrite Hs. Qed.

Lemma getClassConfig_chain name chain :
  SuperChain classConfigs name chain ->
  forall depth, length chain <= depth ->
  exists r all,
    getClassConfig depth classConfigs name = Ok r /\
    allProperties r = Some all /\
    forall p, JsObject.get p all = mostDerived p chain.
Proof.
  induction 1 as [name c Hc Hs | name c superName rest Hc Hs Hrest IH];
    intros [|depth] Hlen; simpl in Hlen; try lia.
  - rewrite (getClassConfig_step _ _ _ _ Hc Hs). simpl.
    eexists _, _. split; [reflexivity|].
    split; [by apply applyDefaults_allProperties|].
    intros p. rewrite JsObjectFacts.get_assign. simpl.
    by destruct (JsObject.get p (default [] (properties c))).
  - destruct (IH depth ltac:(lia)) as (r & all & Hr & Hall & Hget).
    rewrite (getClassConfig_step _ _ _ _ Hc Hs), Hr. simpl.
    eexists _, _. split; [reflexivity|].
    split; [by apply applyDefaults_allProperties|].
    intros p. rewrite !JsObjectFacts.get_assign. simpl. rewrite Hall. simpl.
    rewrite Hget.
    destruct (JsObject.get p (default [] (properties c))); [done|].
    by destruct (mostDerived p rest).
Qed.

End Resolution.

Lemma cyclicConfigs_step_A : superStep cyclicConfigs "A" "B".
Proof. eexists. split; reflexivity. Defined.

Lemma cyclicConfigs_step_B : superStep cyclicConfigs "B" "A".
Proof. eexists. split; reflexivity. Defined.

(** C1 as stated fails on the table [A -> B -> A]: whatever the stack depth,
    the resolution of [A] recurses until the stack is exhausted, and at no
    depth does it end with an error of the script. *)
Lemma getClassConfig_cycle_no_script_error :
  (forall depth, getClassConfig depth cyclicConfigs "A" = Throw stackExhausted) /\
  ~ failsWithScriptError cyclicConfigs "A".
Proof.
  assert (forall depth, getClassConfig depth cyclicConfigs "A" = Throw stackExhausted) as H.
  { intros depth. apply getClassConfig_endless. intros n.
    destruct (cycle_unbounded cyclicConfigs "A" "A" (rtc_refl _ _)
      (tc_l _ _ _ _ cyclicConfigs_step_A (tc_once _ _ _ cyclicConfigs_step_B)) n)
      as (e & He & _).
    eauto. }
  split; [exact H|].
  intros (depth & msg & Hfail). rewrite H in Hfail. discriminate.
Qed.

(** C2: along a superclass chain that ends at the root, [allProperties] of
    the resolved class holds, for every property name, the descriptor of the
    most derived class of the chain declaring it, whole; so every ancestor
    property that is not shadowed is there, and a shadowed one is replaced. *)
Theorem allProperties_most_derived
  (classConfigs : ClassConfigs) (name : string) (chain : list ClassConfig) (depth : nat) :
  SuperChain classConfigs name chain ->
  length chain <= depth ->
  exists r all,
    getClassConfig depth classConfigs name = Ok r /\
    allProperties r = Some all /\
    forall p, JsObject.get p all = mostDerived p chain.
Proof. intros Hchain Hlen. by eapply getClassConfig_chain. Qed.

Lemma exampleConfigs_chain_Ring :
  SuperChain exampleConfigs "Ring"
    [ classEntry "./geometries/Ring" (Some "Shape") [("innerRadius", plainProp)];
      classEntry "./core/Shape" (Some "Base") [("radius", plainProp)];
      classEntry "./core/Base" None [("color", plainProp)] ].
Proof.
  eapply SuperChain_step; [reflexivity | reflexivity |].
  eapply SuperChain_step; [reflexivity | reflexivity |].
  eapply SuperChain_root; reflexivity.
Defined.

Lemma allProperties_most_derived_witness :
  exists r all,
    getClassConfig 3 exampleConfigs "Ring" = Ok r /\
    allProperties r = Some all /\
    forall p, JsObject.get p all =
      mostDerived p
        [ classEntry "./geometries/Ring" (Some "Shape") [("innerRadius", plainProp)];
          classEntry "./core/Shape" (Some "Base") [("radius", plainProp)];
          classEntry "./core/Base" None [("color", plainProp)] ].
Proof.
  apply (allProperties_most_derived exampleConfigs "Ring" _ 3).
  - exact exampleConfigs_chain_Ring.
  - simpl. lia.
Defined.

Example getClassConfig_Ring_allProperties :
  (r ← getClassConfig 3 exampleConfigs "Ring";
   mret (JsObject.keys (default [] (allProperties r))))
  = Ok ["color"; "radius"; "innerRadius"].
Proof. reflexivity. Qed.

(** C7, as amended: a name is looked up after its dots are replaced by
    underscores.  When that normalised name is neither a key of the table
    nor a member every object inherits, the resolution fails with
    [invalid class name] and returns nothing; when the superclass chain
    followed from the name ends inside the table, it returns a resolved
    configuration. *)
Theorem getClassConfig_unknown_or_resolved
  (classConfigs : ClassConfigs) (name : string) (depth : nat) :
  (0 < depth ->
   classConfigAt classConfigs (normalizeClassName name) = None ->
   getClassConfig depth classConfigs name
   = Throw (Error ("invalid class name: " +:+ normalizeClassName name)))
  /\
  (forall chain,
     SuperChain classConfigs name chain ->
     length chain <= depth ->
     exists r, getClassConfig depth classConfigs name = Ok r).
Proof.
  split.
  - intros Hd Hnone. destruct depth; [lia|]. simpl. by rewrite Hnone.
  - intros chain Hchain Hlen.
    destruct (getClassConfig_chain _ _ _ Hchain depth Hlen) as (r & _ & Hr & _).
    eauto.
Qed.

Lemma getClassConfig_unknown_or_resolved_witness :
  getClassConfig 3 exampleConfigs "Torus" = Throw (Error "invalid class name: Torus")
  /\ exists r, getClassConfig 3 exampleConfigs "Ring" = Ok r.
Proof.
  split.
  - apply (proj1 (getClassConfig_unknown_or_resolved exampleConfigs "Torus" 3)).
    + lia.
    + reflexivity.
  - apply (proj2 (getClassConfig_unknown_or_resolved exampleConfigs "Ring" 3) _
             exampleConfigs_chain_Ring).
    simpl. lia.
Defined.

(** C7 as stated fails both ways: a name that is not a key of the table is
    resolved (its normalised form is a key, or it is an inherited member of
    the table object), and a key of the table is not resolved when its
    superclass is missing. *)
Lemma getClassConfig_absent_resolved_present_rejected :
  (JsObject.has "Ring.Outline" sparseConfigs = false /\
   isOk (getClassConfig 1 sparseConfigs "Ring.Outline") = true) /\
  (JsObject.has "toString" sparseConfigs = false /\
   isOk (getClassConfig 1 sparseConfigs "toString") = true) /\
  (JsObject.has "Child" sparseConfigs = true /\
   getClassConfig 2 sparseConfigs "Child" = Throw (Error "invalid class name: Missing") /\
   forall depth, isOk (getClassConfig depth sparseConfigs "Child") = false).
Proof.
  repeat split; try reflexivity.
  intros [|[|depth]]; reflexivity.
Qed.

(** ** The error monad *)

Lemma bind_Ok {A B} (m : Res A) (f : A -> Res B) b :
  (m ≫= f) = Ok b -> exists a, m = Ok a /\ f a = Ok b.
Proof. destruct m; simpl; [eauto | discriminate]. Qed.

Lemma foldRes_invariant {A B} (f : A -> B -> Res A) (I : A -> Prop) l :
  (forall a b a', In b l -> I a -> f a b = Ok a' -> I a') ->
  forall a a', I a -> foldRes f l a = Ok a' -> I a'.
Proof.
  induction l as [|b l IH]; intros Hstep a a' Ha Hfold; simpl in Hfold.
  - congruence.
  - apply bind_Ok in Hfold as (a1 & H1 & H2).
    eapply IH; [| |exact H2].
    + intros; eapply Hstep; eauto. by right.
    + eapply Hstep; eauto. by left.
Qed.

(** ** Dependency inference *)

Section ScanFacts.
Context {Info : Type}.
Variable resolve : string -> Res Info.
Variable post : Info -> Info.
Implicit Types (deps result : JsObject.t Info) (prop : PropType).

Lemma scanName_has finish result name result' k :
  scanName resolve finish result name = Ok result' ->
  JsObject.has k result' = String.eqb name k || JsObject.has k result.
Proof.
  unfold scanName. intros (i & _ & [= <-])%bind_Ok.
  apply JsObjectFacts.has_set.
Qed.

Lemma scanNames_has finish names : forall result result' k,
  foldRes (scanName resolve finish) names result = Ok result' ->
  JsObject.has k result' = true <-> JsObject.has k result = true \/ In k names.
Proof.
  induction names as [|n names IH]; intros result result' k Hfold; simpl in Hfold.
  - injection Hfold as <-. simpl. tauto.
  - apply bind_Ok in Hfold as (r1 & H1 & H2).
    rewrite (IH _ _ _ H2), (scanName_has _ _ _ _ _ H1), orb_true_iff, String.eqb_eq.
    simpl. tauto.
Qed.

Lemma scanProperty_has result prop result' k :
  scanProperty resolve post result prop = Ok result' ->
  JsObject.has k result' = true
  <-> JsObject.has k result = true \/ In k (referencedNames prop).
Proof.
  unfold scanProperty, referencedNames.
  destruct (isThreeReference prop); [|intros [= <-]; simpl; tauto].
  destruct (typeName prop) as [name|names|].
  - destruct (String.eqb name "this"); [intros [= <-]; simpl; tauto|].
    intros H. rewrite (scanName_has _ _ _ _ _ H), orb_true_iff, String.eqb_eq.
    simpl. tauto.
  - apply scanNames_has.
  - intros [= <-]. simpl. tauto.
Qed.

Lemma scanProperties_has props : forall result result' k,
  foldRes (scanProperty resolve post) props result = Ok result' ->
  JsObject.has k result' = true
  <-> JsObject.has k result = true
      \/ exists prop, In prop props /\ In k (referencedNames prop).
Proof.
  induction props as [|p props IH]; intros result result' k Hfold; simpl in Hfold.
  - injection Hfold as <-. split; [tauto|]. intros [?|(? & [] & _)]. done.
  - apply bind_Ok in Hfold as (r1 & H1 & H2).
    rewrite (IH _ _ _ H2), (scanProperty_has _ _ _ _ H1). split.
    + intros [[?|?]|(q & ? & ?)]; eauto.
      * right. exists p. split; [by left|done].
      * right. exists q. split; [by right|done].
    + intros [?|(q & [<-|?] & ?)]; eauto.
Qed.

(** The keys of the table: the explicit dependencies and the names the
    own properties refer to, nothing else. *)
Lemma scanConfig_has config deps k :
  scanConfig resolve post config = Ok deps ->
  JsObject.has k deps = true
  <-> In k (orEmpty (dependencies config))
      \/ exists prop, In prop (ownProperties config) /\ In k (referencedNames prop).
Proof.
  unfold scanConfig. intros (d0 & H0 & H1)%bind_Ok.
  rewrite (scanProperties_has _ _ _ _ H1), (scanNames_has _ _ _ _ _ H0).
  simpl. unfold JsObject.has at 1. simpl. split.
  - intros [[?|?]|?]; [done|tauto|tauto].
  - tauto.
Qed.

Section Invariant.
Variables P Q : string -> Prop.
Local Abbreviation Inv := (entriesResolved resolve post P Q).

Lemma scanName_resolved finish result name result' :
  (finish = id /\ Q name) \/ (finish = post /\ P name) ->
  Inv result ->
  scanName resolve finish result name = Ok result' ->
  Inv result'.
Proof.
  intros Hfinish Hinv (i & Hi & [= <-])%bind_Ok k e.
  rewrite JsObjectFacts.get_set.
  destruct (String.eqb_spec name k) as [<-|]; [|by apply Hinv].
  intros [= <-]. exists i. split; [done|].
  destruct Hfinish as [[-> ?]|[-> ?]]; auto.
Qed.

Lemma scanProperty_resolved result prop result' :
  (forall k, In k (singleNames prop) -> P k) ->
  (forall k, In k (arrayNames prop) -> Q k) ->
  Inv result ->
  scanProperty resolve post result prop = Ok result' ->
  Inv result'.
Proof.
  unfold scanProperty, singleNames, arrayNames, referencedNames.
  intros HP HQ Hinv.
  destruct (isThreeReference prop); [|by intros [= <-]].
  destruct (typeName prop) as [name|names|]; [| |by intros [= <-]].
  - destruct (String.eqb name "this"); [by intros [= <-]|].
    apply scanName_resolved; [|done]. right. split; [done|].
    apply HP. by left.
  - apply foldRes_invariant; [|done].
    intros a b a' Hin Ha. apply scanName_resolved; [|done]. left. auto.
Qed.

Lemma scanConfig_resolved config deps :
  (forall k, In k (orEmpty (dependencies config)) -> Q k) ->
  (forall prop k, In prop (ownProperties config) -> In k (singleNames prop) -> P k) ->
  (forall prop k, In prop (ownProperties config) -> In k (arrayNames prop) -> Q k) ->
  scanConfig resolve post config = Ok deps ->
  Inv deps.
Proof.
  intros Hexplicit HP HQ. unfold scanConfig. intros (d0 & H0 & H1)%bind_Ok.
  eapply foldRes_invariant; [| |exact H1].
  - intros a b a' Hin Ha. apply scanProperty_resolved; eauto.
  - eapply foldRes_invariant; [| |exact H0].
    + intros a b a' Hin Ha. apply scanName_resolved; [|done]. left. auto.
    + intros k e. discriminate.
Qed.
End Invariant.

End ScanFacts.

Lemma JavascriptWrapper_processDependencies_scan env destDir config :
  JavascriptWrapper.processDependencies env destDir config
  = scanConfig
      (fun name => JavascriptWrapper.getRequireInfoFromClassDescriptor env destDir (Some name))
      id config.
Proof. reflexivity. Qed.

Lemma PythonWrapper_processDependencies_scan env destDir config :
  PythonWrapper.processDependencies env destDir config
  = scanConfig
      (fun name => PythonWrapper.getRequireInfoFromClassDescriptor env destDir (Some name))
      PythonWrapper.renameThree config.
Proof. reflexivity. Qed.

Lemma getClassConfig_Ok depth cs name config :
  getClassConfig depth cs name = Ok config ->
  exists cur,
    classConfigAt cs (normalizeClassName name) = Some cur /\
    relativePath config = defaulted relativePath cs cur /\
    superClass config = defaulted superClass cs cur /\
    properties config = defaulted properties cs cur /\
    constructorArgs config = defaulted constructorArgs cs cur /\
    dependencies config = defaulted dependencies cs cur.
Proof.
  destruct depth as [|depth]; simpl; [discriminate|].
  destruct (classConfigAt cs (normalizeClassName name)) as [cur|]; [|discriminate].
  intros (sup & _ & (inh & _ & [= <-])%bind_Ok)%bind_Ok.
  exists cur. split; [done|]. unfold defaulted, applyDefaults.
  destruct (JsObject.get "_defaults" cs); simpl; auto 10.
Qed.




(** What the JavaScript generator resolves any other name to: the name is
    the path. *)
Lemma JavascriptWrapper_requireInfo_of_path env destDir name :
  inClassConfigs (classConfigs env) name = false ->
  exists e,
    JavascriptWrapper.getRequireInfoFromClassDescriptor env destDir (Some name) = Ok e /\
    JsRequire.className e = Path.basenameExt name ".js" /\
    JsRequire.relativePath e = name /\
    JsRequire.requirePath e =
      jsRequirePathTo env destDir
        (if existsSync env (Path.resolve (cwd env) [jsSrcDir env; name] +:+ ".js")
         then Path.resolve (cwd env) [jsSrcDir env; name] +:+ ".js"
         else Path.resolve (cwd env) [jsSrcDir env; name] +:+ JS_AUTOGEN_EXT).
Proof.
  intros Hin. unfold JavascriptWrapper.getRequireInfoFromClassDescriptor.
  rewrite Hin. simpl. eexists. split; [reflexivity|]. simpl. repeat split.
Qed.


Lemma PythonWrapper_requireInfo_of_path env destDir name :
  inClassConfigs (classConfigs env) name = false ->
  exists e,
    PythonWrapper.getRequireInfoFromClassDescriptor env destDir (Some name) = Ok e /\
    PyRequire.className e = Path.basenameExt name ".js" /\
    PyRequire.relativePath e = name /\
    PyRequire.absolutePath e =
      (if existsSync env (Path.resolve (cwd env) [pySrcDir env; name] +:+ ".py")
       then Path.resolve (cwd env) [pySrcDir env; name]
       else Path.resolve (cwd env) [pySrcDir env; name] +:+ "_autogen").
Proof.
  intros Hin. unfold PythonWrapper.getRequireInfoFromClassDescriptor.
  rewrite Hin. simpl. eexists. split; [reflexivity|]. simpl. repeat split.
  by destruct (existsSync env _).
Qed.

Lemma renameThree_paths i :
  PyRequire.relativePath (PythonWrapper.renameThree i) = PyRequire.relativePath i /\
  PyRequire.absolutePath (PythonWrapper.renameThree i) = PyRequire.absolutePath i /\
  PyRequire.requirePath (PythonWrapper.renameThree i) = PyRequire.requirePath i /\
  PyRequire.pyRelativePath (PythonWrapper.renameThree i) = PyRequire.pyRelativePath i.
Proof. unfold PythonWrapper.renameThree. by destruct (String.eqb _ _). Qed.

Lemma renameThree_className i :
  PyRequire.className (PythonWrapper.renameThree i) <> "Three".
Proof.
  unfold PythonWrapper.renameThree.
  destruct (String.eqb_spec (PyRequire.className i) "Three"); simpl; [discriminate|done].
Qed.

(** C9: an own property of a class-referencing kind whose type name is the
    empty string (no class named, and not ['this']) is resolved as the base
    type ['./_base/Three']: the dependency table has an entry under that key,
    which is what the generator resolves that path to (after the Python
    renaming, where it applies); unless the path is itself a key of the
    table, the entry has that path as its [relativePath]. *)
Theorem unnamed_reference_falls_back_to_base
  (env : Env) (config : ClassConfig) (prop : PropType) :
  In prop (ownProperties config) ->
  isThreeReference prop = true ->
  typeName prop = TypeNameString "" ->
  (forall destDir deps,
     JavascriptWrapper.processDependencies env destDir config = Ok deps ->
     exists e,
       JsObject.get "./_base/Three" deps = Some e /\
       JavascriptWrapper.getRequireInfoFromClassDescriptor env destDir
         (Some "./_base/Three") = Ok e /\
       (inClassConfigs (classConfigs env) "./_base/Three" = false ->
        JsRequire.relativePath e = "./_base/Three" /\ JsRequire.className e = "Three"))
  /\
  (forall destDir deps,
     PythonWrapper.processDependencies env destDir config = Ok deps ->
     exists e i,
       JsObject.get "./_base/Three" deps = Some e /\
       PythonWrapper.getRequireInfoFromClassDescriptor env destDir
         (Some "./_base/Three") = Ok i /\
       (e = i \/ e = PythonWrapper.renameThree i) /\
       (inClassConfigs (classConfigs env) "./_base/Three" = false ->
        PyRequire.relativePath e = "./_base/Three")).
Proof.
  intros Hown Href Hname.
  assert (In "./_base/Three" (referencedNames prop)) as Hnames.
  { unfold referencedNames. rewrite Href, Hname. simpl. by left. }
  split; intros destDir deps Hdeps.
  - rewrite JavascriptWrapper_processDependencies_scan in Hdeps.
    assert (JsObject.has "./_base/Three" deps = true) as Hkey.
    { apply (scanConfig_has _ _ _ _ _ Hdeps). right. eauto. }
    unfold JsObject.has in Hkey.
    destruct (JsObject.get "./_base/Three" deps) as [e|] eqn:He; [|done].
    destruct (scanConfig_resolved _ _ (fun _ => True) (fun _ => True) config deps
                ltac:(done) ltac:(done) ltac:(done) Hdeps _ e He)
      as (i & Hi & Hei).
    assert (e = i) as -> by (destruct Hei as [[-> _]|[-> _]]; done).
    exists i. split; [done|]. split; [done|]. intros Hout.
    destruct (JavascriptWrapper_requireInfo_of_path env destDir _ Hout)
      as (e' & He' & Hc & Hr & _).
    assert (e' = i) as -> by congruence. done.
  - rewrite PythonWrapper_processDependencies_scan in Hdeps.
    assert (JsObject.has "./_base/Three" deps = true) as Hkey.
    { apply (scanConfig_has _ _ _ _ _ Hdeps). right. eauto. }
    unfold JsObject.has in Hkey.
    destruct (JsObject.get "./_base/Three" deps) as [e|] eqn:He; [|done].
    destruct (scanConfig_resolved _ _ (fun _ => True) (fun _ => True) config deps
                ltac:(done) ltac:(done) ltac:(done) Hdeps _ e He)
      as (i & Hi & Hei).
    exists e, i. split; [done|]. split; [done|]. split.
    + destruct Hei as [[-> _]|[-> _]]; auto.
    + intros Hout.
      destruct (PythonWrapper_requireInfo_of_path env destDir _ Hout)
        as (e' & He' & Hc & Hr & _).
      assert (e' = i) as -> by congruence.
      destruct (renameThree_paths i) as (Rr & _).
      destruct Hei as [[-> _]|[-> _]]; rewrite ?Rr; done.
Qed.

Lemma unnamed_reference_falls_back_to_base_witness :
  (exists e,
     JsObject.get "./_base/Three" meshJsDependencies = Some e /\
     JsRequire.relativePath e = "./_base/Three" /\ JsRequire.className e = "Three") /\
  (exists e,
     JsObject.get "./_base/Three" meshPyDependencies = Some e /\
     PyRequire.relativePath e = "./_base/Three").
Proof.
  pose proof (unnamed_reference_falls_back_to_base sceneEnv meshConfig
    (threeProp ThreeType (TypeNameString ""))
    (or_intror (or_introl eq_refl)) eq_refl eq_refl) as [Hjs Hpy].
  destruct (Hjs meshJsDestDir meshJsDependencies eq_refl) as (e & He & _ & Hpath).
  destruct (Hpy meshPyDestDir meshPyDependencies eq_refl) as (e' & i & He' & _ & _ & Hpath').
  split.
  - exists e. split; [exact He | exact (Hpath eq_refl)].
  - exists e'. split; [exact He' | exact (Hpath' eq_refl)].
Defined.

Example meshPyDependencies_base_renamed :
  PyRequire.className <$> JsObject.get "./_base/Three" meshPyDependencies
  = Some "ThreeWidget".
Proof. reflexivity. Qed.

(** ** The wrappers *)

Lemma gen_bind_Ok {A B} (m : Gen A) (f : A -> Gen B) b :
  outcome (m ≫= f) = Ok b -> exists a, outcome m = Ok a /\ outcome (f a) = Ok b.
Proof.
  unfold mbind, Gen_bind. destruct (outcome m) as [a|e]; simpl; [eauto|discriminate].
Qed.

Lemma gen_bind_Throw {A B} (m : Gen A) (f : A -> Gen B) e :
  outcome m = Throw e -> outcome (m ≫= f) = Throw e.
Proof. unfold mbind, Gen_bind. by intros ->. Qed.

Lemma gen_bind_outcome {A B} (m : Gen A) (f : A -> Gen B) a :
  outcome m = Ok a -> outcome (m ≫= f) = outcome (f a).
Proof. unfold mbind, Gen_bind. by intros ->. Qed.

(** What a constructed JavaScript wrapper holds. *)
Lemma JavascriptWrapper_new_Ok createExtra env template now modulePath className w :
  outcome (JavascriptWrapper.new createExtra env template now modulePath className) = Ok w ->
  getClassConfig (stackDepth env) (classConfigs env) (JsWrapper.className w)
    = Ok (JsWrapper.config w) /\
  JavascriptWrapper.processSuperClass env (JsWrapper.destDir w) (JsWrapper.config w)
    = Ok (JsWrapper.superClass w) /\
  JavascriptWrapper.processDependencies env (JsWrapper.destDir w) (JsWrapper.config w)
    = Ok (JsWrapper.dependencies w) /\
  JsContext.superClass (JsWrapper.context w) = JsWrapper.superClass w /\
  JsContext.dependencies (JsWrapper.context w) = JsWrapper.dependencies w /\
  JsWrapper.output w = template (JsWrapper.context w) /\
  JsContext.now (JsWrapper.context w) = now.
Proof.
  unfold JavascriptWrapper.new.
  intros (named & _ & H)%gen_bind_Ok.
  apply gen_bind_Ok in H as (config & Hconfig & H).
  apply gen_bind_Ok in H as (sup & Hsup & H).
  apply gen_bind_Ok in H as (deps & Hdeps & H).
  destruct (JavascriptWrapper.processProperties config) as [[p sp] ep].
  apply gen_bind_Ok in H as (args & Hargs & H).
  apply gen_bind_Ok in H as (ov & Hov & H).
  injection H as <-. simpl in *. auto 10.
Qed.

(** What a constructed Python wrapper holds. *)
Lemma PythonWrapper_new_Ok createExtra env template now modulePath className w :
  outcome (PythonWrapper.new createExtra env template now modulePath className) = Ok w ->
  getClassConfig (stackDepth env) (classConfigs env) (PyWrapper.className w)
    = Ok (PyWrapper.config w) /\
  PythonWrapper.processSuperClass env (PyWrapper.destDirAbsolutePath w) (PyWrapper.config w)
    = Ok (PyWrapper.superClass w) /\
  PythonWrapper.processDependencies env (PyWrapper.destDirAbsolutePath w) (PyWrapper.config w)
    = Ok (PyWrapper.dependencies w) /\
  PyContext.superClass (PyWrapper.context w) = PyWrapper.superClass w /\
  PyContext.dependencies (PyWrapper.context w) = PyWrapper.dependencies w /\
  PyWrapper.output w = template (PyWrapper.context w) /\
  PyContext.now (PyWrapper.context w) = now.
Proof.
  unfold PythonWrapper.new.
  intros (name & _ & H)%gen_bind_Ok.
  apply gen_bind_Ok in H as (config & Hconfig & H).
  apply gen_bind_Ok in H as (sup & Hsup & H).
  apply gen_bind_Ok in H as (deps & Hdeps & H).
  apply gen_bind_Ok in H as (args & Hargs & H).
  injection H as <-. simpl in *. auto 10.
Qed.

(** C5: dependency inference reads the explicit dependencies and the own
    properties of the class ([config.properties], the class's own table or
    the one of [_defaults]), never [allProperties]: every key of the
    dependency table is an explicit dependency or is named by an own
    property.  In the example of the specification the wrapper of [Ring]
    refers to [Shape] as its superclass, to be found in the generated file
    of [Shape], and its dependency table has no entry for [Base] (nor any
    other): [Shape] is the only class it refers to directly; and
    [SkinnedMesh], whose ancestor [Mesh] refers to [Material], has an empty
    table although it inherits the property. *)
Theorem dependencies_from_own_properties_only :
  (forall createExtra env template now modulePath className w k,
     outcome (JavascriptWrapper.new createExtra env template now modulePath className)
       = Ok w ->
     JsObject.has k (JsWrapper.dependencies w) = true ->
     exists cur,
       classConfigAt (classConfigs env) (normalizeClassName (JsWrapper.className w))
         = Some cur /\
       properties (JsWrapper.config w) = defaulted properties (classConfigs env) cur /\
       dependencies (JsWrapper.config w) = defaulted dependencies (classConfigs env) cur /\
       (In k (orEmpty (dependencies (JsWrapper.config w)))
        \/ exists prop,
             In prop (ownProperties (JsWrapper.config w)) /\
             In k (referencedNames prop)))
  /\
  (forall createExtra template now,
     exists w,
       outcome (JavascriptWrapper.new createExtra exampleEnv template now
                  "geometries/Ring.js" None) = Ok w /\
       JsRequire.className (JsWrapper.superClass w) = "Shape" /\
       JsRequire.requirePath (JsWrapper.superClass w) = "../core/Shape.autogen.js" /\
       JsWrapper.dependencies w = [] /\
       JsObject.has "Base" (JsWrapper.dependencies w) = false /\
       referencedClasses w = ["Shape"])
  /\
  (forall createExtra template now,
     exists w all,
       outcome (JavascriptWrapper.new createExtra sceneEnv template now
                  "objects/SkinnedMesh.js" None) = Ok w /\
       allProperties (JsWrapper.config w) = Some all /\
       JsObject.has "material" all = true /\
       JsWrapper.dependencies w = []).
Proof.
  split; [|split].
  - intros createExtra env template now modulePath className w k Hw Hk.
    apply JavascriptWrapper_new_Ok in Hw as (Hconfig & _ & Hdeps & _).
    apply getClassConfig_Ok in Hconfig as (cur & Hcur & _ & _ & Hp & _ & Hd).
    exists cur. repeat split; try done.
    rewrite JavascriptWrapper_processDependencies_scan in Hdeps.
    by apply (scanConfig_has _ _ _ _ _ Hdeps).
  - intros createExtra template now. eexists. split; [vm_compute; reflexivity|].
    repeat split.
  - intros createExtra template now. eexists _, _. split; [vm_compute; reflexivity|].
    repeat split.
Qed.

Lemma dependencies_from_own_properties_only_witness :
  exists w,
    outcome (JavascriptWrapper.new (createJavascriptWrapperAt 3 sceneEnv datedJsTemplate "now")
               sceneEnv datedJsTemplate "now" "objects/Mesh.js" None) = Ok w /\
    exists cur,
      classConfigAt sceneConfigs (normalizeClassName (JsWrapper.className w)) = Some cur /\
      properties (JsWrapper.config w) = defaulted properties sceneConfigs cur /\
      dependencies (JsWrapper.config w) = defaulted dependencies sceneConfigs cur /\
      (In "Material" (orEmpty (dependencies (JsWrapper.config w)))
       \/ exists prop,
            In prop (ownProperties (JsWrapper.config w)) /\
            In "Material" (referencedNames prop)).
Proof.
  eexists. split; [vm_compute; reflexivity|].
  apply (proj1 dependencies_from_own_properties_only
           (createJavascriptWrapperAt 3 sceneEnv datedJsTemplate "now")
           sceneEnv datedJsTemplate "now" "objects/Mesh.js" None).
  - vm_compute. reflexivity.
  - reflexivity.
Defined.

(** ** The last assignment to a key of the dependency table *)

Lemma lastWrite_app k ws ws' :
  lastWrite k (ws ++ ws')
  = match lastWrite k ws' with Some b => Some b | None => lastWrite k ws end.
Proof.
  unfold lastWrite. rewrite fold_left_app.
  generalize (fold_left (fun last w => if String.eqb (fst w) k then Some (snd w) else last)
                        ws None).
  induction ws' as [|w ws' IH] using rev_ind; intros start; [done|].
  rewrite !fold_left_app. cbn [fold_left].
  destruct (String.eqb (fst w) k); [done|]. apply IH.
Qed.

Lemma lastWrite_snoc k ws (w : string * bool) :
  lastWrite k (ws ++ [w])
  = if String.eqb (fst w) k then Some (snd w) else lastWrite k ws.
Proof. unfold lastWrite. by rewrite fold_left_app. Qed.

Section LastWrite.
Context {Info : Type}.
Variable resolve : string -> Res Info.
Variable post : Info -> Info.
Local Abbreviation writtenBy := (writtenBy resolve post).

Lemma scanName_written (renamed : bool) writes result name result' :
  writtenBy writes result ->
  scanName resolve (if renamed then post else id) result name = Ok result' ->
  writtenBy (writes ++ [(name, renamed)]) result'.
Proof.
  intros Hinv (i & Hi & [= <-])%bind_Ok k.
  rewrite JsObjectFacts.get_set, lastWrite_snoc. cbn [fst snd].
  destruct (String.eqb_spec name k) as [<-|]; [|apply Hinv].
  rewrite Hi. by destruct renamed.
Qed.

Lemma scanNames_written (renamed : bool) names : forall writes result result',
  writtenBy writes result ->
  foldRes (scanName resolve (if renamed then post else id)) names result = Ok result' ->
  writtenBy (writes ++ map (fun k => (k, renamed)) names) result'.
Proof.
  induction names as [|n names IH]; intros writes result result' Hinv Hfold;
    simpl in Hfold.
  - injection Hfold as <-. by rewrite app_nil_r.
  - apply bind_Ok in Hfold as (r1 & H1 & H2).
    cbn [map].
    replace (writes ++ (n, renamed) :: map (fun k => (k, renamed)) names)
      with ((writes ++ [(n, renamed)]) ++ map (fun k => (k, renamed)) names)
      by (by rewrite <- app_assoc).
    apply (IH _ r1); [|done]. by eapply scanName_written.
Qed.

Lemma scanProperty_written writes result prop result' :
  writtenBy writes result ->
  scanProperty resolve post result prop = Ok result' ->
  writtenBy (writes ++ propertyWrites prop) result'.
Proof.
  unfold scanProperty, propertyWrites, singleNames, arrayNames, referencedNames.
  intros Hinv.
  destruct (isThreeReference prop).
  2:{ intros [= <-]. destruct (typeName prop); by rewrite app_nil_r. }
  destruct (typeName prop) as [name|names|].
  - destruct (String.eqb name "this"); [intros [= <-]; by rewrite app_nil_r|].
    intros H. cbn [map app]. by apply (scanName_written true _ result _ _ Hinv).
  - intros H. cbn [map app].
    by apply (scanNames_written false _ _ result _ Hinv).
  - intros [= <-]. by rewrite app_nil_r.
Qed.

Lemma scanProperties_written props : forall writes result result',
  writtenBy writes result ->
  foldRes (scanProperty resolve post) props result = Ok result' ->
  writtenBy (writes ++ flat_map propertyWrites props) result'.
Proof.
  induction props as [|p props IH]; intros writes result result' Hinv Hfold;
    simpl in Hfold.
  - injection Hfold as <-. by rewrite app_nil_r.
  - apply bind_Ok in Hfold as (r1 & H1 & H2).
    cbn [flat_map]. rewrite app_assoc.
    apply (IH _ r1); [|done]. by eapply scanProperty_written.
Qed.

Lemma scanConfig_written config deps :
  scanConfig resolve post config = Ok deps ->
  writtenBy (dependencyWrites config) deps.
Proof.
  unfold scanConfig, dependencyWrites. intros (d0 & H0 & H1)%bind_Ok.
  apply (scanProperties_written _ _ d0); [|done].
  apply (scanNames_written false _ [] [] d0); [|done].
  intros k. done.
Qed.

End LastWrite.

(** C10: in the rendering context of a Python wrapper the superclass
    reference is what the superclass resolves to with the class name
    ['Three'] replaced by ['ThreeWidget'].  An entry of the dependency table
    is what its key resolves to, renamed in the same way exactly when the
    last assignment to the key comes from a single type name: the explicit
    dependencies are assigned first and the own properties after them, in
    their order, a single name with the rename and the names of an array
    without it.  So a key that only single names give is renamed, and a key
    that no single name gives is what it resolves to, ['Three'] included. *)
Theorem python_three_renamed_to_ThreeWidget
  (createExtra : string -> option string -> Gen CreateResult)
  (env : Env) (template : PyContext.t -> string) (now : Date)
  (modulePath : string) (className : option string) (w : PyWrapper.t) :
  outcome (PythonWrapper.new createExtra env template now modulePath className) = Ok w ->
  let context := PyWrapper.context w in
  let config := PyWrapper.config w in
  let resolve :=
    PythonWrapper.getRequireInfoFromClassDescriptor env (PyWrapper.destDirAbsolutePath w) in
  let rename := fun i : PyRequire.t =>
    if String.eqb (PyRequire.className i) "Three"
    then PyRequire.setClassName "ThreeWidget" i else i in
  (exists i,
     resolve (superClass config) = Ok i /\
     PyContext.superClass context = rename i /\
     PyRequire.className (PyContext.superClass context) <> "Three")
  /\
  (forall k e,
     JsObject.get k (PyContext.dependencies context) = Some e <->
     exists renamed i,
       lastWrite k (dependencyWrites config) = Some renamed /\
       resolve (Some k) = Ok i /\
       e = if renamed : bool then rename i else i)
  /\
  (forall k e,
     JsObject.get k (PyContext.dependencies context) = Some e ->
     ~ In k (orEmpty (dependencies config)) ->
     (forall prop, In prop (ownProperties config) -> ~ In k (arrayNames prop)) ->
     exists i,
       resolve (Some k) = Ok i /\ e = rename i /\ PyRequire.className e <> "Three")
  /\
  (forall k e,
     JsObject.get k (PyContext.dependencies context) = Some e ->
     (forall prop, In prop (ownProperties config) -> ~ In k (singleNames prop)) ->
     resolve (Some k) = Ok e).
Proof.
  intros Hw context config resolve rename.
  apply PythonWrapper_new_Ok in Hw as (_ & Hsup & Hdeps & Hcs & Hcd & _).
  subst context config resolve. rewrite Hcs, Hcd.
  rewrite PythonWrapper_processDependencies_scan in Hdeps.
  split; [|split; [|split]].
  - unfold PythonWrapper.processSuperClass in Hsup.
    apply bind_Ok in Hsup as (i & Hi & [= <-]).
    exists i. split; [done|]. split; [done|]. apply renameThree_className.
  - intros k e. rewrite (scanConfig_written _ _ _ _ Hdeps k).
    destruct (lastWrite k (dependencyWrites (PyWrapper.config w))) as [renamed|].
    + destruct (PythonWrapper.getRequireInfoFromClassDescriptor env _ (Some k))
        as [i|err].
      * split.
        -- intros [= <-]. by exists renamed, i.
        -- intros (renamed' & i' & [= <-] & [= <-] & ->). done.
      * split; [done|]. by intros (? & ? & _ & ? & _).
    + split; [done|]. by intros (? & ? & ? & _).
  - intros k e He Hexplicit Harray.
    destruct (scanConfig_resolved _ _ (fun _ => True) (fun k' => k' <> k) _ _
                ltac:(intros k' Hk' ->; done)
                ltac:(done)
                ltac:(intros prop k' Hp Hk' ->; by eapply Harray)
                Hdeps k e He)
      as (i & Hi & [[_ Hne]|[-> _]]); [done|].
    exists i. split; [done|]. split; [done|]. apply renameThree_className.
  - intros k e He Hsingle.
    destruct (scanConfig_resolved _ _ (fun k' => k' <> k) (fun _ => True) _ _
                ltac:(done)
                ltac:(intros prop k' Hp Hk' ->; by eapply Hsingle)
                ltac:(done)
                Hdeps k e He)
      as (i & Hi & [[-> _]|[_ Hne]]); done.
Qed.

Lemma python_three_renamed_to_ThreeWidget_witness :
  exists w,
    outcome (PythonWrapper.new (createPythonWrapperAt 3 sceneEnv datedPyTemplate "now")
               sceneEnv datedPyTemplate "now" "objects/Mesh.js" None) = Ok w /\
    PyRequire.className (PyContext.superClass (PyWrapper.context w)) <> "Three" /\
    (exists e,
       JsObject.get "./_base/Three" (PyContext.dependencies (PyWrapper.context w)) = Some e /\
       PyRequire.className e = "ThreeWidget") /\
    (exists e,
       JsObject.get "Three" (PyContext.dependencies (PyWrapper.context w)) = Some e /\
       PythonWrapper.getRequireInfoFromClassDescriptor sceneEnv
         (PyWrapper.destDirAbsolutePath w) (Some "Three") = Ok e /\
       PyRequire.className e = "Three").
Proof.
  eexists. split; [vm_compute; reflexivity|].
  match goal with
  | |- context [PyWrapper.context ?w] =>
      pose proof (python_three_renamed_to_ThreeWidget
        (createPythonWrapperAt 3 sceneEnv datedPyTemplate "now")
        sceneEnv datedPyTemplate "now" "objects/Mesh.js" None w
        ltac:(vm_compute; reflexivity)) as H
  end.
  cbv zeta in H. destruct H as (Hsup & Hlast & _ & _).
  split; [|split].
  - destruct Hsup as (i & _ & _ & Hne). exact Hne.
  - eexists. split; [reflexivity|].
    match goal with
    | |- PyRequire.className ?e = _ =>
        destruct (proj1 (Hlast "./_base/Three" e) eq_refl) as (renamed & i & Hr & Hi & He)
    end.
    vm_compute in Hr. injection Hr as <-.
    vm_compute in Hi. injection Hi as <-.
    rewrite He. reflexivity.
  - eexists. split; [reflexivity|].
    match goal with
    | |- _ = Ok ?e /\ _ =>
        destruct (proj1 (Hlast "Three" e) eq_refl) as (renamed & i & Hr & Hi & He)
    end.
    vm_compute in Hr. injection Hr as <-.
    rewrite He. split; [exact Hi|]. vm_compute in Hi. injection Hi as <-. reflexivity.
Defined.

(** A key that is reached in two ways follows its last assignment: ['Three']
    listed as an explicit dependency and named by a property is rendered as
    ['ThreeWidget'], and ['Three'] named by a single name and then in an
    array is rendered as ['Three']. *)
Lemma last_reference_decides_rename :
  (exists w e,
     outcome (PythonWrapper.new (createPythonWrapperAt 3 renameEnv datedPyTemplate "now")
                renameEnv datedPyTemplate "now" "core/Listed.js" None) = Ok w /\
     In "Three" (orEmpty (dependencies (PyWrapper.config w))) /\
     JsObject.get "Three" (PyContext.dependencies (PyWrapper.context w)) = Some e /\
     PyRequire.className e = "ThreeWidget")
  /\
  (exists w e prop,
     outcome (PythonWrapper.new (createPythonWrapperAt 3 renameEnv datedPyTemplate "now")
                renameEnv datedPyTemplate "now" "core/Twice.js" None) = Ok w /\
     In prop (ownProperties (PyWrapper.config w)) /\
     In "Three" (singleNames prop) /\
     JsObject.get "Three" (PyContext.dependencies (PyWrapper.context w)) = Some e /\
     PyRequire.className e = "Three").
Proof.
  split.
  - eexists _, _. split; [vm_compute; reflexivity|].
    split; [by left|]. split; reflexivity.
  - eexists _, _, _. split; [vm_compute; reflexivity|].
    split; [left; reflexivity|]. split; [by left|]. split; reflexivity.
Qed.

(** In the table of [Mesh] the explicit dependency ['Three'] keeps its class
    name, while the unnamed reference and the single name ['Three'] of
    [Spot] are renamed. *)
Example python_rename_examples :
  PyRequire.className <$> JsObject.get "Three" meshPyDependencies = Some "Three" /\
  PyRequire.className <$> JsObject.get "./_base/Three" meshPyDependencies
    = Some "ThreeWidget" /\
  PyRequire.className <$> JsObject.get "Three" spotPyDependencies = Some "ThreeWidget".
Proof. repeat split. Qed.

(** ** Skipping a class that cannot be generated *)

Lemma gen_bind_effects {A B} (m : Gen A) (f : A -> Gen B) :
  effects (m ≫= f)
  = match outcome m with
    | Ok a => andThen (effects m) (effects (f a))
    | Throw _ => effects m
    end.
Proof. unfold mbind, Gen_bind. by destruct (outcome m). Qed.

Lemma andThen_noEffects_l e : andThen noEffects e = e.
Proof. by destruct e. Qed.

Lemma andThen_noEffects_r e : andThen e noEffects = e.
Proof. destruct e. unfold andThen. simpl. by rewrite !app_nil_r. Qed.

Lemma liftRes_bind_Throw {A B} (r : Res A) (f : A -> Gen B) e :
  r = Throw e -> liftRes r ≫= f = mkGen noEffects (Throw e).
Proof. by intros ->. Qed.

Lemma liftRes_bind_Ok {A B} (r : Res A) (f : A -> Gen B) a :
  r = Ok a -> liftRes r ≫= f = f a.
Proof.
  intros ->. unfold mbind, Gen_bind. simpl. rewrite andThen_noEffects_l.
  by destruct (f a).
Qed.

Lemma normalizeClassName_idempotent name :
  normalizeClassName (normalizeClassName name) = normalizeClassName name.
Proof.
  unfold normalizeClassName. induction name as [|a name IH]; simpl; [done|].
  rewrite IH. f_equal. destruct (Ascii.eqb_spec a "."); [done|].
  by apply Ascii.eqb_neq in n as ->.
Qed.

Lemma forEachGen_outcome {A} (f : A -> Gen CreateResult) l :
  outcome (forEachGen (fun a => forEffects (f a)) l) = Ok tt.
Proof.
  induction l as [|a l IH]; simpl; [done|].
  unfold mbind, Gen_bind. simpl. exact IH.
Qed.

Lemma forEachGen_outputFiles {A} (f : A -> Gen CreateResult) l file :
  In file (outputFiles (effects (forEachGen (fun a => forEffects (f a)) l))) ->
  exists a, In a l /\ In file (outputFiles (effects (f a))).
Proof.
  induction l as [|a l IH]; [done|]. cbn [forEachGen].
  rewrite gen_bind_effects. simpl. rewrite in_app_iff. intros [H|H].
  - exists a. auto.
  - destruct (IH H) as (a' & ? & ?). exists a'. auto.
Qed.

Lemma logExtraDefines_outcome shared : outcome (logExtraDefines shared) = Ok tt.
Proof. unfold logExtraDefines. by destruct (0 <? length shared). Qed.

Lemma logExtraDefines_outputFiles shared :
  outputFiles (effects (logExtraDefines shared)) = [].
Proof. unfold logExtraDefines. by destruct (0 <? length shared). Qed.

Lemma logExtraDefines_ensuredFiles shared :
  ensuredFiles (effects (logExtraDefines shared)) = [].
Proof. unfold logExtraDefines. by destruct (0 <? length shared). Qed.

(** The outcome of naming the class: its name, unless the class named after
    the source unit is unknown. *)
Lemma JavascriptWrapper_nameClass_outcome createExtra env modulePath className auto :
  (exists path,
     outcome (JavascriptWrapper.nameClass createExtra env modulePath className auto)
     = Ok (wrapperClassName modulePath className, path))
  \/
  (Str.truthy className = false /\
   classConfigAt (classConfigs env) (wrapperClassName modulePath className) = None /\
   outcome (JavascriptWrapper.nameClass createExtra env modulePath className auto)
   = Throw (Error ("invalid class name: " +:+ wrapperClassName modulePath className))).
Proof.
  unfold JavascriptWrapper.nameClass, wrapperClassName.
  destruct (Str.truthy className); [left; eauto|].
  unfold getExtraDefines. rewrite normalizeClassName_idempotent.
  destruct (classConfigAt _ _) eqn:E.
  - left. eexists. erewrite gen_bind_outcome by reflexivity.
    rewrite (gen_bind_outcome _ _ tt) by apply logExtraDefines_outcome.
    rewrite (gen_bind_outcome _ _ tt) by apply forEachGen_outcome. reflexivity.
  - right. auto.
Qed.

Lemma PythonWrapper_nameClass_outcome createExtra env modulePath className :
  outcome (PythonWrapper.nameClass createExtra env modulePath className)
  = Ok (wrapperClassName modulePath className)
  \/
  (Str.truthy className = false /\
   classConfigAt (classConfigs env) (wrapperClassName modulePath className) = None /\
   outcome (PythonWrapper.nameClass createExtra env modulePath className)
   = Throw (Error ("invalid class name: " +:+ wrapperClassName modulePath className))).
Proof.
  unfold PythonWrapper.nameClass, wrapperClassName.
  destruct (Str.truthy className); [left; eauto|].
  unfold getExtraDefines. rewrite normalizeClassName_idempotent.
  destruct (classConfigAt _ _) eqn:E.
  - left. erewrite gen_bind_outcome by reflexivity.
    rewrite (gen_bind_outcome _ _ tt) by apply logExtraDefines_outcome.
    rewrite (gen_bind_outcome _ _ tt) by apply forEachGen_outcome. reflexivity.
  - right. auto.
Qed.

(** Whatever is written while the class is named is written by the
    generator of an extra class of the source unit; nothing is, when the class
    is given. *)
Lemma JavascriptWrapper_nameClass_outputFiles createExtra env modulePath className auto file :
  In file (outputFiles
             (effects (JavascriptWrapper.nameClass createExtra env modulePath className auto))) ->
  Str.truthy className = false /\
  exists extraDefines extra,
    getExtraDefines (classConfigs env) (wrapperClassName modulePath className)
      = Ok extraDefines /\
    In extra extraDefines /\
    In file (outputFiles (effects (createExtra modulePath (Some extra)))).
Proof.
  unfold JavascriptWrapper.nameClass, wrapperClassName.
  destruct (Str.truthy className); [done|].
  destruct (getExtraDefines _ _) as [extraDefines|e] eqn:E; [|done].
  rewrite gen_bind_effects. simpl.
  rewrite gen_bind_effects, logExtraDefines_outcome. simpl.
  rewrite logExtraDefines_outputFiles, gen_bind_effects, forEachGen_outcome. simpl.
  rewrite app_nil_r. intros (extra & ? & ?)%forEachGen_outputFiles. eauto 10.
Qed.

Lemma PythonWrapper_nameClass_outputFiles createExtra env modulePath className file :
  In file (outputFiles
             (effects (PythonWrapper.nameClass createExtra env modulePath className))) ->
  Str.truthy className = false /\
  exists extraDefines extra,
    getExtraDefines (classConfigs env) (wrapperClassName modulePath className)
      = Ok extraDefines /\
    In extra extraDefines /\
    In file (outputFiles (effects (createExtra modulePath (Some extra)))).
Proof.
  unfold PythonWrapper.nameClass, wrapperClassName.
  destruct (Str.truthy className); [done|].
  destruct (getExtraDefines _ _) as [extraDefines|e] eqn:E; [|done].
  rewrite gen_bind_effects. simpl.
  rewrite gen_bind_effects, logExtraDefines_outcome. simpl.
  rewrite logExtraDefines_outputFiles, gen_bind_effects, forEachGen_outcome. simpl.
  rewrite app_nil_r. intros (extra & ? & ?)%forEachGen_outputFiles. eauto 10.
Qed.

Lemma gen_bind_effects_Ok {A B} (m : Gen A) (f : A -> Gen B) a :
  outcome m = Ok a -> effects (m ≫= f) = andThen (effects m) (effects (f a)).
Proof. intros H. by rewrite gen_bind_effects, H. Qed.

Lemma gen_bind_effects_Throw {A B} (m : Gen A) (f : A -> Gen B) e :
  outcome m = Throw e -> effects (m ≫= f) = effects m.
Proof. intros H. by rewrite gen_bind_effects, H. Qed.

Lemma wrapperClassName_normalized modulePath className :
  Str.truthy className = false ->
  normalizeClassName (wrapperClassName modulePath className)
  = wrapperClassName modulePath className.
Proof.
  unfold wrapperClassName. intros ->. apply normalizeClassName_idempotent.
Qed.

(** When resolution throws, so does the constructor, with that error, and
    its only effects are those of naming the class. *)
Lemma JavascriptWrapper_new_resolution_throws
  createExtra env template now modulePath className e :
  stackDepth env <> 0 ->
  jsResolutionThrows env modulePath className e ->
  exists auto,
    outcome (JavascriptWrapper.new createExtra env template now modulePath className)
      = Throw e /\
    effects (JavascriptWrapper.new createExtra env template now modulePath className)
      = effects (JavascriptWrapper.nameClass createExtra env modulePath className auto).
Proof.
  intros Hdepth H. unfold JavascriptWrapper.new. eexists.
  destruct (JavascriptWrapper_nameClass_outcome createExtra env modulePath className
              (Path.resolve (cwd env)
                 [Path.dirname (Path.resolve (cwd env) [jsSrcDir env; modulePath]);
                  Path.basenameExt (Path.resolve (cwd env) [jsSrcDir env; modulePath]) ".js"
                    +:+ "." +:+ AUTOGEN_EXT +:+ ".js"]))
    as [(path & Hn) | (Ht & Hnone & Hn)].
  - rewrite (gen_bind_outcome _ _ _ Hn), (gen_bind_effects_Ok _ _ _ Hn). cbn [fst snd].
    destruct H as [Hc | (config & Hc & Hs)].
    + rewrite (liftRes_bind_Throw _ _ _ Hc). simpl.
      split; [done | apply andThen_noEffects_r].
    + rewrite (liftRes_bind_Ok _ _ _ Hc).
      destruct Hs as [Hs | [(sup & Hs) Hd]].
      * rewrite (liftRes_bind_Throw _ _ _ Hs). simpl.
        split; [done | apply andThen_noEffects_r].
      * rewrite (liftRes_bind_Ok _ _ _ Hs), (liftRes_bind_Throw _ _ _ Hd). simpl.
        split; [done | apply andThen_noEffects_r].
  - rewrite (gen_bind_Throw _ _ _ Hn), (gen_bind_effects_Throw _ _ _ Hn).
    split; [|done]. f_equal.
    pose proof (wrapperClassName_normalized modulePath _ Ht) as Hnorm.
    destruct H as [Hc | (config & Hc & _)].
    + destruct (stackDepth env); [done|]. simpl in Hc.
      rewrite Hnorm, Hnone in Hc. congruence.
    + apply getClassConfig_Ok in Hc as (cur & Hcur & _). congruence.
Qed.

Lemma PythonWrapper_new_resolution_throws
  createExtra env template now modulePath className e :
  stackDepth env <> 0 ->
  pyResolutionThrows env modulePath className e ->
  outcome (PythonWrapper.new createExtra env template now modulePath className)
    = Throw e /\
  effects (PythonWrapper.new createExtra env template now modulePath className)
    = effects (PythonWrapper.nameClass createExtra env modulePath className).
Proof.
  intros Hdepth H. unfold PythonWrapper.new.
  destruct (PythonWrapper_nameClass_outcome createExtra env modulePath className)
    as [Hn | (Ht & Hnone & Hn)].
  - rewrite (gen_bind_outcome _ _ _ Hn), (gen_bind_effects_Ok _ _ _ Hn).
    destruct H as [Hc | (config & Hc & Hs)].
    + rewrite (liftRes_bind_Throw _ _ _ Hc). simpl.
      split; [done | apply andThen_noEffects_r].
    + rewrite (liftRes_bind_Ok _ _ _ Hc).
      destruct Hs as [Hs | [(sup & Hs) Hd]].
      * rewrite (liftRes_bind_Throw _ _ _ Hs). simpl.
        split; [done | apply andThen_noEffects_r].
      * rewrite (liftRes_bind_Ok _ _ _ Hs), (liftRes_bind_Throw _ _ _ Hd). simpl.
        split; [done | apply andThen_noEffects_r].
  - rewrite (gen_bind_Throw _ _ _ Hn), (gen_bind_effects_Throw _ _ _ Hn).
    split; [|done]. f_equal.
    pose proof (wrapperClassName_normalized modulePath _ Ht) as Hnorm.
    destruct H as [Hc | (config & Hc & _)].
    + destruct (stackDepth env); [done|]. simpl in Hc.
      rewrite Hnorm, Hnone in Hc. congruence.
    + apply getClassConfig_Ok in Hc as (cur & Hcur & _). congruence.
Qed.

(** The generators never throw: a class is written or skipped. *)
Lemma createJavascriptWrapperAt_outcome depth env template now modulePath className :
  outcome (createJavascriptWrapperAt depth env template now modulePath className)
  = Ok (resultOf (createJavascriptWrapperAt depth env template now modulePath className)).
Proof.
  unfold resultOf. destruct depth; simpl.
  - reflexivity.
  - by destruct (outcome (JavascriptWrapper.new _ _ _ _ _ _)).
Qed.

Lemma createPythonWrapperAt_outcome depth env template now modulePath className :
  outcome (createPythonWrapperAt depth env template now modulePath className)
  = Ok (resultOf (createPythonWrapperAt depth env template now modulePath className)).
Proof.
  unfold resultOf. destruct depth; simpl.
  - reflexivity.
  - by destruct (outcome (PythonWrapper.new _ _ _ _ _ _)).
Qed.

(** A batch over generators that never throw reaches every file. *)
Lemma mapPromiseFnOverFileList_all (mapFn : string -> Gen CreateResult) fileList :
  (forall filePath, outcome (mapFn filePath) = Ok (resultOf (mapFn filePath))) ->
  outcome (mapPromiseFnOverFileList fileList mapFn)
    = Ok (map (fun filePath => resultOf (mapFn filePath)) fileList) /\
  outputFiles (effects (mapPromiseFnOverFileList fileList mapFn))
    = concat (map (fun filePath => outputFiles (effects (mapFn filePath))) fileList).
Proof.
  intros Hfn. induction fileList as [|filePath rest [IHo IHe]]; [done|].
  cbn [mapPromiseFnOverFileList map concat].
  rewrite (gen_bind_outcome _ _ _ (Hfn filePath)),
          (gen_bind_effects_Ok _ _ _ (Hfn filePath)).
  rewrite (gen_bind_outcome _ _ _ IHo), (gen_bind_effects_Ok _ _ _ IHo).
  simpl. rewrite IHe, app_nil_r. done.
Qed.

Lemma createJavascriptWrapperAt_caught depth env template now modulePath className e :
  outcome (JavascriptWrapper.new (createJavascriptWrapperAt depth env template now)
             env template now modulePath className) = Throw e ->
  let constructed :=
    JavascriptWrapper.new (createJavascriptWrapperAt depth env template now)
      env template now modulePath className in
  let g := createJavascriptWrapperAt (S depth) env template now modulePath className in
  outcome g = Ok Skipped /\
  console (effects g)
    = console (effects constructed)
      ++ [LogText "error creating wrapper: "; LogError e;
          LogText ("skipping: " +:+ skippedUnit modulePath className)] /\
  outputFiles (effects g) = outputFiles (effects constructed).
Proof.
  intros H constructed g. subst g. cbn [createJavascriptWrapperAt].
  fold constructed. fold constructed in H. rewrite H.
  unfold mbind, Gen_bind. simpl. by rewrite app_nil_r.
Qed.

Lemma createPythonWrapperAt_caught depth env template now modulePath className e :
  outcome (PythonWrapper.new (createPythonWrapperAt depth env template now)
             env template now modulePath className) = Throw e ->
  let constructed :=
    PythonWrapper.new (createPythonWrapperAt depth env template now)
      env template now modulePath className in
  let g := createPythonWrapperAt (S depth) env template now modulePath className in
  outcome g = Ok Skipped /\
  console (effects g)
    = console (effects constructed)
      ++ [LogError e; LogText ("skipping: " +:+ skippedUnit modulePath className)] /\
  outputFiles (effects g) = outputFiles (effects constructed).
Proof.
  intros H constructed g. subst g. cbn [createPythonWrapperAt].
  fold constructed. fold constructed in H. rewrite H.
  unfold mbind, Gen_bind. simpl. by rewrite app_nil_r.
Qed.

(** What the JavaScript generator does with a class whose resolution throws. *)
Lemma createJavascriptWrapper_failing env template now modulePath className e :
  jsResolutionThrows env modulePath className e ->
  let g := createJavascriptWrapper env template now modulePath className in
  outcome g = Ok Skipped /\
  In (LogError e) (console (effects g)) /\
  In (LogText ("skipping: " +:+ skippedUnit modulePath className)) (console (effects g)) /\
  forall file, In file (outputFiles (effects g)) ->
    Str.truthy className = false /\
    exists extraDefines extra depth,
      stackDepth env = S depth /\
      getExtraDefines (classConfigs env) (wrapperClassName modulePath className)
        = Ok extraDefines /\
      In extra extraDefines /\
      In file (outputFiles (effects
        (createJavascriptWrapperAt depth env template now modulePath (Some extra)))).
Proof.
  intros H g. subst g. unfold createJavascriptWrapper.
  destruct (stackDepth env) as [|depth] eqn:Hdepth.
  - assert (e = stackExhausted) as ->.
    { destruct H as [H|(config & H & _)]; rewrite Hdepth in H; simpl in H; congruence. }
    simpl. split; [done|]. split; [auto|]. split; [auto|]. intros file [].
  - destruct (JavascriptWrapper_new_resolution_throws
                (createJavascriptWrapperAt depth env template now)
                env template now modulePath className e
                ltac:(rewrite Hdepth; done) H) as (auto & Ho & He).
    destruct (createJavascriptWrapperAt_caught _ _ _ _ _ _ _ Ho) as (Hr & Hc & Hf).
    split; [exact Hr|]. rewrite Hc, Hf, !in_app_iff. simpl.
    split; [auto|]. split; [auto|].
    intros file Hfile. rewrite He in Hfile.
    apply JavascriptWrapper_nameClass_outputFiles in Hfile
      as (Ht & extraDefines & extra & ? & ? & ?).
    split; [done|]. exists extraDefines, extra, depth. auto.
Qed.

(** What the Python generator does with a class whose resolution throws. *)
Lemma createPythonWrapper_failing env template now modulePath className e :
  pyResolutionThrows env modulePath className e ->
  let g := createPythonWrapper env template now modulePath className in
  outcome g = Ok Skipped /\
  In (LogError e) (console (effects g)) /\
  In (LogText ("skipping: " +:+ skippedUnit modulePath className)) (console (effects g)) /\
  forall file, In file (outputFiles (effects g)) ->
    Str.truthy className = false /\
    exists extraDefines extra depth,
      stackDepth env = S depth /\
      getExtraDefines (classConfigs env) (wrapperClassName modulePath className)
        = Ok extraDefines /\
      In extra extraDefines /\
      In file (outputFiles (effects
        (createPythonWrapperAt depth env template now modulePath (Some extra)))).
Proof.
  intros H g. subst g. unfold createPythonWrapper.
  destruct (stackDepth env) as [|depth] eqn:Hdepth.
  - assert (e = stackExhausted) as ->.
    { destruct H as [H|(config & H & _)]; rewrite Hdepth in H; simpl in H; congruence. }
    simpl. split; [done|]. split; [auto|]. split; [auto|]. intros file [].
  - destruct (PythonWrapper_new_resolution_throws
                (createPythonWrapperAt depth env template now)
                env template now modulePath className e
                ltac:(rewrite Hdepth; done) H) as (Ho & He).
    destruct (createPythonWrapperAt_caught _ _ _ _ _ _ _ Ho) as (Hr & Hc & Hf).
    split; [exact Hr|]. rewrite Hc, Hf, !in_app_iff. simpl.
    split; [auto|]. split; [auto|].
    intros file Hfile. rewrite He in Hfile.
    apply PythonWrapper_nameClass_outputFiles in Hfile
      as (Ht & extraDefines & extra & ? & ? & ?).
    split; [done|]. exists extraDefines, extra, depth. auto.
Qed.

(** C8: when configuration resolution or reference resolution throws while
    the wrapper of a class is constructed, the generator of either language
    catches the error, logs it with the line [skipping: ...], and returns the
    skipped result; whatever was written during the call was written by the
    generator of an extra class of the same source unit, never for the class
    itself.  A batch over any list of source units reaches every unit,
    whichever of them are skipped. *)
Theorem failing_class_is_skipped
  (env : Env) (jsTemplate : JsContext.t -> string) (pyTemplate : PyContext.t -> string)
  (now : Date) (modulePath : string) (className : option string) (e : JsError) :
  (jsResolutionThrows env modulePath className e ->
   let g := createJavascriptWrapper env jsTemplate now modulePath className in
   outcome g = Ok Skipped /\
   In (LogError e) (console (effects g)) /\
   In (LogText ("skipping: " +:+ skippedUnit modulePath className)) (console (effects g)) /\
   forall file, In file (outputFiles (effects g)) ->
     Str.truthy className = false /\
     exists extraDefines extra depth,
       stackDepth env = S depth /\
       getExtraDefines (classConfigs env) (wrapperClassName modulePath className)
         = Ok extraDefines /\
       In extra extraDefines /\
       In file (outputFiles (effects
         (createJavascriptWrapperAt depth env jsTemplate now modulePath (Some extra)))))
  /\
  (pyResolutionThrows env modulePath className e ->
   let g := createPythonWrapper env pyTemplate now modulePath className in
   outcome g = Ok Skipped /\
   In (LogError e) (console (effects g)) /\
   In (LogText ("skipping: " +:+ skippedUnit modulePath className)) (console (effects g)) /\
   forall file, In file (outputFiles (effects g)) ->
     Str.truthy className = false /\
     exists extraDefines extra depth,
       stackDepth env = S depth /\
       getExtraDefines (classConfigs env) (wrapperClassName modulePath className)
         = Ok extraDefines /\
       In extra extraDefines /\
       In file (outputFiles (effects
         (createPythonWrapperAt depth env pyTemplate now modulePath (Some extra)))))
  /\
  (forall units,
     let js := fun unit => createJavascriptWrapper env jsTemplate now unit None in
     let py := fun unit => createPythonWrapper env pyTemplate now unit None in
     outcome (mapPromiseFnOverFileList units js) = Ok (map (fun u => resultOf (js u)) units) /\
     outputFiles (effects (mapPromiseFnOverFileList units js))
       = concat (map (fun u => outputFiles (effects (js u))) units) /\
     outcome (mapPromiseFnOverFileList units py) = Ok (map (fun u => resultOf (py u)) units) /\
     outputFiles (effects (mapPromiseFnOverFileList units py))
       = concat (map (fun u => outputFiles (effects (py u))) units)).
Proof.
  split; [|split].
  - apply createJavascriptWrapper_failing.
  - apply createPythonWrapper_failing.
  - intros units js py.
    destruct (mapPromiseFnOverFileList_all js units) as [? ?].
    { intros. apply createJavascriptWrapperAt_outcome. }
    destruct (mapPromiseFnOverFileList_all py units) as [? ?].
    { intros. apply createPythonWrapperAt_outcome. }
    auto.
Qed.

Lemma sparseEnv_Child_resolution_throws :
  jsResolutionThrows sparseEnv "core/Child.js" None (Error "invalid class name: Missing").
Proof. left. vm_compute. reflexivity. Defined.

Lemma sparseEnv_Holder_resolution_throws :
  pyResolutionThrows sparseEnv "core/Holder.js" None (Error "invalid class name: Missing").
Proof.
  right. eexists. split; [vm_compute; reflexivity|].
  right. split; [eexists; vm_compute; reflexivity | vm_compute; reflexivity].
Defined.

Lemma failing_class_is_skipped_witness :
  outcome (createJavascriptWrapper sparseEnv datedJsTemplate "now" "core/Child.js" None)
    = Ok Skipped /\
  outcome (createPythonWrapper sparseEnv datedPyTemplate "now" "core/Holder.js" None)
    = Ok Skipped.
Proof.
  pose proof (failing_class_is_skipped sparseEnv datedJsTemplate datedPyTemplate "now"
                "core/Child.js" None (Error "invalid class name: Missing")) as (Hjs & _).
  pose proof (failing_class_is_skipped sparseEnv datedJsTemplate datedPyTemplate "now"
                "core/Holder.js" None (Error "invalid class name: Missing")) as (_ & Hpy & _).
  destruct (Hjs sparseEnv_Child_resolution_throws) as (Hskipped & _).
  destruct (Hpy sparseEnv_Holder_resolution_throws) as (Hskipped' & _).
  split; [exact Hskipped | exact Hskipped'].
Defined.

Example batch_goes_on_after_skipped_classes :
  outcome (mapPromiseFnOverFileList
             ["core/Child.js"; "core/Holder.js"; "geometries/Ring_Outline.js"]
             (fun unit => createJavascriptWrapper sparseEnv datedJsTemplate "now" unit None))
  = Ok [Skipped; Skipped; Written "/repo/js/src/geometries/Ring_Outline.autogen.js"].
Proof. vm_compute. reflexivity. Qed.

(** ** The date in the output *)













(** ** Strings and paths *)

Lemma string_app_cons x (a b : string) : String x a +:+ b = String x (a +:+ b).
Proof. reflexivity. Qed.

Lemma string_app_nil (b : string) : "" +:+ b = b.
Proof. reflexivity. Qed.

Lemma string_app_assoc (a b c : string) : (a +:+ b) +:+ c = a +:+ (b +:+ c).
Proof.
  induction a as [|x a IH]; [done|]. rewrite !string_app_cons. by rewrite IH.
Qed.

Lemma string_length_app (s t : string) :
  String.length (s +:+ t) = String.length s + String.length t.
Proof.
  induction s as [|x s IH]; [done|]. rewrite string_app_cons. simpl. by rewrite IH.
Qed.

Lemma substring_all (t : string) : substring 0 (String.length t) t = t.
Proof. induction t as [|x t IH]; simpl; [done|]. by rewrite IH. Qed.

Lemma substring_app_r (s t : string) :
  substring (String.length s) (String.length t) (s +:+ t) = t.
Proof.
  induction s as [|x s IH]; [apply substring_all|]. rewrite string_app_cons. exact IH.
Qed.

Lemma substring_app_l (s t : string) : substring 0 (String.length s) (s +:+ t) = s.
Proof.
  induction s as [|x s IH].
  - rewrite string_app_nil. by destruct t.
  - rewrite string_app_cons. simpl. by rewrite IH.
Qed.

Lemma endsWith_app (p suffix : string) : Str.endsWith suffix (p +:+ suffix) = true.
Proof.
  unfold Str.endsWith. rewrite string_length_app.
  replace (String.length p + String.length suffix - String.length suffix)
    with (String.length p) by lia.
  rewrite substring_app_r, String.eqb_refl, andb_true_r.
  apply Nat.leb_le. lia.
Qed.

Lemma endsWith_slash_cons a (s : string) :
  s <> "" -> Str.endsWith "/" (String a s) = Str.endsWith "/" s.
Proof.
  intros Hs. unfold Str.endsWith. destruct s as [|b s]; [done|]. simpl.
  by rewrite !Nat.sub_0_r.
Qed.

Lemma endsWith_slash_app (p f : string) :
  f <> "" -> Str.endsWith "/" (p +:+ f) = Str.endsWith "/" f.
Proof.
  intros Hf. induction p as [|a p IH]; [done|].
  rewrite string_app_cons, endsWith_slash_cons; [done|].
  destruct p, f; rewrite ?string_app_cons, ?string_app_nil; congruence.
Qed.

Lemma endsWith_slash_noSlash (f : string) :
  f <> "" -> noSlash f = true -> Str.endsWith "/" f = false.
Proof.
  induction f as [|a f IH]; [done|]. intros _ [Ha Hf]%andb_true_iff.
  destruct f as [|b f].
  - unfold Str.endsWith. simpl. unfold Path.isSlash in Ha.
    destruct (Ascii.eqb_spec a "/"); [done|].
    first [done | apply String.eqb_neq; congruence].
  - rewrite endsWith_slash_cons by done. by apply IH.
Qed.

Lemma splitOn_nonempty isSep s : Str.splitOn isSep s <> [].
Proof.
  destruct s as [|a s]; simpl; [done|].
  destruct (isSep a); [done|]. by destruct (Str.splitOn isSep s).
Qed.

Lemma splitOn_app_sep (s t : string) :
  Str.splitOn Path.isSlash (s +:+ "/" +:+ t)
  = Str.splitOn Path.isSlash s ++ Str.splitOn Path.isSlash t.
Proof.
  induction s as [|a s IH]; [done|].
  rewrite string_app_cons. cbn [Str.splitOn]. rewrite IH.
  destruct (Path.isSlash a); [done|].
  pose proof (splitOn_nonempty Path.isSlash s).
  by destruct (Str.splitOn Path.isSlash s).
Qed.

Lemma splitOn_noSlash (s : string) :
  noSlash s = true -> Str.splitOn Path.isSlash s = [s].
Proof.
  induction s as [|a s IH]; [done|]. intros [Ha Hs]%andb_true_iff.
  cbn [Str.splitOn]. apply negb_true_iff in Ha. by rewrite Ha, IH.
Qed.

Lemma splitOn_Forall_noSlash (s : string) :
  Forall (fun x => noSlash x = true) (Str.splitOn Path.isSlash s).
Proof.
  induction s as [|a s IH]; [by repeat constructor|].
  cbn [Str.splitOn]. destruct (Path.isSlash a) eqn:Ha; [by constructor|].
  destruct (Str.splitOn Path.isSlash s) as [|w ws].
  - repeat constructor. simpl. by rewrite Ha.
  - apply Forall_cons in IH as [Hw Hws]. constructor; [|done].
    simpl. by rewrite Ha, Hw.
Qed.

Lemma join_cons sep a (l : list string) :
  l <> [] -> Str.join sep (a :: l) = a +:+ sep +:+ Str.join sep l.
Proof. by destruct l. Qed.

Lemma join_app_last (l : list string) (f : string) :
  l <> [] -> Str.join "/" (l ++ [f]) = Str.join "/" l +:+ "/" +:+ f.
Proof.
  induction l as [|a l IH]; [done|]. intros _.
  destruct l as [|b l]; [done|].
  change ((a :: b :: l) ++ [f]) with (a :: ((b :: l) ++ [f])).
  rewrite !join_cons by done. rewrite IH by done.
  by rewrite !string_app_assoc.
Qed.

Lemma join_last_suffix (l : list string) (f : string) :
  exists pre, Str.join "/" (l ++ [f]) = pre +:+ f.
Proof.
  destruct l as [|a l].
  - by exists "".
  - rewrite join_app_last by done. eexists. by rewrite <- string_app_assoc.
Qed.

Lemma segments_join (l : list string) :
  l <> [] -> Forall (fun x => noSlash x = true) l ->
  Path.segments (Str.join "/" l) = l.
Proof.
  unfold Path.segments.
  induction l as [|a l IH]; [done|]. intros _ [Ha Hl]%Forall_cons.
  destruct l as [|b l]; [by apply splitOn_noSlash|].
  rewrite join_cons by done. rewrite splitOn_app_sep, IH by done.
  by rewrite splitOn_noSlash.
Qed.

Lemma pushSegment_plain allow stack seg :
  plainSegment seg -> Path.pushSegment allow stack seg = seg :: stack.
Proof.
  intros (H1 & H2 & H3). unfold Path.pushSegment.
  apply String.eqb_neq in H1, H2, H3. by rewrite H1, H2, H3.
Qed.

Lemma fold_pushSegment_plain allow l : forall stack,
  Forall plainSegment l ->
  fold_left (Path.pushSegment allow) l stack = rev l ++ stack.
Proof.
  induction l as [|seg l IH]; intros stack Hl; [done|].
  apply Forall_cons in Hl as [Hseg Hl]. simpl.
  rewrite pushSegment_plain, IH by done. by rewrite <- app_assoc.
Qed.

Lemma fold_pushSegment_dots l : forall stack,
  Forall (fun s => s = "..") l -> Forall (fun s => s = "..") stack ->
  fold_left (Path.pushSegment true) l stack = rev l ++ stack.
Proof.
  induction l as [|seg l IH]; intros stack Hl Hstack; [done|].
  apply Forall_cons in Hl as [-> Hl]. simpl.
  assert (Path.pushSegment true stack ".." = ".." :: stack) as ->.
  { destruct Hstack as [|top rest -> _]; reflexivity. }
  rewrite IH; [by rewrite <- app_assoc | done | by constructor].
Qed.

(** The stack built by [normalizeString] for a relative path: plain
    segments above the [..] that climb out of the starting directory. *)
Lemma pushSegment_shape stack seg :
  (exists proper dots,
     stack = proper ++ dots /\ Forall plainSegment proper /\
     Forall (fun s => s = "..") dots) ->
  exists proper dots,
    Path.pushSegment true stack seg = proper ++ dots /\ Forall plainSegment proper /\
    Forall (fun s => s = "..") dots.
Proof.
  intros (proper & dots & -> & Hproper & Hdots). unfold Path.pushSegment.
  destruct (String.eqb_spec seg ""); [simpl; eauto|].
  destruct (String.eqb_spec seg "."); [simpl; eauto|]. simpl.
  destruct (String.eqb_spec seg "..") as [->|].
  - destruct proper as [|top proper].
    + exists [], (".." :: dots). simpl.
      split; [|split; [done | by constructor]].
      destruct Hdots as [|d dots -> _]; reflexivity.
    + apply Forall_cons in Hproper as [(? & ? & Htop) Hproper].
      exists proper, dots. simpl. apply String.eqb_neq in Htop. by rewrite Htop.
  - exists (seg :: proper), dots. split; [done|]. split; [|done].
    by constructor.
Qed.

Lemma fold_pushSegment_shape l : forall stack,
  (exists proper dots,
     stack = proper ++ dots /\ Forall plainSegment proper /\
     Forall (fun s => s = "..") dots) ->
  exists proper dots,
    fold_left (Path.pushSegment true) l stack = proper ++ dots /\
    Forall plainSegment proper /\ Forall (fun s => s = "..") dots.
Proof.
  induction l as [|seg l IH]; intros stack Hstack; [done|].
  simpl. apply IH. by apply pushSegment_shape.
Qed.

Lemma normalizeSegments_idempotent l :
  Path.normalizeSegments true (Path.normalizeSegments true l)
  = Path.normalizeSegments true l.
Proof.
  unfold Path.normalizeSegments.
  destruct (fold_pushSegment_shape l []) as (proper & dots & -> & Hproper & Hdots).
  { exists [], []. by repeat split. }
  f_equal. rewrite rev_app_distr, fold_left_app.
  rewrite (fold_pushSegment_dots (rev dots) []); [|by apply Forall_rev|by constructor].
  rewrite fold_pushSegment_plain by (by apply Forall_rev).
  by rewrite !rev_involutive, app_nil_r.
Qed.

Lemma normalizeSegments_app_plain allow l seg :
  plainSegment seg ->
  Path.normalizeSegments allow (l ++ [seg]) = Path.normalizeSegments allow l ++ [seg].
Proof.
  intros Hseg. unfold Path.normalizeSegments.
  rewrite fold_left_app. simpl. by rewrite pushSegment_plain.
Qed.

Lemma normalizeSegments_skip_dot allow l :
  Path.normalizeSegments allow ("." :: l) = Path.normalizeSegments allow l.
Proof. reflexivity. Qed.

Lemma fold_pushSegment_Forall (P : string -> Prop) allow l : forall stack,
  Forall P l -> Forall P stack -> Forall P (fold_left (Path.pushSegment allow) l stack).
Proof.
  induction l as [|seg l IH]; intros stack Hl Hstack; [done|].
  apply Forall_cons in Hl as [Hseg Hl]. simpl. apply IH; [done|].
  unfold Path.pushSegment.
  repeat case_match; try done; try (by constructor).
  by apply Forall_cons in Hstack as [_ ?].
Qed.

Lemma normalizeSegments_Forall (P : string -> Prop) allow l :
  Forall P l -> Forall P (Path.normalizeSegments allow l).
Proof.
  intros Hl. unfold Path.normalizeSegments. apply Forall_rev.
  by apply fold_pushSegment_Forall.
Qed.

Lemma entryName_plain f : entryName f -> plainSegment f.
Proof. intros (_ & ? & ? & ?). by repeat split. Qed.

Lemma join_last_nonempty (l : list string) (f : string) :
  f <> "" -> Str.join "/" (l ++ [f]) <> "".
Proof.
  intros Hf. destruct (join_last_suffix l f) as (pre & ->).
  destruct pre, f; done.
Qed.

Lemma normalize_relative p :
  p <> "" ->
  Path.isAbsolute p = false ->
  Str.endsWith "/" p = false ->
  Str.join "/" (Path.normalizeSegments true (Path.segments p)) <> "" ->
  Path.normalize p = Str.join "/" (Path.normalizeSegments true (Path.segments p)).
Proof.
  intros Hp Habs Htrail Hq. unfold Path.normalize, Path.normalizeString, Path.trailingSlash.
  apply String.eqb_neq in Hp, Hq. rewrite Hp, Habs, Htrail. cbn [negb]. cbv zeta.
  rewrite Hq. cbn [andb negb]. by rewrite Hq.
Qed.

(** [path.join] of a relative directory and an entry of it. *)
Lemma Path_join_entry d f :
  Path.isAbsolute d = false -> entryName f ->
  Path.join d f
  = Str.join "/" (Path.normalizeSegments true (Path.segments d) ++ [f]).
Proof.
  intros Habs Hf. pose proof (entryName_plain f Hf) as Hplain.
  destruct Hf as (Hslash & Hne & _).
  unfold Path.join. destruct (String.eqb_spec f ""); [done|].
  destruct (String.eqb_spec d "") as [->|Hd].
  - assert (Path.normalizeSegments true (Path.segments f) = [] ++ [f]) as Hsegs.
    { unfold Path.segments. rewrite splitOn_noSlash by done.
      apply (normalizeSegments_app_plain true [] f Hplain). }
    rewrite normalize_relative.
    + by rewrite Hsegs.
    + done.
    + destruct f as [|a f]; [done|]. apply andb_true_iff in Hslash as [Ha _].
      simpl. by apply negb_true_iff in Ha.
    + by apply endsWith_slash_noSlash.
    + rewrite Hsegs. by apply join_last_nonempty.
  - assert (Path.segments (d +:+ "/" +:+ f) = Path.segments d ++ [f]) as Hsegs.
    { unfold Path.segments. by rewrite splitOn_app_sep, (splitOn_noSlash f). }
    rewrite normalize_relative.
    + by rewrite Hsegs, normalizeSegments_app_plain.
    + by destruct d.
    + by destruct d.
    + rewrite <- string_app_assoc, endsWith_slash_app by done.
      by apply endsWith_slash_noSlash.
    + rewrite Hsegs, normalizeSegments_app_plain by done.
      by apply join_last_nonempty.
Qed.

Lemma lastNonEmpty_last (l : list string) (f : string) :
  f <> "" -> Path.lastNonEmpty (l ++ [f]) = Some (length l).
Proof.
  intros Hf. induction l as [|a l IH]; simpl.
  - apply String.eqb_neq in Hf. by rewrite Hf.
  - by rewrite IH.
Qed.

(** The path the index generator gives to an entry of [dirPath], by its
    segments. *)
Lemma listed_path_segments d f :
  Path.isAbsolute d = false -> entryName f ->
  let nd := Path.normalizeSegments true (Path.segments d) in
  "./" +:+ Path.join d f = Str.join "/" ("." :: nd ++ [f]) /\
  Path.segments ("./" +:+ Path.join d f) = "." :: nd ++ [f].
Proof.
  intros Habs Hf nd. rewrite (Path_join_entry d f Habs Hf). fold nd.
  assert (Str.join "/" ("." :: nd ++ [f]) = "./" +:+ Str.join "/" (nd ++ [f])) as Hjoin.
  { rewrite join_cons by (by destruct nd). reflexivity. }
  rewrite <- Hjoin. split; [done|].
  apply segments_join; [done|]. constructor; [done|].
  apply Forall_app. split.
  - apply normalizeSegments_Forall, splitOn_Forall_noSlash.
  - constructor; [apply Hf | constructor].
Qed.

Lemma listed_path_basename d f :
  Path.isAbsolute d = false -> entryName f ->
  Path.basename ("./" +:+ Path.join d f) = f.
Proof.
  intros Habs Hf. destruct (listed_path_segments d f Habs Hf) as [_ Hsegs].
  unfold Path.basename. rewrite Hsegs.
  change ("." :: ?l ++ [f]) with (("." :: l) ++ [f]).
  rewrite lastNonEmpty_last by apply Hf. apply nth_middle.
Qed.

Lemma listed_path_dirname d f :
  Path.isAbsolute d = false -> entryName f ->
  Path.dirname ("./" +:+ Path.join d f)
  = Str.join "/" ("." :: Path.normalizeSegments true (Path.segments d)).
Proof.
  intros Habs Hf. destruct (listed_path_segments d f Habs Hf) as [_ Hsegs].
  unfold Path.dirname. rewrite Hsegs.
  set (nd := Path.normalizeSegments true (Path.segments d)).
  change ("." :: nd ++ [f]) with (("." :: nd) ++ [f]).
  rewrite lastNonEmpty_last by apply Hf.
  replace (String.eqb ("./" +:+ Path.join d f) "") with false by reflexivity.
  replace (Path.isAbsolute ("./" +:+ Path.join d f)) with false by reflexivity.
  cbn [length andb].
  change (take (S (length nd)) (("." :: nd) ++ [f]))
    with (take (length ("." :: nd)) (("." :: nd) ++ [f])).
  rewrite take_app_length.
  destruct nd as [|n nd]; [reflexivity|].
  rewrite join_cons by done. reflexivity.
Qed.

Lemma noSlash_app (s t : string) : noSlash (s +:+ t) = noSlash s && noSlash t.
Proof.
  induction s as [|a s IH]; [done|]. rewrite string_app_cons. simpl.
  by rewrite IH, andb_assoc.
Qed.

Lemma entryName_with_extension X ext :
  noSlash X = true -> noSlash ext = true -> 3 <= String.length ext ->
  entryName (X +:+ ext).
Proof.
  intros HX Hext Hlen. unfold entryName. rewrite noSlash_app, HX, Hext.
  split; [done|].
  repeat split; intros Heq; apply (f_equal String.length) in Heq;
    rewrite string_length_app in Heq; simpl in Heq; lia.
Qed.

Lemma listed_path_basenameExt d X :
  Path.isAbsolute d = false -> noSlash X = true -> X <> "" ->
  Path.basenameExt ("./" +:+ Path.join d (X +:+ ".autogen.js")) ".autogen.js" = X.
Proof.
  intros Habs HX Hne.
  assert (entryName (X +:+ ".autogen.js")) as Hf
    by (apply entryName_with_extension; [done|done|simpl; lia]).
  destruct (listed_path_segments d _ Habs Hf) as [Hpath Hsegs].
  unfold Path.basenameExt. rewrite Hsegs.
  set (nd := Path.normalizeSegments true (Path.segments d)) in *.
  replace (String.eqb ".autogen.js" "") with false by reflexivity.
  replace (String.eqb ".autogen.js" ("./" +:+ Path.join d (X +:+ ".autogen.js")))
    with false by reflexivity.
  assert (Nat.leb (String.length ".autogen.js")
            (String.length ("./" +:+ Path.join d (X +:+ ".autogen.js"))) = true) as ->.
  { rewrite Hpath. change ("." :: nd ++ [X +:+ ".autogen.js"])
      with (("." :: nd) ++ [X +:+ ".autogen.js"]).
    destruct (join_last_suffix ("." :: nd) (X +:+ ".autogen.js")) as (pre & ->).
    rewrite !string_length_app. apply Nat.leb_le. lia. }
  cbn [orb negb].
  change ("." :: nd ++ [X +:+ ".autogen.js"]) with (("." :: nd) ++ [X +:+ ".autogen.js"]).
  rewrite lastNonEmpty_last by apply Hf. rewrite nth_middle.
  rewrite endsWith_app.
  assert (String.eqb ".autogen.js" (X +:+ ".autogen.js") = false) as ->.
  { apply String.eqb_neq. intros Heq. apply (f_equal String.length) in Heq.
    rewrite string_length_app in Heq. destruct X; [done|]. simpl in Heq. lia. }
  unfold Path.dropEnd. rewrite string_length_app.
  replace (String.length X + String.length ".autogen.js" - String.length ".autogen.js")
    with (String.length X) by lia.
  apply substring_app_l.
Qed.

(** The override looked for next to the generated file of [X] in [dirPath]
    is the path given to the entry [X.js] of [dirPath]. *)
Lemma overridePathOf_listed d X :
  Path.isAbsolute d = false -> noSlash X = true -> X <> "" ->
  overridePathOf ("./" +:+ Path.join d (X +:+ ".autogen.js"))
  = "./" +:+ Path.join d (X +:+ ".js").
Proof.
  intros Habs HX Hne.
  assert (entryName (X +:+ ".autogen.js")) as Hf
    by (apply entryName_with_extension; [done|done|simpl; lia]).
  assert (entryName (X +:+ ".js")) as Hg
    by (apply entryName_with_extension; [done|done|simpl; lia]).
  unfold overridePathOf. change JS_AUTOGEN_EXT with ".autogen.js".
  rewrite listed_path_basenameExt, listed_path_dirname by done.
  set (nd := Path.normalizeSegments true (Path.segments d)).
  f_equal. rewrite (Path_join_entry d _ Habs Hg). fold nd.
  assert (Forall (fun x => noSlash x = true) ("." :: nd)) as Hnd.
  { constructor; [done|]. apply normalizeSegments_Forall, splitOn_Forall_noSlash. }
  rewrite Path_join_entry; [|by destruct nd|done].
  rewrite segments_join by done.
  rewrite normalizeSegments_skip_dot. unfold nd.
  by rewrite normalizeSegments_idempotent.
Qed.

Lemma RE_AUTOGEN_EXT_listed d X :
  Path.isAbsolute d = false -> noSlash X = true ->
  RE_AUTOGEN_EXT ("./" +:+ Path.join d (X +:+ ".autogen.js")) = true.
Proof.
  intros Habs HX.
  assert (entryName (X +:+ ".autogen.js")) as Hf
    by (apply entryName_with_extension; [done|done|simpl; lia]).
  rewrite (Path_join_entry d _ Habs Hf).
  destruct (join_last_suffix (Path.normalizeSegments true (Path.segments d))
              (X +:+ ".autogen.js")) as (pre & ->).
  unfold RE_AUTOGEN_EXT. rewrite <- !string_app_assoc. apply endsWith_app.
Qed.

(** ** The directory index *)

Lemma dot_slash_inj (s t : string) : "./" +:+ s = "./" +:+ t -> s = t.
Proof. rewrite !string_app_cons, !string_app_nil. by intros [= ->]. Qed.

(** A listed file comes from an entry of the directory, which is its base
    name. *)
Lemma indexedFiles_In dirPath dirFiles name :
  Path.isAbsolute dirPath = false ->
  Forall entryName dirFiles ->
  In ("./" +:+ name) (indexedFiles dirPath dirFiles) <->
  In name dirFiles /\
  keptInIndex dirPath
    (map (fun filename => "./" +:+ Path.join dirPath filename) dirFiles)
    ("./" +:+ Path.join dirPath name) = true.
Proof.
  intros Habs Hentries. unfold indexedFiles. rewrite in_map_iff. split.
  - intros (filePath & Hname & (Hmapped & Hkept)%filter_In).
    apply in_map_iff in Hmapped as (f & <- & Hf).
    rewrite List.Forall_forall in Hentries.
    rewrite listed_path_basename in Hname by auto.
    apply dot_slash_inj in Hname as <-. split; assumption.
  - intros (Hname & Hkept). exists ("./" +:+ Path.join dirPath name).
    rewrite List.Forall_forall in Hentries.
    rewrite listed_path_basename by auto. split; [done|].
    apply filter_In. split; [|done].
    apply in_map_iff. eauto.
Qed.

(** A generated file with its override in the same directory is left out. *)
Lemma generated_not_kept dirPath dirFiles X :
  Path.isAbsolute dirPath = false ->
  noSlash X = true -> X <> "" ->
  In (X +:+ ".js") dirFiles ->
  keptInIndex dirPath
    (map (fun filename => "./" +:+ Path.join dirPath filename) dirFiles)
    ("./" +:+ Path.join dirPath (X +:+ ".autogen.js")) = false.
Proof.
  intros Habs HX Hne Hoverride. unfold keptInIndex.
  rewrite RE_AUTOGEN_EXT_listed by done.
  destruct (Str.contains "_base" dirPath); [done|]. cbn [andb].
  destruct (shouldExclude _); [done|].
  apply negb_false_iff. unfold overrideListed.
  rewrite overridePathOf_listed by done.
  apply existsb_exists. exists ("./" +:+ Path.join dirPath (X +:+ ".js")).
  split; [|apply String.eqb_refl].
  apply in_map_iff. eauto.
Qed.

(** C6, as amended: in the index of a directory, for a class [X], the
    generated file [X.autogen.js] and the override [X.js] are never both
    listed; when both files are in the directory the generated one is not
    listed, and the override is listed provided no exclusion rule applies to
    the override itself (it matches no pattern of [excludes] and is not
    itself named like a generated file).  This holds in every directory, the
    base directory included. *)
Theorem index_never_lists_generated_with_override
  (dirPath : string) (dirFiles : list string) (X : string) :
  Path.isAbsolute dirPath = false ->
  Forall entryName dirFiles ->
  noSlash X = true ->
  X <> "" ->
  ~ (In ("./" +:+ X +:+ ".autogen.js") (indexedFiles dirPath dirFiles) /\
     In ("./" +:+ X +:+ ".js") (indexedFiles dirPath dirFiles))
  /\
  (In (X +:+ ".autogen.js") dirFiles ->
   In (X +:+ ".js") dirFiles ->
   ~ In ("./" +:+ X +:+ ".autogen.js") (indexedFiles dirPath dirFiles) /\
   (shouldExclude ("./" +:+ Path.join dirPath (X +:+ ".js")) = false ->
    RE_AUTOGEN_EXT ("./" +:+ Path.join dirPath (X +:+ ".js")) = false ->
    In ("./" +:+ X +:+ ".js") (indexedFiles dirPath dirFiles))).
Proof.
  intros Habs Hentries HX Hne. split.
  - intros [Hgen Hover].
    apply indexedFiles_In in Hgen as [_ Hkept]; [|done|done].
    apply indexedFiles_In in Hover as [Hfile _]; [|done|done].
    by rewrite generated_not_kept in Hkept.
  - intros _ Hfile. split.
    + intros Hgen. apply indexedFiles_In in Hgen as [_ Hkept]; [|done|done].
      by rewrite generated_not_kept in Hkept.
    + intros Hexcluded Hgenerated. apply indexedFiles_In; [done|done|].
      split; [done|]. unfold keptInIndex.
      by rewrite Hgenerated, Hexcluded, andb_false_r.
Qed.

Lemma coreListing_entries :
  Forall entryName ["Object3D.autogen.js"; "Object3D.js"; "Geometry.autogen.js"; "index.js"].
Proof. repeat constructor; discriminate. Defined.

Lemma index_never_lists_generated_with_override_witness :
  ~ (In "./Object3D.autogen.js"
       (indexedFiles "core/"
          ["Object3D.autogen.js"; "Object3D.js"; "Geometry.autogen.js"; "index.js"]) /\
     In "./Object3D.js"
       (indexedFiles "core/"
          ["Object3D.autogen.js"; "Object3D.js"; "Geometry.autogen.js"; "index.js"]))
  /\
  In "./Object3D.js"
    (indexedFiles "core/"
       ["Object3D.autogen.js"; "Object3D.js"; "Geometry.autogen.js"; "index.js"]).
Proof.
  pose proof (index_never_lists_generated_with_override "core/"
    ["Object3D.autogen.js"; "Object3D.js"; "Geometry.autogen.js"; "index.js"] "Object3D"
    eq_refl coreListing_entries eq_refl ltac:(discriminate)) as [Hnever Hboth].
  split; [exact Hnever|].
  destruct (Hboth (or_introl eq_refl) (or_intror (or_introl eq_refl))) as [_ Hoverride].
  exact (Hoverride eq_refl eq_refl).
Defined.

Example indexedFiles_core :
  indexedFiles "core/"
    ["Object3D.autogen.js"; "Object3D.js"; "Geometry.autogen.js"; "index.js"]
  = ["./Object3D.js"; "./Geometry.autogen.js"].
Proof. vm_compute. reflexivity. Qed.

Example indexedFiles_base :
  indexedFiles "_base/" ["Three.js"; "Three.autogen.js"; "Renderable.autogen.js"; "utils.js"]
  = ["./Three.js"; "./utils.js"].
Proof. vm_compute. reflexivity. Qed.

(** C6 as stated fails when the override is itself excluded: for a class
    whose name ends in [index], and for a class named like an entry point of
    the top directory, both files are there and neither is listed. *)
Lemma index_lists_neither_file :
  indexedFiles "core/" ["Reindex.autogen.js"; "Reindex.js"; "Object3D.autogen.js"]
    = ["./Object3D.autogen.js"] /\
  indexedFiles "." ["embed.autogen.js"; "embed.js"; "Three.autogen.js"]
    = ["./Three.autogen.js"].
Proof. split; vm_compute; reflexivity. Qed.

(** ** Cyclic superclass references *)

(** C1, as amended: when the superclass references reachable from a class
    run into a cycle, [getClassConfig] has no guard against it: whatever
    room the call stack offers, the recursion uses all of it and the call
    ends with the engine's stack-exhaustion error, never with an error of
    the script and never with a configuration.  The generators catch that
    error like any other: the class is skipped, in both languages. *)
Theorem getClassConfig_cycle_exhausts_stack (table : ClassConfigs) (c d : string) :
  rtc (superStep table) c d ->
  tc (superStep table) d d ->
  (forall depth, getClassConfig depth table c = Throw stackExhausted)
  /\
  (forall env jsTemplate pyTemplate now modulePath className,
     classConfigs env = table ->
     wrapperClassName modulePath className = c ->
     outcome (createJavascriptWrapper env jsTemplate now modulePath className) = Ok Skipped /\
     outcome (createPythonWrapper env pyTemplate now modulePath className) = Ok Skipped).
Proof.
  intros Hcd Hdd.
  assert (forall depth, getClassConfig depth table c = Throw stackExhausted) as Hthrows.
  { intros depth. apply getClassConfig_endless. intros n.
    destruct (cycle_unbounded _ _ _ Hcd Hdd n) as (e & He & _). eauto. }
  split; [exact Hthrows|].
  intros env jsTemplate pyTemplate now modulePath className <- <-. split.
  - apply (createJavascriptWrapper_failing env jsTemplate now modulePath className
             stackExhausted).
    left. apply Hthrows.
  - apply (createPythonWrapper_failing env pyTemplate now modulePath className
             stackExhausted).
    left. apply Hthrows.
Qed.

Lemma getClassConfig_cycle_exhausts_stack_witness :
  getClassConfig 1000 cyclicConfigs "A" = Throw stackExhausted /\
  outcome (createJavascriptWrapper cyclicEnv datedJsTemplate "now" "core/A.js" None)
    = Ok Skipped /\
  outcome (createPythonWrapper cyclicEnv datedPyTemplate "now" "core/A.js" None)
    = Ok Skipped.
Proof.
  pose proof (getClassConfig_cycle_exhausts_stack cyclicConfigs "A" "A"
    (rtc_refl _ _)
    (tc_l _ _ _ _ cyclicConfigs_step_A (tc_once _ _ _ cyclicConfigs_step_B)))
    as [Hthrows Hskipped].
  split; [exact (Hthrows 1000)|].
  exact (Hskipped cyclicEnv datedJsTemplate datedPyTemplate "now" "core/A.js" None
           eq_refl eq_refl).
Defined.

(** ** More on configuration resolution *)

Lemma cameraConfigs_chain :
  SuperChain cameraConfigs "PerspectiveCamera"
    [ {| relativePath := Some "./cameras/PerspectiveCamera"; superClass := Some "Camera";
         properties := Some [("fov", plainProp)];
         constructorArgs := None; dependencies := None;
         propsDefinedByThree := None; allProperties := None |};
      {| relativePath := Some "./cameras/Camera"; superClass := Some "Object3D";
         properties := Some [("matrixWorldInverse", plainProp)];
         constructorArgs := Some ["position"]; dependencies := Some ["Object3D"];
         propsDefinedByThree := Some ["matrixWorldInverse"; "projectionMatrix"];
         allProperties := None |};
      {| relativePath := Some "./core/Object3D"; superClass := None;
         properties := Some [("position", plainProp)];
         constructorArgs := None; dependencies := None;
         propsDefinedByThree := Some ["children"]; allProperties := None |} ].
Proof.
  eapply SuperChain_step; [reflexivity | reflexivity |].
  eapply SuperChain_step; [reflexivity | reflexivity |].
  eapply SuperChain_root; reflexivity.
Defined.

Lemma applyDefaults_propsDefinedByThree r d l :
  propsDefinedByThree r = Some l -> propsDefinedByThree (applyDefaults r d) = Some l.
Proof. intros H. destruct d; simpl; [rewrite H|]; done. Qed.

(** X1: [propsDefinedByThree] of a resolved class is the concatenation of
    the lists declared along its superclass chain, the class's own first and
    the root's last; a class that declares none contributes nothing, and
    nothing is removed, not even a name met twice. *)
Theorem propsDefinedByThree_along_chain
  (classConfigs : ClassConfigs) (name : string) (chain : list ClassConfig) :
  SuperChain classConfigs name chain ->
  forall depth, length chain <= depth ->
  exists r,
    getClassConfig depth classConfigs name = Ok r /\
    propsDefinedByThree r
    = Some (concat (map (fun c => orEmpty (propsDefinedByThree c)) chain)).
Proof.
  induction 1 as [name c Hat Hsup | name c superName rest Hat Hsup Hrest IH];
    intros depth Hdepth; (destruct depth as [|depth]; [simpl in Hdepth; lia|]).
  - rewrite (getClassConfig_step classConfigs depth name c None Hat Hsup).
    eexists; split; [reflexivity|].
    apply applyDefaults_propsDefinedByThree. simpl. by rewrite app_nil_r.
  - rewrite (getClassConfig_step classConfigs depth name c (Some superName) Hat Hsup).
    destruct (IH depth) as (r & Hr & Hprops); [simpl in Hdepth; lia|].
    rewrite Hr. eexists; split; [reflexivity|].
    apply applyDefaults_propsDefinedByThree. simpl. by rewrite Hprops.
Qed.

Lemma propsDefinedByThree_along_chain_witness :
  exists r,
    getClassConfig 3 cameraConfigs "PerspectiveCamera" = Ok r /\
    propsDefinedByThree r = Some ["matrixWorldInverse"; "projectionMatrix"; "children"].
Proof.
  exact (propsDefinedByThree_along_chain cameraConfigs "PerspectiveCamera" _
           cameraConfigs_chain 3 (le_n 3)).
Defined.

Lemma getClassConfig_monotone (classConfigs : ClassConfigs) :
  forall (depth depth' : nat) (name : string) (res : Res ClassConfig),
    getClassConfig depth classConfigs name = res ->
    res <> Throw stackExhausted ->
    depth <= depth' ->
    getClassConfig depth' classConfigs name = res.
Proof.
  induction depth as [|depth IH]; intros depth' name res Hres Hne Hle.
  - simpl in Hres. congruence.
  - destruct depth' as [|depth']; [lia|].
    simpl in Hres |- *.
    destruct (classConfigAt classConfigs (normalizeClassName name)) as [c|]; [|done].
    destruct (superClassToResolve classConfigs c) as [[superName|]|e]; [|done|done].
    simpl in Hres |- *.
    rewrite (IH depth' superName (getClassConfig depth classConfigs superName) eq_refl);
      [done| |lia].
    intros Hsup. rewrite Hsup in Hres. simpl in Hres. congruence.
Qed.

(** X2: the result of [getClassConfig] does not depend on the room left on
    the call stack: whatever it returns or throws with some room, short of
    the engine's stack exhaustion, it returns or throws with any larger
    room. *)
Theorem getClassConfig_more_stack
  (classConfigs : ClassConfigs) (depth depth' : nat) (name : string) :
  getClassConfig depth classConfigs name <> Throw stackExhausted ->
  depth <= depth' ->
  getClassConfig depth' classConfigs name = getClassConfig depth classConfigs name.
Proof. intros Hne Hle. by apply (getClassConfig_monotone classConfigs depth depth'). Qed.

Lemma getClassConfig_more_stack_witness :
  getClassConfig 16 cameraConfigs "PerspectiveCamera"
  = getClassConfig 3 cameraConfigs "PerspectiveCamera".
Proof.
  apply (getClassConfig_more_stack cameraConfigs 3 16 "PerspectiveCamera").
  - vm_compute. discriminate.
  - lia.
Defined.

(** X3: when the superclass chain of a class reaches, after [n] steps, a
    name that is not in the table, resolving the class fails with
    [invalid class name] of that ancestor, not of the class asked for. *)
Theorem getClassConfig_missing_ancestor
  (classConfigs : ClassConfigs) (n : nat) (name ancestor : string) :
  nsteps (superStep classConfigs) n name ancestor ->
  classConfigAt classConfigs (normalizeClassName ancestor) = None ->
  forall depth, n < depth ->
  getClassConfig depth classConfigs name
  = Throw (Error ("invalid class name: " +:+ normalizeClassName ancestor)).
Proof.
  induction 1 as [name | n name mid ancestor (c & Hat & Hsup) Hrest IH];
    intros Hmissing depth Hdepth; (destruct depth as [|depth]; [lia|]).
  - simpl. by rewrite Hmissing.
  - rewrite (getClassConfig_step classConfigs depth name c (Some mid) Hat Hsup).
    rewrite (IH Hmissing depth) by lia. reflexivity.
Qed.

Lemma getClassConfig_missing_ancestor_witness :
  getClassConfig 2 sparseConfigs "Child" = Throw (Error "invalid class name: Missing").
Proof.
  apply (getClassConfig_missing_ancestor sparseConfigs 1 "Child" "Missing").
  - eapply nsteps_l; [|apply nsteps_O].
    eexists; split; reflexivity.
  - reflexivity.
  - lia.
Defined.

(** X4: the path, the constructor arguments, the explicit dependencies, the
    own properties and the superclass of a resolved class are those of its
    own entry, and where the entry has none those of [_defaults]; what the
    ancestors declare for these fields is never used. *)
Theorem scalar_fields_not_inherited
  (classConfigs : ClassConfigs) (name : string) (c d : ClassConfig)
  (ancestors : list ClassConfig) (depth : nat) :
  SuperChain classConfigs name (c :: ancestors) ->
  length (c :: ancestors) <= depth ->
  JsObject.get "_defaults" classConfigs = Some d ->
  exists r,
    getClassConfig depth classConfigs name = Ok r /\
    relativePath r = orElse (relativePath c) (relativePath d) /\
    superClass r = orElse (superClass c) (superClass d) /\
    properties r = orElse (properties c) (properties d) /\
    constructorArgs r = orElse (constructorArgs c) (constructorArgs d) /\
    dependencies r = orElse (dependencies c) (dependencies d).
Proof.
  intros Hchain Hdepth Hdefaults.
  destruct (getClassConfig_chain classConfigs name _ Hchain depth Hdepth) as (r & _ & Hr & _).
  exists r. split; [done|].
  destruct (getClassConfig_Ok depth classConfigs name r Hr)
    as (cur & Hcur & Hpath & Hsuper & Hprops & Hargs & Hdeps).
  assert (cur = c) as ->.
  { inversion Hchain; congruence. }
  unfold defaulted in *. rewrite Hdefaults in *. done.
Qed.

Lemma scalar_fields_not_inherited_witness :
  exists r,
    getClassConfig 3 cameraConfigs "PerspectiveCamera" = Ok r /\
    relativePath r = Some "./cameras/PerspectiveCamera" /\
    superClass r = Some "Camera" /\
    properties r = Some [("fov", plainProp)] /\
    constructorArgs r = Some [] /\
    dependencies r = None.
Proof.
  exact (scalar_fields_not_inherited cameraConfigs "PerspectiveCamera" _ defaultsEntry _ 3
           cameraConfigs_chain (le_n 3) eq_refl).
Defined.

(** ** The classes of a source unit *)

Lemma optionStringEqb_eq (a b : option string) : optionStringEqb a b = true <-> a = b.
Proof.
  destruct a, b; simpl; try (split; congruence).
  rewrite String.eqb_eq. split; congruence.
Qed.

Lemma getExtraDefines_In classConfigs name cur extras k :
  classConfigAt classConfigs (normalizeClassName name) = Some cur ->
  getExtraDefines classConfigs name = Ok extras ->
  In k extras <->
  exists c,
    JsObject.get k classConfigs = Some c /\
    startsWithUnderscore k = false /\
    relativePath c = relativePath cur /\
    k <> normalizeClassName name.
Proof.
  unfold getExtraDefines. intros -> [= <-].
  rewrite <- list_elem_of_In, list_elem_of_omap. split.
  - intros ([k' c] & Hin & Hkept). simpl in Hkept.
    apply list_elem_of_In, JsObjectFacts.entries_sound in Hin.
    destruct (startsWithUnderscore k') eqn:Hu; [done|].
    destruct (optionStringEqb _ _) eqn:Hpath; [|done].
    destruct (String.eqb k' (normalizeClassName name)) eqn:Hself; [done|].
    simpl in Hkept. injection Hkept as ->.
    exists c. split; [done|]. split; [done|]. split.
    + by apply optionStringEqb_eq.
    + by apply String.eqb_neq.
  - intros (c & Hget & Hu & Hpath & Hself).
    exists (k, c). split.
    + by apply list_elem_of_In, JsObjectFacts.entries_complete.
    + simpl. rewrite Hu.
      apply optionStringEqb_eq in Hpath. rewrite Hpath.
      apply String.eqb_neq in Hself. by rewrite Hself.
Qed.

(** X5: [getExtraDefines] fails with [invalid class name] for a name that
    is not in the table; otherwise it returns exactly the own keys of the
    table that do not start with an underscore, have the [relativePath] of
    the class and are not the class itself.  So [_defaults] and the class
    asked for are never among the extra classes. *)
Theorem getExtraDefines_members (classConfigs : ClassConfigs) (name : string) :
  match classConfigAt classConfigs (normalizeClassName name) with
  | None =>
      getExtraDefines classConfigs name
      = Throw (Error ("invalid class name: " +:+ normalizeClassName name))
  | Some cur =>
      exists extras,
        getExtraDefines classConfigs name = Ok extras /\
        (forall k,
           In k extras <->
           exists c,
             JsObject.get k classConfigs = Some c /\
             startsWithUnderscore k = false /\
             relativePath c = relativePath cur /\
             k <> normalizeClassName name) /\
        ~ In "_defaults" extras /\
        ~ In (normalizeClassName name) extras
  end.
Proof.
  destruct (classConfigAt classConfigs (normalizeClassName name)) as [cur|] eqn:Hat.
  - assert (exists extras, getExtraDefines classConfigs name = Ok extras) as (extras & Hex).
    { unfold getExtraDefines. rewrite Hat. eauto. }
    exists extras. split; [done|].
    split; [intros k; by apply getExtraDefines_In|].
    split; intros Hin;
      apply (getExtraDefines_In classConfigs name cur extras _ Hat Hex) in Hin
        as (c & _ & Hu & _ & Hself); done.
  - unfold getExtraDefines. by rewrite Hat.
Qed.

(** X6: sharing a source unit is symmetric: when [b] is an extra class of
    [a], then [a] is an extra class of [b], provided [a] is an own key of
    the table written without a dot and without a leading underscore and
    [b] is written without a dot. *)
Theorem getExtraDefines_symmetric
  (classConfigs : ClassConfigs) (a b : string) (extrasOfA : list string) :
  JsObject.has a classConfigs = true ->
  startsWithUnderscore a = false ->
  normalizeClassName a = a ->
  normalizeClassName b = b ->
  getExtraDefines classConfigs a = Ok extrasOfA ->
  In b extrasOfA ->
  exists extrasOfB,
    getExtraDefines classConfigs b = Ok extrasOfB /\ In a extrasOfB.
Proof.
  intros Hown Hu Ha Hb Hex Hin.
  unfold JsObject.has in Hown.
  destruct (JsObject.get a classConfigs) as [ca|] eqn:Hget; [|done].
  assert (classConfigAt classConfigs (normalizeClassName a) = Some ca) as Hat.
  { unfold classConfigAt. by rewrite Ha, Hget. }
  apply (getExtraDefines_In _ _ ca _ _ Hat Hex) in Hin
    as (cb & Hgetb & _ & Hpath & Hne).
  assert (classConfigAt classConfigs (normalizeClassName b) = Some cb) as Hatb.
  { unfold classConfigAt. by rewrite Hb, Hgetb. }
  assert (exists extras, getExtraDefines classConfigs b = Ok extras) as (extras & Hexb).
  { unfold getExtraDefines. rewrite Hatb. eauto. }
  exists extras. split; [done|].
  apply (getExtraDefines_In _ _ cb _ _ Hatb Hexb).
  exists ca. rewrite Hb. rewrite Ha in Hne. done.
Qed.

Lemma getExtraDefines_symmetric_witness :
  exists extrasOfB,
    getExtraDefines exampleConfigs "RingOutline" = Ok extrasOfB /\ In "Ring" extrasOfB.
Proof.
  apply (getExtraDefines_symmetric exampleConfigs "Ring" "RingOutline" ["RingOutline"]);
    try reflexivity.
  simpl. by left.
Defined.

(** ** Python import paths *)

Lemma string_app_nil_r (s : string) : s +:+ "" = s.
Proof. induction s as [|a s IH]; [done|]. by rewrite string_app_cons, IH. Qed.

Lemma splitOn_noPathSep (s : string) :
  noPathSep s = true -> Str.splitOn isPathSep s = [s].
Proof.
  induction s as [|a s IH]; [done|]. intros [Ha Hs]%andb_true_iff.
  cbn [Str.splitOn]. apply negb_true_iff in Ha. by rewrite Ha, IH.
Qed.

Lemma splitOn_pathSep_app (s t : string) :
  Str.splitOn isPathSep (s +:+ "/" +:+ t)
  = Str.splitOn isPathSep s ++ Str.splitOn isPathSep t.
Proof.
  induction s as [|a s IH]; [done|].
  rewrite string_app_cons. cbn [Str.splitOn]. rewrite IH.
  destruct (isPathSep a); [done|].
  pose proof (splitOn_nonempty isPathSep s).
  by destruct (Str.splitOn isPathSep s).
Qed.

Lemma splitOn_pathSep_join (l : list string) :
  l <> [] -> Forall (fun x => noPathSep x = true) l ->
  Str.splitOn isPathSep (Str.join "/" l) = l.
Proof.
  induction l as [|a l IH]; [done|]. intros _ [Ha Hl]%Forall_cons.
  destruct l as [|b l]; [by apply splitOn_noPathSep|].
  rewrite join_cons by done. rewrite splitOn_pathSep_app, IH by done.
  by rewrite splitOn_noPathSep.
Qed.

Lemma splitOn_Forall_noPathSep (s : string) :
  Forall (fun x => noPathSep x = true) (Str.splitOn isPathSep s).
Proof.
  induction s as [|a s IH]; [by repeat constructor|].
  cbn [Str.splitOn]. destruct (isPathSep a) eqn:Ha; [by constructor|].
  destruct (Str.splitOn isPathSep s) as [|w ws].
  - repeat constructor. simpl. by rewrite Ha.
  - apply Forall_cons in IH as [Hw Hws]. constructor; [|done].
    simpl. by rewrite Ha, Hw.
Qed.

Lemma noPathSep_app (s t : string) : noPathSep (s +:+ t) = noPathSep s && noPathSep t.
Proof.
  induction s as [|a s IH]; [done|].
  rewrite string_app_cons. simpl. by rewrite IH, andb_assoc.
Qed.

Lemma relativePathToPythonImportPath_fold (relativePath : string) :
  relativePathToPythonImportPath relativePath
  = let tokens := Str.splitOn isPathSep relativePath in
    let firstToken := hd "" tokens in
    let st :=
      if String.eqb firstToken "." then fold_left importPathStep (tl tokens) ("", false)
      else if String.eqb firstToken ".." then fold_left importPathStep (tl tokens) (".", false)
      else fold_left importPathStep tokens ("", false) in
    if negb (snd st) then fst st +:+ "." else fst st.
Proof.
  unfold relativePathToPythonImportPath.
  pose proof (splitOn_nonempty isPathSep relativePath) as Hne.
  destruct (Str.splitOn isPathSep relativePath) as [|first rest]; [done|].
  cbn [hd tl length Nat.leb].
  fold importPathStep.
  destruct (String.eqb first "."); [by destruct (fold_left _ _ _)|].
  destruct (String.eqb first ".."); by destruct (fold_left _ _ _).
Qed.

Lemma dots_snoc n : dots n +:+ "." = dots (S n).
Proof. induction n as [|n IH]; [done|]. simpl. by rewrite string_app_cons, IH. Qed.

Lemma fold_importPathStep_ups k : forall st,
  fold_left importPathStep (replicate k "..") st = (fst st +:+ dots k, snd st).
Proof.
  induction k as [|k IH]; intros [r b]; simpl.
  - by rewrite string_app_nil_r.
  - rewrite IH. unfold importPathStep. simpl.
    rewrite string_app_assoc. reflexivity.
Qed.

Lemma fold_importPathStep_names names : forall st,
  Forall (fun s => noPathSep s = true /\ s <> "." /\ s <> "..") names ->
  names <> [] ->
  fold_left importPathStep names st = (fst st +:+ "." +:+ Str.join "." names, true).
Proof.
  induction names as [|n names IH]; [done|].
  intros [r b] [(_ & Hdot & Hup) Hnames]%Forall_cons _.
  cbn [fold_left]. unfold importPathStep at 2.
  apply String.eqb_neq in Hdot, Hup. rewrite Hdot, Hup. cbn [fst snd].
  destruct names as [|m names]; [done|].
  rewrite IH by done. cbn [fst]. rewrite (join_cons "." n (m :: names)) by done.
  by rewrite !string_app_assoc.
Qed.

(** X7: [relativePathToPythonImportPath] turns a relative path made of [k]
    steps up followed by names into [k + 1] dots followed by the names
    joined by dots: the Python relative import of the same module.  A path
    without names gives the dots alone. *)
Theorem import_path_of_relative_path (k : nat) (names : list string) :
  Forall (fun s => noPathSep s = true /\ s <> "." /\ s <> "..") names ->
  relativePathToPythonImportPath (Str.join "/" (replicate k ".." ++ names))
  = dots (S k) +:+ Str.join "." names.
Proof.
  intros Hnames.
  assert (Forall (fun x => noPathSep x = true) (replicate k ".." ++ names)) as Htokens.
  { apply Forall_app. split.
    - apply Forall_forall. by intros x [-> _]%elem_of_replicate.
    - eapply Forall_impl; [exact Hnames|]. by intros x (? & _). }
  rewrite relativePathToPythonImportPath_fold.
  destruct k as [|k].
  - destruct names as [|n names]; [reflexivity|].
    cbn [replicate app] in *.
    rewrite splitOn_pathSep_join by done.
    cbn [hd tl].
    pose proof Hnames as [(_ & Hdot & Hup) _]%Forall_cons.
    apply String.eqb_neq in Hdot, Hup. rewrite Hdot, Hup.
    rewrite fold_importPathStep_names by done. reflexivity.
  - rewrite splitOn_pathSep_join by done.
    cbn [replicate app hd tl]. cbn [String.eqb Ascii.eqb Bool.eqb].
    rewrite fold_left_app, fold_importPathStep_ups. cbn [fst snd].
    destruct names as [|n names].
    + cbn [fold_left fst snd negb Str.join].
      rewrite string_app_nil_r. change ("." +:+ dots k) with (dots (S k)).
      apply dots_snoc.
    + rewrite fold_importPathStep_names by done. cbn [fst snd negb].
      change ("." +:+ dots k) with (dots (S k)).
      rewrite <- (dots_snoc (S k)). by rewrite !string_app_assoc.
Qed.

Lemma import_path_of_relative_path_witness :
  relativePathToPythonImportPath "../../materials/Material" = "...materials.Material".
Proof.
  apply (import_path_of_relative_path 2 ["materials"; "Material"]).
  repeat constructor; discriminate.
Defined.

Lemma importPathStep_shape st token :
  noPathSep token = true ->
  noPathSep (fst st) = true /\
    (fst st = "" \/ exists r, fst st = String "." r) /\
    (snd st = true -> fst st <> "") ->
  let st' := importPathStep st token in
  noPathSep (fst st') = true /\
    (fst st' = "" \/ exists r, fst st' = String "." r) /\
    (snd st' = true -> fst st' <> "").
Proof.
  destruct st as [r b]. cbn [fst snd]. intros Htoken (Hsep & Hdot & Hsaw).
  unfold importPathStep.
  destruct (String.eqb token "."); [done|].
  destruct (String.eqb token ".."); cbn [fst snd].
  - rewrite noPathSep_app, Hsep. split; [done|].
    destruct Hdot as [-> | [r' ->]]; rewrite ?string_app_nil, ?string_app_cons; eauto.
  - rewrite !noPathSep_app, Hsep, Htoken. split; [done|].
    destruct Hdot as [-> | [r' ->]]; rewrite ?string_app_nil, ?string_app_cons; eauto.
Qed.

Lemma fold_importPathStep_shape tokens : forall st,
  Forall (fun x => noPathSep x = true) tokens ->
  noPathSep (fst st) = true /\
    (fst st = "" \/ exists r, fst st = String "." r) /\
    (snd st = true -> fst st <> "") ->
  let st' := fold_left importPathStep tokens st in
  noPathSep (fst st') = true /\
    (fst st' = "" \/ exists r, fst st' = String "." r) /\
    (snd st' = true -> fst st' <> "").
Proof.
  induction tokens as [|t tokens IH]; intros st Htokens Hst; [done|].
  apply Forall_cons in Htokens as [Ht Htokens]. cbn [fold_left].
  apply IH; [done|]. by apply importPathStep_shape.
Qed.

(** X8: whatever the path, [relativePathToPythonImportPath] returns a
    relative import: the result starts with a dot and contains no path
    separator. *)
Theorem import_path_is_relative (relativePath : string) :
  (exists r, relativePathToPythonImportPath relativePath = String "." r) /\
  noPathSep (relativePathToPythonImportPath relativePath) = true.
Proof.
  rewrite relativePathToPythonImportPath_fold.
  pose proof (splitOn_nonempty isPathSep relativePath) as Hne.
  pose proof (splitOn_Forall_noPathSep relativePath) as Htokens.
  destruct (Str.splitOn isPathSep relativePath) as [|first rest]; [done|].
  cbn [hd tl].
  pose proof Htokens as [_ Hrest]%Forall_cons.
  assert (forall start tokens,
    Forall (fun x => noPathSep x = true) tokens ->
    start = "" \/ start = "." ->
    let st := fold_left importPathStep tokens (start, false) in
    (exists r, (if negb (snd st) then fst st +:+ "." else fst st) = String "." r) /\
    noPathSep (if negb (snd st) then fst st +:+ "." else fst st) = true) as Hshape.
  { intros start tokens Hall Hstart st.
    destruct (fold_importPathStep_shape tokens (start, false) Hall)
      as (Hsep & Hdot & Hsaw).
    { cbn [fst snd]. destruct Hstart as [-> | ->]; eauto 6. }
    fold st in Hsep, Hdot, Hsaw.
    destruct (snd st); cbn [negb].
    - split; [|done]. destruct Hdot as [Hempty | ?]; [|done]. by destruct Hsaw.
    - split; [|by rewrite noPathSep_app, Hsep].
      destruct Hdot as [-> | [r ->]]; rewrite ?string_app_nil, ?string_app_cons; eauto. }
  destruct (String.eqb first "."); [apply Hshape; auto|].
  destruct (String.eqb first ".."); apply Hshape; auto.
Qed.

(** ** The two generators on the same class *)

Lemma slots_set_congr {A B} k (v1 : A) (v2 : B) : forall o1 o2,
  map fst o1 = map fst o2 ->
  map fst (JsObject.set k v1 o1) = map fst (JsObject.set k v2 o2).
Proof.
  induction o1 as [|[k1 a1] o1 IH]; intros [|[k2 a2] o2] Hkeys; try done.
  simpl in Hkeys. injection Hkeys as -> Hkeys.
  simpl. destruct (String.eqb k2 k); simpl; [by rewrite Hkeys|].
  by rewrite (IH o2).
Qed.

Lemma requireInfo_sameFate env jsDestDir pyDestDir classDescriptor :
  sameFate
    (JavascriptWrapper.getRequireInfoFromClassDescriptor env jsDestDir classDescriptor)
    (PythonWrapper.getRequireInfoFromClassDescriptor env pyDestDir classDescriptor).
Proof.
  destruct classDescriptor as [name|]; [|done].
  unfold JavascriptWrapper.getRequireInfoFromClassDescriptor,
    PythonWrapper.getRequireInfoFromClassDescriptor.
  destruct (inClassConfigs (classConfigs env) name); [|done].
  destruct (getClassConfig (stackDepth env) (classConfigs env) name) as [config|e]; [|done].
  simpl. by destruct (relativePath config).
Qed.

Section SameScan.
Context {Info1 Info2 : Type}.
Variable resolve1 : string -> Res Info1.
Variable resolve2 : string -> Res Info2.
Variable post1 : Info1 -> Info1.
Variable post2 : Info2 -> Info2.
Hypothesis resolve_sameFate : forall k, sameFate (resolve1 k) (resolve2 k).

Lemma scanName_sameSlots finish1 finish2 o1 o2 k :
  map fst o1 = map fst o2 ->
  sameSlots (scanName resolve1 finish1 o1 k) (scanName resolve2 finish2 o2 k).
Proof.
  intros Hkeys. unfold scanName. pose proof (resolve_sameFate k) as Hk.
  destruct (resolve1 k), (resolve2 k); simpl in *; try done.
  by apply slots_set_congr.
Qed.

Lemma scanNames_sameSlots finish1 finish2 names : forall o1 o2,
  map fst o1 = map fst o2 ->
  sameSlots (foldRes (scanName resolve1 finish1) names o1)
            (foldRes (scanName resolve2 finish2) names o2).
Proof.
  induction names as [|k names IH]; intros o1 o2 Hkeys; [done|].
  cbn [foldRes].
  pose proof (scanName_sameSlots finish1 finish2 o1 o2 k Hkeys) as Hk.
  destruct (scanName resolve1 finish1 o1 k), (scanName resolve2 finish2 o2 k);
    simpl in *; try done.
  by apply IH.
Qed.

Lemma scanProperty_sameSlots o1 o2 prop :
  map fst o1 = map fst o2 ->
  sameSlots (scanProperty resolve1 post1 o1 prop) (scanProperty resolve2 post2 o2 prop).
Proof.
  intros Hkeys. unfold scanProperty.
  destruct (isThreeReference prop); [|done].
  destruct (typeName prop) as [name|names|]; [| |done].
  - destruct (String.eqb name "this"); [done|]. by apply scanName_sameSlots.
  - by apply scanNames_sameSlots.
Qed.

Lemma scanProperties_sameSlots props : forall o1 o2,
  map fst o1 = map fst o2 ->
  sameSlots (foldRes (scanProperty resolve1 post1) props o1)
            (foldRes (scanProperty resolve2 post2) props o2).
Proof.
  induction props as [|prop props IH]; intros o1 o2 Hkeys; [done|].
  cbn [foldRes].
  pose proof (scanProperty_sameSlots o1 o2 prop Hkeys) as Hk.
  destruct (scanProperty resolve1 post1 o1 prop), (scanProperty resolve2 post2 o2 prop);
    simpl in *; try done.
  by apply IH.
Qed.

Lemma sameSlots_sameTable {A B} (x : Res (JsObject.t A)) (y : Res (JsObject.t B)) :
  sameSlots x y -> sameTable x y.
Proof.
  destruct x as [a|e1], y as [b|e2]; simpl; try done.
  intros Hslots. unfold JsObject.keys. by rewrite Hslots.
Qed.

Lemma scanConfig_sameSlots config :
  sameSlots (scanConfig resolve1 post1 config) (scanConfig resolve2 post2 config).
Proof.
  unfold scanConfig.
  pose proof (scanNames_sameSlots id id (orEmpty (dependencies config)) [] [] eq_refl) as Hk.
  destruct (foldRes (scanName resolve1 id) _ _), (foldRes (scanName resolve2 id) _ _);
    simpl in *; try done.
  by apply scanProperties_sameSlots.
Qed.

End SameScan.

Lemma references_sameFate env jsDestDir pyDestDir config :
  sameFate (JavascriptWrapper.processSuperClass env jsDestDir config)
           (PythonWrapper.processSuperClass env pyDestDir config) /\
  sameTable (JavascriptWrapper.processDependencies env jsDestDir config)
            (PythonWrapper.processDependencies env pyDestDir config).
Proof.
  split.
  - unfold JavascriptWrapper.processSuperClass, PythonWrapper.processSuperClass.
    pose proof (requireInfo_sameFate env jsDestDir pyDestDir (superClass config)) as H.
    destruct (JavascriptWrapper.getRequireInfoFromClassDescriptor _ _ _),
      (PythonWrapper.getRequireInfoFromClassDescriptor _ _ _); done.
  - rewrite JavascriptWrapper_processDependencies_scan,
      PythonWrapper_processDependencies_scan.
    apply sameSlots_sameTable, scanConfig_sameSlots.
    intros k. apply requireInfo_sameFate.
Qed.

(** X9: the two generators agree on the references of a class: resolving
    its superclass either succeeds in both or throws the same error in
    both, and so does building its dependency table, whose keys are then
    the same in the same order in JavaScript and in Python. *)
Theorem generators_agree_on_references
  (env : Env) (jsDestDir pyDestDir : string) (config : ClassConfig) :
  sameFate (JavascriptWrapper.processSuperClass env jsDestDir config)
           (PythonWrapper.processSuperClass env pyDestDir config) /\
  sameTable (JavascriptWrapper.processDependencies env jsDestDir config)
            (PythonWrapper.processDependencies env pyDestDir config).
Proof. apply references_sameFate. Qed.

Section ScanFate.
Context {Info : Type}.
Variable resolve : string -> Res Info.
Variable post : Info -> Info.

Lemma scanNames_Throw finish names e : forall result,
  foldRes (scanName resolve finish) names result = Throw e ->
  exists k, In k names /\ resolve k = Throw e.
Proof.
  induction names as [|k names IH]; intros result Hthrow; [done|].
  cbn [foldRes] in Hthrow.
  destruct (scanName resolve finish result k) as [result'|e'] eqn:Hscan; simpl in Hthrow.
  - destruct (IH _ Hthrow) as (k' & Hin & Hk'). exists k'. split; [by right|done].
  - injection Hthrow as ->. unfold scanName in Hscan.
    destruct (resolve k) as [i|e'] eqn:Hk; simpl in Hscan; [done|].
    exists k. split; [by left|congruence].
Qed.

Lemma scanProperty_Throw result prop e :
  scanProperty resolve post result prop = Throw e ->
  exists k, In k (referencedNames prop) /\ resolve k = Throw e.
Proof.
  unfold scanProperty, referencedNames.
  destruct (isThreeReference prop); [|done].
  destruct (typeName prop) as [name|names|]; [| |done].
  - destruct (String.eqb name "this"); [done|].
    intros Hthrow.
    apply (scanNames_Throw post [if String.eqb name "" then "./_base/Three" else name] e result).
    cbn [foldRes]. rewrite Hthrow. done.
  - apply scanNames_Throw.
Qed.

Lemma scanProperties_Throw props e : forall result,
  foldRes (scanProperty resolve post) props result = Throw e ->
  exists prop k, In prop props /\ In k (referencedNames prop) /\ resolve k = Throw e.
Proof.
  induction props as [|prop props IH]; intros result Hthrow; [done|].
  cbn [foldRes] in Hthrow.
  destruct (scanProperty resolve post result prop) as [result'|e'] eqn:Hprop;
    simpl in Hthrow.
  - destruct (IH _ Hthrow) as (prop' & k & Hin & Hk & Hres).
    exists prop', k. split; [by right|done].
  - injection Hthrow as ->.
    destruct (scanProperty_Throw _ _ _ Hprop) as (k & Hk & Hres).
    exists prop, k. split; [by left|done].
Qed.

Lemma scanConfig_Throw config e :
  scanConfig resolve post config = Throw e ->
  exists k, namedBy config k /\ resolve k = Throw e.
Proof.
  unfold scanConfig, namedBy. intros Hthrow.
  destruct (foldRes (scanName resolve id) _ _) as [explicit|e'] eqn:Hexplicit;
    simpl in Hthrow.
  - destruct (scanProperties_Throw _ _ _ Hthrow) as (prop & k & Hin & Hk & Hres).
    exists k. split; [right; by exists prop|done].
  - injection Hthrow as ->.
    destruct (scanNames_Throw _ _ _ _ Hexplicit) as (k & Hk & Hres).
    exists k. split; [by left|done].
Qed.

Lemma scanConfig_Ok_all config deps k :
  scanConfig resolve post config = Ok deps ->
  namedBy config k ->
  exists i e, resolve k = Ok i /\ JsObject.get k deps = Some e /\ (e = i \/ e = post i).
Proof.
  intros Hscan Hnamed.
  apply (scanConfig_has resolve post config deps k Hscan) in Hnamed.
  unfold JsObject.has in Hnamed.
  destruct (JsObject.get k deps) as [e|] eqn:Hget; [|done].
  pose proof (scanConfig_resolved resolve post (fun _ => True) (fun _ => True) config deps)
    as Hresolved.
  destruct (Hresolved (fun _ _ => I) (fun _ _ _ _ => I) (fun _ _ _ _ => I) Hscan k e Hget)
    as (i & Hi & He).
  exists i, e. split; [done|]. split; [done|]. destruct He as [[-> _]|[-> _]]; auto.
Qed.

End ScanFate.

(** X10: building the dependency table of a class throws only what the
    resolution of one of its names throws: a name among its explicit
    dependencies or referred to by one of its own properties.  When the
    table is built, every such name was resolved and is a key of it. *)
Theorem processDependencies_fate
  (env : Env) (destDir : string) (config : ClassConfig) :
  let resolve := fun k =>
    JavascriptWrapper.getRequireInfoFromClassDescriptor env destDir (Some k) in
  (forall e,
     JavascriptWrapper.processDependencies env destDir config = Throw e ->
     exists k, namedBy config k /\ resolve k = Throw e)
  /\
  (forall deps k,
     JavascriptWrapper.processDependencies env destDir config = Ok deps ->
     namedBy config k ->
     exists i, resolve k = Ok i /\ JsObject.get k deps = Some i).
Proof.
  intros resolve. rewrite JavascriptWrapper_processDependencies_scan. split.
  - intros e. apply scanConfig_Throw.
  - intros deps k Hscan Hnamed.
    destruct (scanConfig_Ok_all _ _ config deps k Hscan Hnamed) as (i & e & Hi & Hget & He).
    exists i. split; [done|]. by destruct He as [-> | ->].
Qed.

Lemma meshConfig_names_Material : namedBy meshConfig "Material".
Proof.
  right. exists (threeProp ThreeType (TypeNameString "Material")).
  split; [by left|by left].
Defined.

Lemma meshJsDependencies_built :
  JavascriptWrapper.processDependencies sceneEnv meshJsDestDir meshConfig
  = Ok meshJsDependencies.
Proof. vm_compute. reflexivity. Defined.

Lemma holderConfig_dependencies_throw :
  JavascriptWrapper.processDependencies sparseEnv "/repo/js/src/core" holderConfig
  = Throw (Error "invalid class name: Missing").
Proof. vm_compute. reflexivity. Defined.

Lemma processDependencies_fate_witness :
  (exists k,
     namedBy holderConfig k /\
     JavascriptWrapper.getRequireInfoFromClassDescriptor sparseEnv "/repo/js/src/core" (Some k)
     = Throw (Error "invalid class name: Missing"))
  /\
  (exists i,
     JavascriptWrapper.getRequireInfoFromClassDescriptor sceneEnv meshJsDestDir
       (Some "Material") = Ok i /\
     JsObject.get "Material" meshJsDependencies = Some i).
Proof.
  split.
  - exact (proj1 (processDependencies_fate sparseEnv "/repo/js/src/core" holderConfig)
             (Error "invalid class name: Missing") holderConfig_dependencies_throw).
  - exact (proj2 (processDependencies_fate sceneEnv meshJsDestDir meshConfig)
             meshJsDependencies "Material" meshJsDependencies_built
             meshConfig_names_Material).
Defined.

(** X11: referring to a name fails in two cases only, both for a name that
    is in the class table: its configuration cannot be resolved, and the
    error is that of [getClassConfig]; or its resolved configuration has no
    [relativePath], and [path.resolve] raises a [TypeError].  A name that
    is not in the table is taken for a path and never fails. *)
Theorem requireInfo_failures
  (env : Env) (destDir : string) (name : string) (e : JsError) :
  JavascriptWrapper.getRequireInfoFromClassDescriptor env destDir (Some name) = Throw e
  <->
  inClassConfigs (classConfigs env) name = true /\
  (getClassConfig (stackDepth env) (classConfigs env) name = Throw e
   \/ exists config,
        getClassConfig (stackDepth env) (classConfigs env) name = Ok config /\
        relativePath config = None /\
        e = TypeError "Path must be a string. Received undefined").
Proof.
  unfold JavascriptWrapper.getRequireInfoFromClassDescriptor.
  destruct (inClassConfigs (classConfigs env) name).
  - destruct (getClassConfig (stackDepth env) (classConfigs env) name) as [config|e'];
      simpl.
    + destruct (relativePath config) as [p|] eqn:Hpath; simpl.
      * split; [done|]. intros (_ & [?|(c & [= <-] & ? & _)]); congruence.
      * split.
        -- intros [= <-]. split; [done|]. right. by exists config.
        -- intros (_ & [?|(c & _ & _ & ->)]); done.
    + split.
      * intros [= ->]. auto.
      * intros (_ & [[= ->]|(c & ? & _)]); done.
  - simpl. split; [done|]. by intros [? _].
Qed.

(** ** Constructor arguments *)

Lemma mapRes_Ok_inv {A B} (f : A -> Res B) l : forall bs,
  mapRes f l = Ok bs -> Forall2 (fun a b => f a = Ok b) l bs.
Proof.
  induction l as [|a l IH]; intros bs H; simpl in H.
  - injection H as <-. constructor.
  - destruct (f a) as [b|] eqn:Ha; [|done]. simpl in H.
    destruct (mapRes f l) as [bs'|]; [|done]. simpl in H. injection H as <-.
    constructor; [done|]. by apply IH.
Qed.

Lemma mapRes_Ok_each {A B} (f : A -> Res B) l : forall bs,
  mapRes f l = Ok bs -> forall a, In a l -> exists b, f a = Ok b.
Proof.
  induction l as [|x l IH]; intros bs H a Hin; [done|]. simpl in H.
  destruct (f x) as [b|] eqn:Hx; [|done]. simpl in H.
  destruct (mapRes f l) as [bs'|] eqn:Hl; [|done].
  destruct Hin as [<- | Hin]; [eauto|]. by apply (IH bs').
Qed.

Lemma mapRes_all_Ok {A B} (f : A -> Res B) l :
  Forall (fun a => exists b, f a = Ok b) l ->
  exists bs, mapRes f l = Ok bs /\ length bs = length l.
Proof.
  induction 1 as [|a l [b Hb] _ (bs & Hbs & Hlen)]; simpl.
  - by exists [].
  - rewrite Hb. simpl. rewrite Hbs. simpl. exists (b :: bs). simpl. by rewrite Hlen.
Qed.

Lemma mapRes_first_Throw {A B} (f : A -> Res B) before a after e :
  Forall (fun a => exists b, f a = Ok b) before ->
  f a = Throw e ->
  mapRes f (before ++ a :: after) = Throw e.
Proof.
  intros Hbefore Ha. induction Hbefore as [|b before [y Hy] _ IH]; simpl.
  - by rewrite Ha.
  - rewrite Hy. simpl. by rewrite IH.
Qed.

Lemma getModelToThreeGetter_Ok config propName :
  (exists getter, JavascriptWrapper.getModelToThreeGetter config propName = Ok getter)
  <-> JsObject.has propName (default [] (allProperties config)) = true.
Proof.
  unfold JavascriptWrapper.getModelToThreeGetter, JsObject.has.
  destruct (JsObject.get propName _) as [prop|].
  - split; [done|]. intros _. destruct (Str.truthy _); eauto.
  - split; [|done]. intros [getter H]. by destruct (inheritedKey propName).
Qed.

(** X12: the JavaScript constructor arguments are rendered only when every
    argument other than [parameters] names a property of the class, its own
    or an inherited one; there is then one rendered argument for each name.
    The first argument that names no property makes the wrapper fail with
    [invalid propName]. *)
Theorem constructor_args_name_known_properties (config : ClassConfig) :
  (forall args,
     JavascriptWrapper.processConstructorArgs config = Ok args ->
     exists names,
       constructorArgs config = Some names /\
       length args = length names /\
       forall n, In n names -> n <> "parameters" ->
         JsObject.has n (default [] (allProperties config)) = true)
  /\
  (forall before n after,
     constructorArgs config = Some (before ++ n :: after) ->
     (forall m, In m before ->
        m <> "parameters" /\ JsObject.has m (default [] (allProperties config)) = true) ->
     n <> "parameters" ->
     JsObject.get n (default [] (allProperties config)) = None ->
     inheritedKey n = false ->
     JavascriptWrapper.processConstructorArgs config
     = Throw (Error ("invalid propName: " +:+ n))).
Proof.
  unfold JavascriptWrapper.processConstructorArgs. split.
  - intros args Hargs.
    destruct (constructorArgs config) as [names|]; [|done].
    exists names. split; [done|].
    split; [symmetry; eapply Forall2_length; by apply mapRes_Ok_inv|].
    intros n Hin Hn.
    destruct (mapRes_Ok_each _ _ _ Hargs n Hin) as [getter Hgetter].
    apply String.eqb_neq in Hn. rewrite Hn in Hgetter.
    apply getModelToThreeGetter_Ok. eauto.
  - intros before n after -> Hbefore Hn Hget Hinherited.
    apply mapRes_first_Throw.
    + apply Forall_forall. intros m Hm. apply list_elem_of_In in Hm.
      destruct (Hbefore m Hm) as [Hne Hhas].
      apply String.eqb_neq in Hne. rewrite Hne.
      by apply getModelToThreeGetter_Ok.
    + apply String.eqb_neq in Hn. rewrite Hn.
      unfold JavascriptWrapper.getModelToThreeGetter. by rewrite Hget, Hinherited.
Qed.

Lemma cameraConfig_resolved : getClassConfig 16 cameraConfigs "Camera" = Ok cameraConfig.
Proof. vm_compute. reflexivity. Defined.

Lemma orthographicCameraConfig_resolved :
  getClassConfig 16 cameraConfigs "OrthographicCamera" = Ok orthographicCameraConfig.
Proof. vm_compute. reflexivity. Defined.

Lemma cubeCameraConfig_resolved :
  getClassConfig 16 cameraConfigs "CubeCamera" = Ok cubeCameraConfig.
Proof. vm_compute. reflexivity. Defined.

Lemma constructor_args_name_known_properties_witness :
  (exists names,
     constructorArgs cameraConfig = Some names /\
     length ["this.get('position')"] = length names /\
     forall n, In n names -> n <> "parameters" ->
       JsObject.has n (default [] (allProperties cameraConfig)) = true)
  /\
  JavascriptWrapper.processConstructorArgs orthographicCameraConfig
  = Throw (Error "invalid propName: near").
Proof.
  pose proof (constructor_args_name_known_properties cameraConfig) as [Hok _].
  pose proof (constructor_args_name_known_properties orthographicCameraConfig) as [_ Hfail].
  split.
  - apply Hok. reflexivity.
  - apply (Hfail ["left"; "position"] "near" []).
    + reflexivity.
    + intros m [<- | [<- | []]]; split; (discriminate || reflexivity).
    + discriminate.
    + reflexivity.
    + reflexivity.
Defined.

Lemma processConstructorArgs_js_py
  (config : ClassConfig) (jsArgs : list string) :
  JavascriptWrapper.processConstructorArgs config = Ok jsArgs ->
  exists names pyArgs,
    constructorArgs config = Some names /\
    PythonWrapper.processConstructorArgs config
    = Ok (pyArgs, existsb (String.eqb "parameters") names) /\
    map PyConstructorArg.name pyArgs = names /\
    length pyArgs = length jsArgs.
Proof.
  unfold JavascriptWrapper.processConstructorArgs, PythonWrapper.processConstructorArgs.
  intros Hjs. destruct (constructorArgs config) as [names|]; [|done].
  exists names.
  pose proof (mapRes_Ok_inv _ _ _ Hjs) as Hlen%Forall2_length.
  pose proof (mapRes_Ok_each _ _ _ Hjs) as Heach. clear Hjs.
  set (py := fun propName : string => _ : Res PyConstructorArg.t).
  assert (forall n, In n names -> exists a, py n = Ok a /\ PyConstructorArg.name a = n)
    as Hpy.
  { intros n Hin. destruct (Heach n Hin) as [getter Hgetter]. subst py. simpl.
    destruct (String.eqb n "parameters"); [by eexists|].
    apply (ex_intro (fun g => _ = Ok g) getter), getModelToThreeGetter_Ok in Hgetter.
    unfold JsObject.has in Hgetter.
    destruct (JsObject.get n _); [by eexists|done]. }
  clear Heach.
  assert (exists pyArgs, mapRes py names = Ok pyArgs /\
                         map PyConstructorArg.name pyArgs = names) as (pyArgs & Hmap & Hnames).
  { clear Hlen. induction names as [|n names IH]; [by exists []|].
    destruct (Hpy n) as (a & Ha & Hname); [by left|].
    destruct IH as (pyArgs & Hmap & Hnames); [intros m Hm; apply Hpy; by right|].
    exists (a :: pyArgs). simpl. rewrite Ha. simpl. rewrite Hmap. simpl.
    by rewrite Hname, Hnames. }
  exists pyArgs. split; [done|]. rewrite Hmap. simpl. split; [done|]. split; [done|].
  by rewrite <- Hlen, <- Hnames, length_map.
Qed.


(** X13: a class whose constructor arguments the JavaScript generator
    accepts is accepted by the Python generator too: it renders one argument
    for each name, in the same order, and flags the [parameters] bag exactly
    when it is among the names. *)
Theorem python_accepts_javascript_constructor_args
  (config : ClassConfig) (jsArgs : list string) :
  JavascriptWrapper.processConstructorArgs config = Ok jsArgs ->
  exists names pyArgs,
    constructorArgs config = Some names /\
    PythonWrapper.processConstructorArgs config
    = Ok (pyArgs, existsb (String.eqb "parameters") names) /\
    map PyConstructorArg.name pyArgs = names /\
    length pyArgs = length jsArgs.
Proof. apply processConstructorArgs_js_py. Qed.

Lemma python_accepts_javascript_constructor_args_witness :
  exists names pyArgs,
    constructorArgs cubeCameraConfig = Some names /\
    PythonWrapper.processConstructorArgs cubeCameraConfig
    = Ok (pyArgs, existsb (String.eqb "parameters") names) /\
    map PyConstructorArg.name pyArgs = names /\
    length pyArgs = length cubeCameraJsArgs.
Proof.
  apply (python_accepts_javascript_constructor_args cubeCameraConfig cubeCameraJsArgs).
  vm_compute. reflexivity.
Defined.

Lemma getClassConfig_own_in_allProperties depth cs name config cur k v :
  getClassConfig depth cs name = Ok config ->
  classConfigAt cs (normalizeClassName name) = Some cur ->
  JsObject.get k (default [] (properties cur)) = Some v ->
  JsObject.get k (default [] (allProperties config)) = Some v.
Proof.
  destruct depth as [|depth]; simpl; [discriminate|].
  intros H Hat Hget. rewrite Hat in H.
  apply bind_Ok in H as (sup & _ & (inh & _ & [= <-])%bind_Ok).
  erewrite applyDefaults_allProperties by reflexivity. simpl.
  by rewrite JsObjectFacts.get_assign, Hget.
Qed.

Lemma in_keys_get {V} k (o : JsObject.t V) :
  In k (JsObject.keys o) -> exists v, JsObject.get k o = Some v.
Proof.
  intros Hin. destruct (JsObject.get k o) as [v|] eqn:Hget; [eauto|].
  by apply JsObjectFacts.get_None_not_in_keys in Hget.
Qed.

(** X14: for a resolved class that declares properties of its own, the
    object rendered for the [parameters] constructor argument never fails:
    it has one line for each own property between its two braces. *)
Theorem parameters_object_of_resolved_class
  (depth : nat) (classConfigs : ClassConfigs) (name : string)
  (config cur : ClassConfig) (props : JsObject.t PropType) :
  getClassConfig depth classConfigs name = Ok config ->
  classConfigAt classConfigs (normalizeClassName name) = Some cur ->
  properties cur = Some props ->
  exists lines,
    JavascriptWrapper.getConstructorParametersObject config = Ok lines /\
    length lines = 2 + length props.
Proof.
  intros Hconfig Hat Hprops.
  destruct (getClassConfig_Ok _ _ _ _ Hconfig) as (cur' & Hat' & _ & _ & Hown & _).
  assert (cur' = cur) as -> by congruence.
  assert (properties config = Some props) as Hownprops.
  { rewrite Hown. unfold defaulted. rewrite Hprops.
    by destruct (JsObject.get "_defaults" classConfigs). }
  unfold JavascriptWrapper.getConstructorParametersObject. rewrite Hownprops. simpl.
  match goal with
  | |- context [mapRes ?f ?l] => destruct (mapRes_all_Ok f l) as (lines & -> & Hlen)
  end.
  - apply Forall_forall. intros k Hk. apply list_elem_of_In in Hk.
    destruct (in_keys_get k props Hk) as [v Hv].
    destruct (proj2 (getModelToThreeGetter_Ok config k)) as [getter ->]; [|by eexists].
    unfold JsObject.has.
    erewrite (getClassConfig_own_in_allProperties _ _ _ _ _ k v Hconfig Hat); [done|].
    by rewrite Hprops.
  - simpl. eexists. split; [reflexivity|].
    cbn [length]. rewrite List.length_app. cbn [length].
    rewrite JsObjectFacts.keys_length in Hlen. lia.
Qed.

Lemma parameters_object_of_resolved_class_witness :
  exists lines,
    JavascriptWrapper.getConstructorParametersObject cubeCameraConfig = Ok lines /\
    length lines = 4.
Proof.
  exact (parameters_object_of_resolved_class 16 cameraConfigs "CubeCamera" cubeCameraConfig _
           [("near", plainProp); ("far", plainProp)]
           cubeCameraConfig_resolved eq_refl eq_refl).
Defined.

(** ** The names of the written files *)

Lemma splitOn_app_noSlash (s suffix : string) :
  noSlash suffix = true ->
  exists init l,
    Str.splitOn Path.isSlash s = init ++ [l] /\
    Str.splitOn Path.isSlash (s +:+ suffix) = init ++ [l +:+ suffix].
Proof.
  intros Hsuffix. induction s as [|a s (init & l & Hs & Hss)].
  - exists [], "". rewrite string_app_nil. split; [done|]. by apply splitOn_noSlash.
  - rewrite string_app_cons. cbn [Str.splitOn]. rewrite Hs, Hss.
    destruct (Path.isSlash a).
    + exists ("" :: init), l. done.
    + destruct init as [|w init]; simpl.
      * exists [], (String a l). done.
      * exists (String a w :: init), l. done.
Qed.

Lemma resolveLoop_joined cwd rargs : forall acc,
  exists pre, fst (Path.resolveLoop cwd rargs acc) = pre +:+ "/" +:+ acc.
Proof.
  induction rargs as [|p rargs IH]; intros acc; simpl.
  - by exists cwd.
  - destruct (String.eqb p ""); [apply IH|].
    destruct (Path.isAbsolute p); [by exists p|].
    destruct (IH (p +:+ "/" +:+ acc)) as [pre ->].
    exists (pre +:+ "/" +:+ p). by rewrite !string_app_assoc.
Qed.

Lemma string_app_eq_nil (s t : string) : s +:+ t = "" -> t = "".
Proof. destruct s; [done|]. by rewrite string_app_cons. Qed.

Lemma normalizeSegments_app_empty allow l :
  Path.normalizeSegments allow (l ++ [""]) = Path.normalizeSegments allow l.
Proof. unfold Path.normalizeSegments. by rewrite fold_left_app. Qed.

Lemma suffixed_segment_plain (l suffix : string) :
  3 <= String.length suffix -> plainSegment (l +:+ suffix).
Proof.
  intros Hlen.
  assert (3 <= String.length (l +:+ suffix)) as H by (rewrite string_length_app; lia).
  unfold plainSegment. repeat split; intros Heq; rewrite Heq in H; simpl in H; lia.
Qed.

(** A path resolved from arguments whose last one ends with a file name
    ends with that file name. *)
Lemma resolve_endsWith cwd args X suffix :
  noSlash suffix = true ->
  3 <= String.length suffix ->
  Str.endsWith suffix (Path.resolve cwd (args ++ [X +:+ suffix])) = true.
Proof.
  intros Hsuffix Hlen. unfold Path.resolve.
  rewrite rev_app_distr. cbn [rev app].
  assert (exists pre, fst (Path.resolveLoop cwd ((X +:+ suffix) :: rev args) "")
                      = (pre +:+ X +:+ suffix) +:+ "/" +:+ "") as [pre Hjoined].
  { cbn [Path.resolveLoop].
    destruct (String.eqb (X +:+ suffix) "") eqn:Hempty.
    { apply String.eqb_eq, string_app_eq_nil in Hempty. subst suffix. simpl in Hlen. lia. }
    destruct (Path.isAbsolute (X +:+ suffix)).
    - exists "". by rewrite string_app_nil.
    - destruct (resolveLoop_joined cwd (rev args) ((X +:+ suffix) +:+ "/" +:+ "")) as [pre ->].
      exists (pre +:+ "/"). by rewrite !string_app_assoc. }
  destruct (Path.resolveLoop cwd _ "") as [joined abs]. cbn [fst] in Hjoined. subst joined.
  unfold Path.normalizeString, Path.segments.
  rewrite splitOn_app_sep. cbn [Str.splitOn].
  rewrite <- string_app_assoc.
  destruct (splitOn_app_noSlash (pre +:+ X) suffix Hsuffix) as (init & l & _ & ->).
  rewrite <- app_assoc. cbn [app].
  replace (init ++ [l +:+ suffix; ""]) with ((init ++ [l +:+ suffix]) ++ [""])
    by (by rewrite <- app_assoc).
  rewrite normalizeSegments_app_empty.
  rewrite normalizeSegments_app_plain by (by apply suffixed_segment_plain).
  destruct (join_last_suffix (Path.normalizeSegments (negb abs) init) (l +:+ suffix))
    as [before Hjoin].
  assert (Str.join "/" (Path.normalizeSegments (negb abs) init ++ [l +:+ suffix]) <> "")
    as Hne.
  { apply join_last_nonempty. intros Heq.
    apply string_app_eq_nil in Heq. subst suffix. simpl in Hlen. lia. }
  rewrite Hjoin in *.
  destruct abs.
  - rewrite <- !string_app_assoc. apply endsWith_app.
  - apply String.eqb_neq in Hne. rewrite Hne.
    rewrite <- !string_app_assoc. apply endsWith_app.
Qed.

Lemma gen_bind_outputFiles {A B} (m : Gen A) (f : A -> Gen B) file :
  In file (outputFiles (effects (m ≫= f))) ->
  In file (outputFiles (effects m))
  \/ exists a, outcome m = Ok a /\ In file (outputFiles (effects (f a))).
Proof.
  rewrite gen_bind_effects. destruct (outcome m) as [a|e]; [|auto].
  simpl. rewrite in_app_iff. intros [H|H]; eauto.
Qed.

Lemma liftRes_bind_outputFiles {A B} (r : Res A) (f : A -> Gen B) file :
  In file (outputFiles (effects (liftRes r ≫= f))) ->
  exists a, r = Ok a /\ In file (outputFiles (effects (f a))).
Proof. intros [H | (a & Ha & H)]%gen_bind_outputFiles; [done|]. simpl in Ha. eauto. Qed.

Lemma gen_bind_ensuredFiles {A B} (m : Gen A) (f : A -> Gen B) file :
  In file (ensuredFiles (effects (m ≫= f))) ->
  In file (ensuredFiles (effects m))
  \/ exists a, outcome m = Ok a /\ In file (ensuredFiles (effects (f a))).
Proof.
  rewrite gen_bind_effects. destruct (outcome m) as [a|e]; [|auto].
  simpl. rewrite in_app_iff. intros [H|H]; eauto.
Qed.

Lemma JavascriptWrapper_new_outputFiles createExtra env template now modulePath className file :
  In file (outputFiles (effects
    (JavascriptWrapper.new createExtra env template now modulePath className))) ->
  exists auto,
    In file (outputFiles (effects
      (JavascriptWrapper.nameClass createExtra env modulePath className auto))).
Proof.
  unfold JavascriptWrapper.new.
  intros [H | (named & _ & H)]%gen_bind_outputFiles; [eauto|]. exfalso.
  apply liftRes_bind_outputFiles in H as (config & _ & H).
  apply liftRes_bind_outputFiles in H as (sup & _ & H).
  apply liftRes_bind_outputFiles in H as (deps & _ & H).
  destruct (JavascriptWrapper.processProperties config) as [[p sp] ep].
  apply liftRes_bind_outputFiles in H as (args & _ & H).
  apply gen_bind_outputFiles in H as [H | (ov & _ & H)]; [|done].
  unfold JavascriptWrapper.processOverrideClass in H.
  by destruct (negb _).
Qed.

Lemma PythonWrapper_new_outputFiles createExtra env template now modulePath className file :
  In file (outputFiles (effects
    (PythonWrapper.new createExtra env template now modulePath className))) ->
  In file (outputFiles (effects
    (PythonWrapper.nameClass createExtra env modulePath className))).
Proof.
  unfold PythonWrapper.new.
  intros [H | (named & _ & H)]%gen_bind_outputFiles; [done|]. exfalso.
  apply liftRes_bind_outputFiles in H as (config & _ & H).
  apply liftRes_bind_outputFiles in H as (sup & _ & H).
  apply liftRes_bind_outputFiles in H as (deps & _ & H).
  apply liftRes_bind_outputFiles in H as (args & _ & H).
  done.
Qed.

Lemma JavascriptWrapper_nameClass_path createExtra env modulePath className auto named :
  outcome (JavascriptWrapper.nameClass createExtra env modulePath className auto) = Ok named ->
  named =
    (wrapperClassName modulePath className,
     if Str.truthy className
     then Path.resolve (cwd env)
            ([Path.dirname auto] ++ [default "" className +:+ ".autogen.js"])
     else auto).
Proof.
  unfold JavascriptWrapper.nameClass, wrapperClassName.
  destruct (Str.truthy className).
  - by intros [= <-].
  - intros (extras & _ & (u & _ & (u' & _ & [= <-])%gen_bind_Ok)%gen_bind_Ok)%gen_bind_Ok.
    done.
Qed.

Lemma JavascriptWrapper_new_path createExtra env template now modulePath className w :
  outcome (JavascriptWrapper.new createExtra env template now modulePath className) = Ok w ->
  JsWrapper.className w = wrapperClassName modulePath className /\
  Str.endsWith ".autogen.js" (JsWrapper.jsAutoDestPath w) = true.
Proof.
  unfold JavascriptWrapper.new.
  intros (named & Hnamed & H)%gen_bind_Ok.
  apply gen_bind_Ok in H as (config & _ & H).
  apply gen_bind_Ok in H as (sup & _ & H).
  apply gen_bind_Ok in H as (deps & _ & H).
  destruct (JavascriptWrapper.processProperties config) as [[p sp] ep].
  apply gen_bind_Ok in H as (args & _ & H).
  apply gen_bind_Ok in H as (ov & _ & H).
  injection H as <-. cbn [JsWrapper.jsAutoDestPath JsWrapper.className].
  apply JavascriptWrapper_nameClass_path in Hnamed. subst named. cbn [fst snd].
  split; [done|].
  destruct (Str.truthy className).
  - apply resolve_endsWith; [reflexivity | simpl; lia].
  - match goal with
    | |- context [Path.resolve ?c [?d; ?b +:+ _]] =>
        change (Str.endsWith ".autogen.js"
                  (Path.resolve c ([d] ++ [b +:+ ".autogen.js"])) = true)
    end.
    apply resolve_endsWith; [reflexivity | simpl; lia].
Qed.

Lemma PythonWrapper_new_path createExtra env template now modulePath className w :
  outcome (PythonWrapper.new createExtra env template now modulePath className) = Ok w ->
  Str.endsWith "_autogen.py" (PyWrapper.pyAutoDestPath w) = true.
Proof.
  unfold PythonWrapper.new.
  intros (name & _ & H)%gen_bind_Ok.
  apply gen_bind_Ok in H as (config & _ & H).
  apply gen_bind_Ok in H as (sup & _ & H).
  apply gen_bind_Ok in H as (deps & _ & H).
  apply gen_bind_Ok in H as (args & _ & H).
  injection H as <-. cbn [PyWrapper.pyAutoDestPath].
  match goal with
  | |- context [Path.resolve ?c [?d; ?b +:+ _]] =>
      change (Str.endsWith "_autogen.py"
                (Path.resolve c ([d] ++ [b +:+ "_autogen.py"])) = true)
  end.
  apply resolve_endsWith; [reflexivity | simpl; lia].
Qed.

Lemma createJavascriptWrapperAt_written depth env template now modulePath className file :
  In file (outputFiles (effects
    (createJavascriptWrapperAt (S depth) env template now modulePath className))) ->
  let constructed :=
    JavascriptWrapper.new (createJavascriptWrapperAt depth env template now)
      env template now modulePath className in
  In file (outputFiles (effects constructed))
  \/ exists w, outcome constructed = Ok w /\
               file = (JsWrapper.jsAutoDestPath w, JsWrapper.output w).
Proof.
  intros H constructed. cbn [createJavascriptWrapperAt] in H. fold constructed in H.
  destruct (outcome constructed) as [w|e] eqn:Hout;
    unfold mbind, Gen_bind in H; simpl in H.
  - apply in_app_iff in H as [H | [<- | []]]; [by left|]. right. by exists w.
  - rewrite app_nil_r in H. by left.
Qed.

Lemma createPythonWrapperAt_written depth env template now modulePath className file :
  In file (outputFiles (effects
    (createPythonWrapperAt (S depth) env template now modulePath className))) ->
  let constructed :=
    PythonWrapper.new (createPythonWrapperAt depth env template now)
      env template now modulePath className in
  In file (outputFiles (effects constructed))
  \/ exists w, outcome constructed = Ok w /\
               file = (PyWrapper.pyAutoDestPath w, PyWrapper.output w).
Proof.
  intros H constructed. cbn [createPythonWrapperAt] in H. fold constructed in H.
  destruct (outcome constructed) as [w|e] eqn:Hout;
    unfold mbind, Gen_bind in H; simpl in H.
  - apply in_app_iff in H as [H | [<- | []]]; [by left|]. right. by exists w.
  - rewrite app_nil_r in H. by left.
Qed.

Lemma createJavascriptWrapperAt_files depth env template now :
  forall modulePath className file,
    In file (outputFiles (effects
      (createJavascriptWrapperAt depth env template now modulePath className))) ->
    Str.endsWith ".autogen.js" (fst file) = true.
Proof.
  induction depth as [|depth IH]; intros modulePath className file H; [done|].
  apply createJavascriptWrapperAt_written in H as [H | (w & Hw & ->)].
  - apply JavascriptWrapper_new_outputFiles in H as [auto H].
    apply JavascriptWrapper_nameClass_outputFiles in H as (_ & extras & extra & _ & _ & H).
    by apply IH in H.
  - by apply JavascriptWrapper_new_path in Hw as [_ Hw].
Qed.

Lemma createPythonWrapperAt_files depth env template now :
  forall modulePath className file,
    In file (outputFiles (effects
      (createPythonWrapperAt depth env template now modulePath className))) ->
    Str.endsWith "_autogen.py" (fst file) = true.
Proof.
  induction depth as [|depth IH]; intros modulePath className file H; [done|].
  apply createPythonWrapperAt_written in H as [H | (w & Hw & ->)].
  - apply PythonWrapper_new_outputFiles in H.
    apply PythonWrapper_nameClass_outputFiles in H as (_ & extras & extra & _ & _ & H).
    by apply IH in H.
  - by apply PythonWrapper_new_path in Hw.
Qed.

Lemma forEachGen_files {A} (f : A -> Gen unit) l file :
  In file (outputFiles (effects (forEachGen f l))) ->
  exists a, In a l /\ In file (outputFiles (effects (f a))).
Proof.
  induction l as [|a l IH]; [done|]. cbn [forEachGen].
  intros [H | (u & _ & H)]%gen_bind_outputFiles.
  - exists a. split; [by left|done].
  - destruct (IH H) as (a' & ? & ?). exists a'. split; [by right|done].
Qed.

Lemma forEachGen_ensured {A} (f : A -> Gen unit) l file :
  In file (ensuredFiles (effects (forEachGen f l))) ->
  exists a, In a l /\ In file (ensuredFiles (effects (f a))).
Proof.
  induction l as [|a l IH]; [done|]. cbn [forEachGen].
  intros [H | (u & _ & H)]%gen_bind_ensuredFiles.
  - exists a. split; [by left|done].
  - destruct (IH H) as (a' & ? & ?). exists a'. split; [by right|done].
Qed.

Lemma mapPromiseFnOverFileList_files {A} (mapFn : string -> Gen A) fileList file :
  In file (outputFiles (effects (mapPromiseFnOverFileList fileList mapFn))) ->
  exists filePath, In filePath fileList /\ In file (outputFiles (effects (mapFn filePath))).
Proof.
  induction fileList as [|p l IH]; [done|]. cbn [mapPromiseFnOverFileList].
  intros [H | (r & _ & H)]%gen_bind_outputFiles.
  - exists p. split; [by left|done].
  - apply gen_bind_outputFiles in H as [H | (rs & _ & H)]; [|done].
    destruct (IH H) as (p' & ? & ?). exists p'. split; [by right|done].
Qed.

Lemma mapPromiseFnOverFileList_ensured {A} (mapFn : string -> Gen A) fileList file :
  In file (ensuredFiles (effects (mapPromiseFnOverFileList fileList mapFn))) ->
  exists filePath, In filePath fileList /\ In file (ensuredFiles (effects (mapFn filePath))).
Proof.
  induction fileList as [|p l IH]; [done|]. cbn [mapPromiseFnOverFileList].
  intros [H | (r & _ & H)]%gen_bind_ensuredFiles.
  - exists p. split; [by left|done].
  - apply gen_bind_ensuredFiles in H as [H | (rs & _ & H)]; [|done].
    destruct (IH H) as (p' & ? & ?). exists p'. split; [by right|done].
Qed.

Lemma writeIndexForDir_files env template now readdir dirPath isTopLevel file :
  In file (outputFiles (effects
    (writeIndexForDir env template now readdir dirPath isTopLevel))) ->
  fst file = Path.resolve (cwd env) [jsSrcDir env; dirPath; "index.js"].
Proof.
  unfold writeIndexForDir.
  intros [H | (u & _ & H)]%gen_bind_outputFiles.
  - by apply forEachGen_files in H as (entry & _ & H).
  - simpl in H. by destruct H as [<- | []].
Qed.

Lemma index_path_endsWith env dirPath :
  Str.endsWith "index.js"
    (Path.resolve (cwd env) [jsSrcDir env; dirPath; "index.js"]) = true.
Proof.
  change (Str.endsWith "index.js"
            (Path.resolve (cwd env) ([jsSrcDir env; dirPath] ++ ["" +:+ "index.js"])) = true).
  apply resolve_endsWith; [reflexivity | simpl; lia].
Qed.

Lemma writeJavascriptIndexFiles_files env template now readdir dirs file :
  In file (outputFiles (effects
    (writeJavascriptIndexFiles env template now readdir dirs))) ->
  exists dirPath,
    In dirPath (dirs ++ ["."]) /\
    fst file = Path.resolve (cwd env) [jsSrcDir env; dirPath; "index.js"].
Proof.
  unfold writeJavascriptIndexFiles.
  intros [H | (u & _ & H)]%gen_bind_outputFiles; [done|].
  apply gen_bind_outputFiles in H as [H | (u' & _ & H)].
  - apply forEachGen_files in H as (dirPath & Hin & H).
    apply writeIndexForDir_files in H. exists dirPath. split; [|done].
    apply in_app_iff. by left.
  - apply writeIndexForDir_files in H. exists ".". split; [|done].
    apply in_app_iff. right. by left.
Qed.

Lemma createTopLevelPythonModuleFile_files env template now pyFiles file :
  In file (outputFiles (effects
    (createTopLevelPythonModuleFile env template now pyFiles))) ->
  fst file = Path.resolve (cwd env) [pySrcDir env; "__init__.py"].
Proof.
  unfold createTopLevelPythonModuleFile.
  intros [H | (u & _ & H)]%gen_bind_outputFiles.
  - apply forEachGen_files in H as (filePath & _ & H).
    by destruct (topLevelModule env filePath).
  - simpl in H. by destruct H as [<- | []].
Qed.

Lemma createJavascriptFiles_files env templates now found file :
  In file (outputFiles (effects (createJavascriptFiles env templates now found))) ->
  Str.endsWith ".autogen.js" (fst file) = true \/ Str.endsWith "index.js" (fst file) = true.
Proof.
  unfold createJavascriptFiles, createJavascriptWrapper.
  intros [H | (r & _ & H)]%gen_bind_outputFiles.
  { apply mapPromiseFnOverFileList_files in H as (p & _ & H).
    left. by apply createJavascriptWrapperAt_files in H. }
  apply gen_bind_outputFiles in H as [H | (r' & _ & H)].
  { apply mapPromiseFnOverFileList_files in H as (p & _ & H).
    left. by apply createJavascriptWrapperAt_files in H. }
  apply writeJavascriptIndexFiles_files in H as (dirPath & _ & ->).
  right. apply index_path_endsWith.
Qed.

Lemma python_init_endsWith env args :
  Str.endsWith "__init__.py" (Path.resolve (cwd env) (args ++ ["__init__.py"])) = true.
Proof.
  change (Str.endsWith "__init__.py"
            (Path.resolve (cwd env) (args ++ ["" +:+ "__init__.py"])) = true).
  apply resolve_endsWith; [reflexivity | simpl; lia].
Qed.

Lemma createPythonFiles_files env templates now found file :
  In file (outputFiles (effects (createPythonFiles env templates now found))) ->
  Str.endsWith "_autogen.py" (fst file) = true \/ Str.endsWith "__init__.py" (fst file) = true.
Proof.
  unfold createPythonFiles, createPythonWrapper, createPythonModuleInitFile.
  destruct (negb (existsSync env (pySrcDir env))); [done|].
  assert (forall p,
    In file (outputFiles (effects
      (_ ← createPythonWrapperAt (stackDepth env) env (pyWrapperTemplate templates) now p None;
       ensureFile (Path.resolve (cwd env) [pySrcDir env; Path.dirname p; "__init__.py"])))) ->
    Str.endsWith "_autogen.py" (fst file) = true) as Hwrap.
  { intros p [H | (r & _ & H)]%gen_bind_outputFiles; [|done].
    by apply createPythonWrapperAt_files in H. }
  intros [H | (r & _ & H)]%gen_bind_outputFiles.
  { apply mapPromiseFnOverFileList_files in H as (p & _ & H). left. by apply Hwrap in H. }
  apply gen_bind_outputFiles in H as [H | (r' & _ & H)].
  { apply mapPromiseFnOverFileList_files in H as (p & _ & H). left. by apply Hwrap in H. }
  apply gen_bind_outputFiles in H as [H | (r'' & _ & H)]; [done|].
  apply createTopLevelPythonModuleFile_files in H. rewrite H.
  right. apply (python_init_endsWith env [pySrcDir env]).
Qed.

(** X15: every path a run hands to [fse.outputFile] ends with
    [.autogen.js], [index.js], [_autogen.py] or [__init__.py], whatever the
    class table, the listings and the names of the classes. *)
Theorem run_writes_only_generated_files
  (env : Env) (templates : Templates) (now : Date) (found : Listings)
  (file : string * string) :
  In file (outputFiles (effects (generateFiles env templates now found))) ->
  generatedFileName (fst file).
Proof.
  unfold generateFiles, generatedFileName.
  intros [H | (u & _ & H)]%gen_bind_outputFiles.
  - apply createJavascriptFiles_files in H as [H|H]; auto.
  - apply createPythonFiles_files in H as [H|H]; auto.
Qed.

Lemma run_writes_only_generated_files_witness :
  generatedFileName "/repo/js/src/geometries/RingOutline.autogen.js".
Proof.
  eapply (run_writes_only_generated_files exampleEnv plainTemplates "now" ringListings
            ("/repo/js/src/geometries/RingOutline.autogen.js", _)).
  vm_compute. left. reflexivity.
Defined.

(** ** A run never rejects *)

Lemma forEachGen_Ok {A} (f : A -> Gen unit) l :
  (forall a, outcome (f a) = Ok tt) -> outcome (forEachGen f l) = Ok tt.
Proof.
  intros Hf. induction l as [|a l IH]; [done|]. cbn [forEachGen].
  by rewrite (gen_bind_outcome _ _ tt (Hf a)).
Qed.

Lemma mapPromiseFnOverFileList_Ok {A} (mapFn : string -> Gen A) fileList :
  (forall filePath, exists a, outcome (mapFn filePath) = Ok a) ->
  exists results, outcome (mapPromiseFnOverFileList fileList mapFn) = Ok results.
Proof.
  intros Hfn. induction fileList as [|p l [results IH]]; [by exists []|].
  cbn [mapPromiseFnOverFileList]. destruct (Hfn p) as [a Ha].
  rewrite (gen_bind_outcome _ _ a Ha), (gen_bind_outcome _ _ results IH). by eexists.
Qed.

Lemma writeIndexForDir_outcome env template now readdir dirPath isTopLevel :
  outcome (writeIndexForDir env template now readdir dirPath isTopLevel) = Ok tt.
Proof.
  unfold writeIndexForDir.
  rewrite (gen_bind_outcome _ _ tt); [done|]. by apply forEachGen_Ok.
Qed.

Lemma writeJavascriptIndexFiles_outcome env template now readdir dirs :
  outcome (writeJavascriptIndexFiles env template now readdir dirs) = Ok tt.
Proof.
  unfold writeJavascriptIndexFiles.
  rewrite (gen_bind_outcome _ _ tt) by done.
  rewrite (gen_bind_outcome _ _ tt).
  - apply writeIndexForDir_outcome.
  - apply forEachGen_Ok. intros dirPath. apply writeIndexForDir_outcome.
Qed.

Lemma createTopLevelPythonModuleFile_outcome env template now pyFiles :
  outcome (createTopLevelPythonModuleFile env template now pyFiles) = Ok tt.
Proof.
  unfold createTopLevelPythonModuleFile.
  rewrite (gen_bind_outcome _ _ tt); [done|].
  apply forEachGen_Ok. intros filePath. by destruct (topLevelModule env filePath).
Qed.

Lemma createJavascriptFiles_outcome env templates now found :
  outcome (createJavascriptFiles env templates now found) = Ok tt.
Proof.
  unfold createJavascriptFiles, createJavascriptWrapper.
  destruct (mapPromiseFnOverFileList_Ok
              (fun modulePath =>
                 createJavascriptWrapperAt (stackDepth env) env
                   (jsWrapperTemplate templates) now modulePath None)
              (threeModules found)) as [r1 H1].
  { intros p. eexists. apply createJavascriptWrapperAt_outcome. }
  destruct (mapPromiseFnOverFileList_Ok
              (fun modulePath =>
                 createJavascriptWrapperAt (stackDepth env) env
                   (jsWrapperTemplate templates) now modulePath None)
              CUSTOM_CLASSES) as [r2 H2].
  { intros p. eexists. apply createJavascriptWrapperAt_outcome. }
  rewrite (gen_bind_outcome _ _ r1 H1), (gen_bind_outcome _ _ r2 H2).
  apply writeJavascriptIndexFiles_outcome.
Qed.

Lemma createPythonFiles_outcome env templates now found :
  outcome (createPythonFiles env templates now found) = Ok tt.
Proof.
  unfold createPythonFiles, createPythonWrapper.
  destruct (negb (existsSync env (pySrcDir env))); [done|].
  set (wrap := fun relativePath : string => _ : Gen unit).
  assert (forall p, exists a, outcome (wrap p) = Ok a) as Hwrap.
  { intros p. exists tt. subst wrap. cbv beta.
    by rewrite (gen_bind_outcome _ _ _ (createPythonWrapperAt_outcome _ _ _ _ _ _)). }
  destruct (mapPromiseFnOverFileList_Ok wrap (pyThreeModules found) Hwrap) as [r1 H1].
  destruct (mapPromiseFnOverFileList_Ok wrap CUSTOM_CLASSES Hwrap) as [r2 H2].
  rewrite (gen_bind_outcome _ _ r1 H1), (gen_bind_outcome _ _ r2 H2).
  rewrite (gen_bind_outcome _ _ tt) by done.
  apply createTopLevelPythonModuleFile_outcome.
Qed.

(** X16: no error thrown while a wrapper is built escapes a run: each is
    caught where the wrapper is created, so that [generateFiles] completes
    whatever the class table and the listings (writing a file is taken to
    succeed). *)
Theorem generateFiles_completes
  (env : Env) (templates : Templates) (now : Date) (found : Listings) :
  outcome (generateFiles env templates now found) = Ok tt.
Proof.
  unfold generateFiles.
  rewrite (gen_bind_outcome _ _ tt) by apply createJavascriptFiles_outcome.
  apply createPythonFiles_outcome.
Qed.

(** X29: when the Python source directory does not exist, a run is the
    JavaScript half alone: no Python wrapper is built, no package file is
    ensured or written, and every file written is a generated JavaScript
    module or a JavaScript index. *)
Theorem no_python_directory_no_python_files
  (env : Env) (templates : Templates) (now : Date) (found : Listings) :
  existsSync env (pySrcDir env) = false ->
  generateFiles env templates now found = createJavascriptFiles env templates now found /\
  forall file,
    In file (outputFiles (effects (generateFiles env templates now found))) ->
    Str.endsWith ".autogen.js" (fst file) = true \/ Str.endsWith "index.js" (fst file) = true.
Proof.
  intros Hmissing.
  assert (generateFiles env templates now found
          = createJavascriptFiles env templates now found) as Heq.
  { unfold generateFiles.
    pose proof (createJavascriptFiles_outcome env templates now found) as Hjs.
    destruct (createJavascriptFiles env templates now found) as [eff out] eqn:Hrun.
    cbn [outcome] in Hjs. subst out.
    unfold createPythonFiles. rewrite Hmissing. cbn [negb].
    unfold mbind, Gen_bind, mret, Gen_ret. cbn [outcome effects].
    by rewrite andThen_noEffects_r. }
  split; [done|]. rewrite Heq. intros file. apply createJavascriptFiles_files.
Qed.

Lemma no_python_directory_no_python_files_witness :
  generateFiles exampleEnv plainTemplates "now" sceneListings
  = createJavascriptFiles exampleEnv plainTemplates "now" sceneListings /\
  forall file,
    In file (outputFiles (effects
      (generateFiles exampleEnv plainTemplates "now" sceneListings))) ->
    Str.endsWith ".autogen.js" (fst file) = true \/ Str.endsWith "index.js" (fst file) = true.
Proof.
  apply (no_python_directory_no_python_files exampleEnv plainTemplates "now" sceneListings).
  reflexivity.
Defined.

(** ** A class wrapped in JavaScript is wrapped in Python *)

Lemma JavascriptWrapper_new_steps createExtra env template now modulePath className w :
  outcome (JavascriptWrapper.new createExtra env template now modulePath className) = Ok w ->
  exists config jsSuper jsDeps jsArgs,
    getClassConfig (stackDepth env) (classConfigs env)
      (wrapperClassName modulePath className) = Ok config /\
    JavascriptWrapper.processSuperClass env (jsDestDirOf env modulePath) config
      = Ok jsSuper /\
    JavascriptWrapper.processDependencies env (jsDestDirOf env modulePath) config
      = Ok jsDeps /\
    JavascriptWrapper.processConstructorArgs config = Ok jsArgs.
Proof.
  unfold JavascriptWrapper.new.
  intros (named & Hnamed & H)%gen_bind_Ok.
  apply JavascriptWrapper_nameClass_path in Hnamed. subst named. cbn [fst snd] in H.
  apply gen_bind_Ok in H as (config & Hconfig & H).
  apply gen_bind_Ok in H as (sup & Hsup & H).
  apply gen_bind_Ok in H as (deps & Hdeps & H).
  destruct (JavascriptWrapper.processProperties config) as [[p sp] ep].
  apply gen_bind_Ok in H as (args & Hargs & H).
  exists config, sup, deps, args. done.
Qed.

Lemma PythonWrapper_new_succeeds
  createExtra env template now modulePath className config pySuper pyDeps pyArgs :
  getClassConfig (stackDepth env) (classConfigs env)
    (wrapperClassName modulePath className) = Ok config ->
  PythonWrapper.processSuperClass env (pyDestDirOf env modulePath) config = Ok pySuper ->
  PythonWrapper.processDependencies env (pyDestDirOf env modulePath) config = Ok pyDeps ->
  PythonWrapper.processConstructorArgs config = Ok pyArgs ->
  exists w,
    outcome (PythonWrapper.new createExtra env template now modulePath className) = Ok w /\
    PyWrapper.className w = wrapperClassName modulePath className.
Proof.
  intros Hconfig Hsuper Hdeps Hargs.
  assert (outcome (PythonWrapper.nameClass createExtra env modulePath className)
          = Ok (wrapperClassName modulePath className)) as Hname.
  { destruct (PythonWrapper_nameClass_outcome createExtra env modulePath className)
      as [H | (Hfalsy & Hnone & _)]; [done|].
    apply getClassConfig_Ok in Hconfig as (cur & Hcur & _).
    rewrite wrapperClassName_normalized in Hcur by done. congruence. }
  unfold PythonWrapper.new.
  rewrite (gen_bind_outcome _ _ _ Hname).
  rewrite (gen_bind_outcome _ _ config) by exact Hconfig.
  rewrite (gen_bind_outcome _ _ pySuper) by exact Hsuper.
  rewrite (gen_bind_outcome _ _ pyDeps) by exact Hdeps.
  rewrite (gen_bind_outcome _ _ pyArgs) by exact Hargs.
  eexists. split; reflexivity.
Qed.

Lemma createJavascriptWrapperAt_result depth env template now modulePath className :
  resultOf (createJavascriptWrapperAt (S depth) env template now modulePath className)
  = match outcome (JavascriptWrapper.new (createJavascriptWrapperAt depth env template now)
                     env template now modulePath className) with
    | Ok w => Written (JsWrapper.jsAutoDestPath w)
    | Throw _ => Skipped
    end.
Proof.
  unfold resultOf. cbn [createJavascriptWrapperAt].
  by destruct (outcome (JavascriptWrapper.new _ _ _ _ _ _)).
Qed.

Lemma createPythonWrapperAt_result depth env template now modulePath className :
  resultOf (createPythonWrapperAt (S depth) env template now modulePath className)
  = match outcome (PythonWrapper.new (createPythonWrapperAt depth env template now)
                     env template now modulePath className) with
    | Ok w => Written (PyWrapper.pyAutoDestPath w)
    | Throw _ => Skipped
    end.
Proof.
  unfold resultOf. cbn [createPythonWrapperAt].
  by destruct (outcome (PythonWrapper.new _ _ _ _ _ _)).
Qed.

(** X17: a class that gets a JavaScript wrapper gets a Python wrapper:
    whenever [createJavascriptWrapper] writes the wrapper of a class,
    [createPythonWrapper] called for the same source unit and class writes one
    too, whatever room each has on the stack for the extra classes. *)
Theorem python_wrapper_follows_javascript
  (env : Env) (jsTemplate : JsContext.t -> string) (pyTemplate : PyContext.t -> string)
  (now : Date) (modulePath : string) (className : option string)
  (jsDepth pyDepth : nat) (jsPath : string) :
  resultOf (createJavascriptWrapperAt (S jsDepth) env jsTemplate now modulePath className)
    = Written jsPath ->
  exists pyPath,
    resultOf (createPythonWrapperAt (S pyDepth) env pyTemplate now modulePath className)
      = Written pyPath.
Proof.
  rewrite createJavascriptWrapperAt_result, createPythonWrapperAt_result.
  destruct (outcome (JavascriptWrapper.new _ _ _ _ _ _)) as [w|e] eqn:Hjs; [|done].
  intros _.
  apply JavascriptWrapper_new_steps in Hjs
    as (config & jsSuper & jsDeps & jsArgs & Hconfig & Hsuper & Hdeps & Hargs).
  pose proof (references_sameFate env (jsDestDirOf env modulePath)
                (pyDestDirOf env modulePath) config) as [Hs Hd].
  rewrite Hsuper in Hs. rewrite Hdeps in Hd.
  destruct (PythonWrapper.processSuperClass _ _ _) as [pySuper|] eqn:Hpysuper; [|done].
  destruct (PythonWrapper.processDependencies _ _ _) as [pyDeps|] eqn:Hpydeps; [|done].
  destruct (processConstructorArgs_js_py config jsArgs Hargs)
    as (names & pyArgs & _ & Hpyargs & _).
  destruct (PythonWrapper_new_succeeds (createPythonWrapperAt pyDepth env pyTemplate now)
              env pyTemplate now modulePath className config pySuper pyDeps _
              Hconfig Hpysuper Hpydeps Hpyargs) as (w' & -> & _).
  eauto.
Qed.

Lemma python_wrapper_follows_javascript_witness :
  exists pyPath,
    resultOf (createPythonWrapperAt 16 sceneEnv datedPyTemplate "now" "objects/Mesh.js" None)
      = Written pyPath.
Proof.
  apply (python_wrapper_follows_javascript sceneEnv datedJsTemplate datedPyTemplate "now"
           "objects/Mesh.js" None 15 15 "/repo/js/src/objects/Mesh.autogen.js").
  vm_compute. reflexivity.
Defined.

(** ** What a reference looks like *)

Lemma contains_replaceChar_backslash (s : string) :
  Str.contains "\" (Str.replaceChar "\" "/" s) = false.
Proof.
  induction s as [|a s IH]; [done|].
  cbn [Str.replaceChar Str.contains]. rewrite IH, orb_false_r.
  destruct (Ascii.eqb_spec a "\") as [->|Hne]; [done|].
  cbn [String.prefix]. destruct (ascii_dec "\" a); [congruence|done].
Qed.

Lemma jsRequirePathTo_shape env destDir target :
  (exists r, jsRequirePathTo env destDir target = String "." r) /\
  Str.contains "\" (jsRequirePathTo env destDir target) = false.
Proof.
  unfold jsRequirePathTo.
  pose proof (contains_replaceChar_backslash (Path.relative (cwd env) destDir target)) as H.
  destruct (Str.replaceChar "\" "/" _) as [|a p]; [split; [by eexists|done]|].
  destruct (Ascii.eqb_spec a ".") as [->|Hne]; [split; [by eexists|done]|].
  assert (match a with
          | "."%char => String a p
          | _ => "./" +:+ String a p
          end = "./" +:+ String a p) as ->.
  { destruct a as [[|] [|] [|] [|] [|] [|] [|] [|]]; done. }
  split; [by eexists|]. exact H.
Qed.

(** X18: the path a generated JavaScript module requires another class by
    is always relative and written with forward slashes: it starts with a
    dot and contains no backslash; the model of the class is named after
    it. *)
Theorem require_path_is_relative
  (env : Env) (destDir : string) (name : string) (e : JsRequire.t) :
  JavascriptWrapper.getRequireInfoFromClassDescriptor env destDir (Some name) = Ok e ->
  (exists r, JsRequire.requirePath e = String "." r) /\
  Str.contains "\" (JsRequire.requirePath e) = false /\
  JsRequire.modelName e = JsRequire.className e +:+ "Model".
Proof.
  intros He.
  assert (exists target, JsRequire.requirePath e = jsRequirePathTo env destDir target /\
                         JsRequire.modelName e = JsRequire.className e +:+ "Model")
    as (target & -> & Hmodel).
  { unfold JavascriptWrapper.getRequireInfoFromClassDescriptor in He.
    apply bind_Ok in He as (described & _ & He).
    apply bind_Ok in He as (relPath & _ & [= <-]).
    eexists. split; reflexivity. }
  destruct (jsRequirePathTo_shape env destDir target). done.
Qed.

Lemma require_path_is_relative_witness :
  exists e,
    JsObject.get "Material" meshJsDependencies = Some e /\
    (exists r, JsRequire.requirePath e = String "." r) /\
    Str.contains "\" (JsRequire.requirePath e) = false /\
    JsRequire.modelName e = JsRequire.className e +:+ "Model".
Proof.
  eexists. split; [reflexivity|].
  apply (require_path_is_relative sceneEnv meshJsDestDir "Material").
  vm_compute. reflexivity.
Defined.

(** ** More on the directory index *)

Lemma substring_app_skip (p t : string) n k :
  substring (String.length p + n) k (p +:+ t) = substring n k t.
Proof. induction p as [|a p IH]; [done|]. rewrite string_app_cons. exact IH. Qed.

Lemma endsWith_app_short (suffix p t : string) :
  String.length suffix <= String.length t ->
  Str.endsWith suffix (p +:+ t) = Str.endsWith suffix t.
Proof.
  intros Hlen. unfold Str.endsWith. rewrite string_length_app.
  replace (String.length p + String.length t - String.length suffix)
    with (String.length p + (String.length t - String.length suffix)) by lia.
  rewrite substring_app_skip. f_equal.
  apply eq_true_iff_eq. rewrite !Nat.leb_le. lia.
Qed.

Lemma endsWith_app_false (suffix p t : string) :
  Str.endsWith suffix (p +:+ t) = false -> Str.endsWith suffix t = false.
Proof.
  intros H. destruct (Nat.le_gt_cases (String.length suffix) (String.length t)) as [Hle|Hgt].
  - by rewrite endsWith_app_short in H.
  - unfold Str.endsWith. apply andb_false_iff. left. apply Nat.leb_gt. lia.
Qed.

Lemma listed_path_suffix d f :
  Path.isAbsolute d = false -> entryName f ->
  exists pre, "./" +:+ Path.join d f = pre +:+ f.
Proof.
  intros Habs Hf. destruct (listed_path_segments d f Habs Hf) as [-> _].
  apply (join_last_suffix ("." :: _) f).
Qed.

Lemma shouldExclude_false filePath :
  shouldExclude filePath = false ->
  Str.endsWith ".swp" filePath = false /\
  Str.endsWith ".DS_Store" filePath = false /\
  Str.endsWith "index.js" filePath = false /\
  filePath <> "./embed.js" /\ filePath <> "./extension.js".
Proof.
  unfold shouldExclude, excludes. cbn [existsb].
  rewrite !orb_false_iff, !String.eqb_neq. intros (? & ? & ? & ? & ? & _).
  repeat split; congruence.
Qed.

(** X20: the index of a directory lists entries of the directory only, each
    as [./name], and never an entry whose name ends with [.swp],
    [.DS_Store] or [index.js]; in a directory whose path contains [_base]
    it lists no generated file. *)
Theorem index_lists_only_kept_entries
  (dirPath : string) (dirFiles : list string) (entry : string) :
  Path.isAbsolute dirPath = false ->
  Forall entryName dirFiles ->
  In entry (indexedFiles dirPath dirFiles) ->
  exists name,
    entry = "./" +:+ name /\
    In name dirFiles /\
    Str.endsWith ".swp" name = false /\
    Str.endsWith ".DS_Store" name = false /\
    Str.endsWith "index.js" name = false /\
    (Str.contains "_base" dirPath = true -> Str.endsWith ".autogen.js" name = false).
Proof.
  intros Habs Hentries Hin. unfold indexedFiles in Hin.
  apply in_map_iff in Hin as (filePath & <- & (Hmapped & Hkept)%filter_In).
  apply in_map_iff in Hmapped as (name & <- & Hname).
  rewrite List.Forall_forall in Hentries. pose proof (Hentries name Hname) as Hentry.
  rewrite listed_path_basename by done.
  exists name. split; [done|]. split; [done|].
  destruct (listed_path_suffix dirPath name Habs Hentry) as [pre Hpre].
  rewrite Hpre in Hkept. unfold keptInIndex in Hkept.
  destruct (Str.contains "_base" dirPath && RE_AUTOGEN_EXT (pre +:+ name)) eqn:Hbase;
    [done|].
  destruct (shouldExclude (pre +:+ name)) eqn:Hexclude; [done|].
  apply shouldExclude_false in Hexclude as (Hswp & Hds & Hindex & _).
  repeat split; try by eapply endsWith_app_false.
  intros Hb. rewrite Hb in Hbase. cbn [andb] in Hbase.
  by eapply endsWith_app_false.
Qed.

Lemma baseListing_entries :
  Forall entryName ["Three.js"; "Three.autogen.js"; "Renderable.autogen.js"; "utils.js"].
Proof. repeat constructor; discriminate. Defined.

Lemma index_lists_only_kept_entries_witness :
  exists name,
    "./Three.js" = "./" +:+ name /\
    In name ["Three.js"; "Three.autogen.js"; "Renderable.autogen.js"; "utils.js"] /\
    Str.endsWith ".swp" name = false /\
    Str.endsWith ".DS_Store" name = false /\
    Str.endsWith "index.js" name = false /\
    (Str.contains "_base" "_base/" = true -> Str.endsWith ".autogen.js" name = false).
Proof.
  apply (index_lists_only_kept_entries "_base/"
           ["Three.js"; "Three.autogen.js"; "Renderable.autogen.js"; "utils.js"]).
  - reflexivity.
  - exact baseListing_entries.
  - vm_compute. by left.
Defined.

Lemma generated_not_excluded pre X :
  shouldExclude (pre +:+ X +:+ ".autogen.js") = false.
Proof.
  unfold shouldExclude, excludes. cbn [existsb].
  rewrite <- string_app_assoc.
  rewrite !endsWith_app_short by (simpl; lia).
  assert (forall s, Str.endsWith ".autogen.js" s = false ->
                    String.eqb s ((pre +:+ X) +:+ ".autogen.js") = false) as Hne.
  { intros s Hs. apply String.eqb_neq. intros ->. by rewrite endsWith_app in Hs. }
  rewrite !Hne by reflexivity. reflexivity.
Qed.

(** X21: outside the base directory a generated file without an override
    next to it is always listed in the index of its directory: no exclusion
    pattern can match a name that ends with [.autogen.js]. *)
Theorem index_lists_generated_without_override
  (dirPath : string) (dirFiles : list string) (X : string) :
  Path.isAbsolute dirPath = false ->
  Forall entryName dirFiles ->
  noSlash X = true ->
  X <> "" ->
  Str.contains "_base" dirPath = false ->
  In (X +:+ ".autogen.js") dirFiles ->
  ~ In (X +:+ ".js") dirFiles ->
  In ("./" +:+ X +:+ ".autogen.js") (indexedFiles dirPath dirFiles).
Proof.
  intros Habs Hentries HX Hne Hbase Hgen Hnone.
  apply indexedFiles_In; [done|done|]. split; [done|].
  unfold keptInIndex. rewrite Hbase. cbn [andb].
  rewrite List.Forall_forall in Hentries.
  destruct (listed_path_suffix dirPath (X +:+ ".autogen.js") Habs (Hentries _ Hgen))
    as [pre Hpre].
  rewrite RE_AUTOGEN_EXT_listed by done.
  replace (shouldExclude _) with false
    by (rewrite Hpre; symmetry; apply generated_not_excluded).
  apply negb_true_iff. unfold overrideListed.
  rewrite overridePathOf_listed by done.
  apply not_true_iff_false. intros (listed & Hin & Heq)%existsb_exists.
  apply in_map_iff in Hin as (name & <- & Hname).
  apply String.eqb_eq in Heq.
  assert (entryName (X +:+ ".js")) as Hoverride.
  { apply entryName_with_extension; [done|reflexivity|simpl; lia]. }
  apply (f_equal Path.basename) in Heq.
  rewrite !listed_path_basename in Heq by auto. by subst name.
Qed.

Lemma index_lists_generated_without_override_witness :
  In "./Geometry.autogen.js"
    (indexedFiles "core/"
       ["Object3D.autogen.js"; "Object3D.js"; "Geometry.autogen.js"; "index.js"]).
Proof.
  apply (index_lists_generated_without_override "core/"
           ["Object3D.autogen.js"; "Object3D.js"; "Geometry.autogen.js"; "index.js"]
           "Geometry").
  - reflexivity.
  - exact coreListing_entries.
  - reflexivity.
  - discriminate.
  - reflexivity.
  - simpl. auto.
  - simpl. intros [H | [H | [H | [H | []]]]]; discriminate.
Defined.

(** ** Relative paths given by their segments *)

Lemma string_app_inv_nil (s t : string) : s +:+ t = t -> s = "".
Proof.
  intros H. apply (f_equal String.length) in H. rewrite string_length_app in H.
  destruct s; [done|]. simpl in H. lia.
Qed.

Lemma relpath_segments (dirs : list string) (f : string) :
  Forall (fun x => noSlash x = true) dirs -> noSlash f = true ->
  Path.segments (Str.join "/" (dirs ++ [f])) = dirs ++ [f].
Proof.
  intros Hdirs Hf. apply segments_join; [by destruct dirs|].
  apply Forall_app. split; [done|]. by constructor.
Qed.

Lemma relpath_basenameExt (dirs : list string) (X ext : string) :
  Forall (fun x => noSlash x = true) dirs ->
  noSlash X = true -> X <> "" -> noSlash ext = true -> ext <> "" ->
  Path.basenameExt (Str.join "/" (dirs ++ [X +:+ ext])) ext = X.
Proof.
  intros Hdirs HX Hne Hext Hextne.
  assert (X +:+ ext <> "") as Hf.
  { intros Heq. apply string_app_eq_nil in Heq. done. }
  unfold Path.basenameExt.
  rewrite relpath_segments by (by rewrite ?noSlash_app, ?HX, ?Hext).
  destruct (join_last_suffix dirs (X +:+ ext)) as [pre Hpre]. rewrite Hpre.
  apply String.eqb_neq in Hextne as Hextne'. rewrite Hextne'. cbn [orb].
  assert (Nat.leb (String.length ext) (String.length (pre +:+ X +:+ ext)) = true) as ->.
  { rewrite !string_length_app. apply Nat.leb_le. lia. }
  cbn [negb].
  assert (String.eqb ext (pre +:+ X +:+ ext) = false) as ->.
  { apply String.eqb_neq. intros Heq. symmetry in Heq.
    rewrite <- string_app_assoc in Heq. apply string_app_inv_nil in Heq.
    destruct pre; [by rewrite string_app_nil in Heq|by rewrite string_app_cons in Heq]. }
  rewrite lastNonEmpty_last by done. rewrite nth_middle, endsWith_app.
  assert (String.eqb ext (X +:+ ext) = false) as ->.
  { apply String.eqb_neq. intros Heq. symmetry in Heq. by apply string_app_inv_nil in Heq. }
  unfold Path.dropEnd. rewrite string_length_app.
  replace (String.length X + String.length ext - String.length ext)
    with (String.length X) by lia.
  apply substring_app_l.
Qed.

Lemma endsWith_longer (suffix s : string) :
  String.length s < String.length suffix -> Str.endsWith suffix s = false.
Proof. intros H. unfold Str.endsWith. apply andb_false_iff. left. apply Nat.leb_gt. lia. Qed.

Lemma endsWith_same_length (suffix s : string) :
  String.length s = String.length suffix ->
  Str.endsWith suffix s = String.eqb s suffix.
Proof.
  intros H. unfold Str.endsWith. rewrite H, Nat.leb_refl, Nat.sub_diag. cbn [andb].
  by rewrite <- H, substring_all.
Qed.

Lemma relpath_basenameExt_other (dirs : list string) (f ext : string) :
  Forall (fun x => noSlash x = true) dirs ->
  noSlash f = true -> f <> "" -> noSlash ext = true -> Str.endsWith ext f = false ->
  Path.basenameExt (Str.join "/" (dirs ++ [f])) ext = f.
Proof.
  intros Hdirs Hf Hne Hext Hends.
  assert (Path.basename (Str.join "/" (dirs ++ [f])) = f) as Hbase.
  { unfold Path.basename. rewrite relpath_segments by done.
    rewrite lastNonEmpty_last by done. apply nth_middle. }
  unfold Path.basenameExt.
  destruct (String.eqb ext "" || _) eqn:Hshort; [done|].
  apply orb_false_iff in Hshort as [Hextne Hlen].
  destruct (String.eqb_spec ext (Str.join "/" (dirs ++ [f]))) as [Heq|_].
  { exfalso. subst ext. destruct dirs as [|a dirs].
    - cbn [app Str.join] in Hends.
      pose proof (endsWith_app "" f) as Hself. rewrite string_app_nil in Hself. congruence.
    - rewrite join_app_last, !noSlash_app in Hext by done.
      cbn in Hext. by rewrite andb_false_r in Hext. }
  rewrite relpath_segments by done.
  rewrite lastNonEmpty_last by done. rewrite nth_middle, Hends.
  destruct (Str.endsWith f ext) eqn:Hquirk; [|done].
  rewrite drop_app_length. cbn [map Str.join]. apply string_app_nil_r.
Qed.

Lemma join_nonempty_head sep a (l : list string) : a <> "" -> Str.join sep (a :: l) <> "".
Proof.
  intros Ha. destruct l as [|b l]; [done|]. rewrite join_cons by done.
  destruct a; [done|]. by rewrite string_app_cons.
Qed.

Lemma isAbsolute_join a (l : list string) :
  noSlash a = true -> a <> "" -> Path.isAbsolute (Str.join "/" (a :: l)) = false.
Proof.
  intros Ha Hne. destruct a as [|c a]; [done|].
  simpl in Ha. apply andb_true_iff in Ha as [Hc _]. apply negb_true_iff in Hc.
  destruct l as [|b l]; [done|].
  rewrite join_cons by done. by rewrite string_app_cons.
Qed.

Lemma relpath_dirname (dirs : list string) (f : string) :
  Forall (fun x => noSlash x = true /\ x <> "") dirs ->
  noSlash f = true -> f <> "" ->
  Path.dirname (Str.join "/" (dirs ++ [f]))
  = match dirs with [] => "." | _ => Str.join "/" dirs end.
Proof.
  intros Hdirs Hf Hne.
  assert (Forall (fun x => noSlash x = true) dirs) as Hdirs'.
  { eapply Forall_impl; [exact Hdirs|]. by intros x [? _]. }
  unfold Path.dirname.
  pose proof (join_last_nonempty dirs f Hne) as Hp.
  apply String.eqb_neq in Hp. rewrite Hp.
  rewrite relpath_segments by done. rewrite lastNonEmpty_last by done.
  destruct dirs as [|a dirs]; [done|]. cbn [length].
  replace (take (S (length dirs)) ((a :: dirs) ++ [f])) with (a :: dirs)
    by (symmetry; apply (take_app_length (a :: dirs) [f])).
  apply Forall_cons in Hdirs as [[Ha Hane] _].
  pose proof (join_nonempty_head "/" a dirs Hane) as Hpre.
  apply String.eqb_neq in Hpre. rewrite Hpre.
  change ((a :: dirs) ++ [f]) with (a :: (dirs ++ [f])).
  by rewrite isAbsolute_join.
Qed.

(** ** Templates *)

(** X23: [compileTemplate] takes the name of a template with or without
    its [.mustache] extension: both read the same file of the template
    directory and give the same template. *)
Theorem compileTemplate_extension_optional
  {Context : Type} (env : Env) (readFileSync : string -> string)
  (compile : string -> Context -> string) (name : string) :
  noSlash name = true ->
  name <> "" ->
  Str.endsWith ".mustache" name = false ->
  templatePath env name
  = Path.resolve (cwd env) [templateDir env; name +:+ ".mustache"] /\
  templatePath env (name +:+ ".mustache") = templatePath env name /\
  compileTemplate env readFileSync compile (name +:+ ".mustache")
  = compileTemplate env readFileSync compile name.
Proof.
  intros Hname Hne Hends.
  assert (templatePath env name
          = Path.resolve (cwd env) [templateDir env; name +:+ ".mustache"]) as H1.
  { unfold templatePath.
    pose proof (relpath_basenameExt_other [] name ".mustache") as Hbase.
    cbn [app Str.join] in Hbase. by rewrite Hbase. }
  assert (templatePath env (name +:+ ".mustache") = templatePath env name) as H2.
  { rewrite H1. unfold templatePath.
    pose proof (relpath_basenameExt [] name ".mustache") as Hbase.
    cbn [app Str.join] in Hbase. by rewrite Hbase. }
  split; [done|]. split; [done|]. unfold compileTemplate. by rewrite H2.
Qed.

Lemma compileTemplate_extension_optional_witness :
  templatePath exampleEnv "js_wrapper" = "/repo/js/scripts/templates/js_wrapper.mustache" /\
  templatePath exampleEnv "js_wrapper.mustache" = templatePath exampleEnv "js_wrapper" /\
  compileTemplate exampleEnv (fun path => path) (fun text (_ : unit) => text)
    "js_wrapper.mustache"
  = compileTemplate exampleEnv (fun path => path) (fun text (_ : unit) => text) "js_wrapper".
Proof.
  apply (compileTemplate_extension_optional exampleEnv (fun path => path)
           (fun text (_ : unit) => text) "js_wrapper"); [reflexivity|discriminate|reflexivity].
Defined.

(** ** The top-level Python package file *)

Lemma noPathSep_noSlash (s : string) : noPathSep s = true -> noSlash s = true.
Proof.
  induction s as [|a s IH]; [done|]. simpl. intros [Ha Hs]%andb_true_iff.
  rewrite IH by done. rewrite andb_true_r.
  unfold isPathSep in Ha. unfold Path.isSlash.
  apply negb_true_iff, orb_false_iff in Ha as [_ ->]. done.
Qed.

Lemma contains_char_cons c a (s : string) :
  Str.contains (String c "") (String a s)
  = Ascii.eqb c a || Str.contains (String c "") s.
Proof.
  cbn [Str.contains String.prefix].
  destruct (ascii_dec c a) as [->|Hne].
  - rewrite Ascii.eqb_refl. by destruct s.
  - apply Ascii.eqb_neq in Hne. by rewrite Hne.
Qed.

Lemma contains_char_app c (s t : string) :
  Str.contains (String c "") (s +:+ t)
  = Str.contains (String c "") s || Str.contains (String c "") t.
Proof.
  induction s as [|a s IH]; [by rewrite string_app_nil|].
  rewrite string_app_cons, !contains_char_cons, IH. by rewrite orb_assoc.
Qed.

Lemma replaceChar_absent c d (s : string) :
  Str.contains (String c "") s = false -> Str.replaceChar c d s = s.
Proof.
  induction s as [|a s IH]; [done|].
  rewrite contains_char_cons. intros [Ha Hs]%orb_false_iff.
  cbn [Str.replaceChar]. rewrite IH by done.
  rewrite Ascii.eqb_sym in Ha. by rewrite Ha.
Qed.

Lemma contains_app_r pat (s t : string) :
  Str.contains pat t = true -> Str.contains pat (s +:+ t) = true.
Proof.
  intros Ht. induction s as [|a s IH]; [by rewrite string_app_nil|].
  rewrite string_app_cons. cbn [Str.contains]. by rewrite IH, orb_true_r.
Qed.

Lemma prefix_app (p r : string) : String.prefix p (p +:+ r) = true.
Proof.
  induction p as [|a p IH]; [by destruct r|].
  rewrite string_app_cons. cbn [String.prefix]. by destruct (ascii_dec a a).
Qed.

Lemma replaceFirst_eq pattern replacement str :
  Str.replaceFirst pattern replacement str
  = if String.prefix pattern str then
      replacement +:+
        substring (String.length pattern)
          (String.length str - String.length pattern) str
    else
      match str with
      | EmptyString => EmptyString
      | String a rest => String a (Str.replaceFirst pattern replacement rest)
      end.
Proof. by destruct str. Qed.

Lemma replaceFirst_first c pat replacement (x rest : string) :
  Str.contains (String c "") x = false ->
  Str.replaceFirst (String c pat) replacement (x +:+ String c pat +:+ rest)
  = x +:+ replacement +:+ rest.
Proof.
  induction x as [|a x IH].
  - intros _. rewrite !string_app_nil, replaceFirst_eq, prefix_app.
    rewrite string_length_app.
    replace (String.length (String c pat) + String.length rest - String.length (String c pat))
      with (String.length rest) by lia.
    by rewrite substring_app_r.
  - rewrite contains_char_cons. intros [Ha Hx]%orb_false_iff.
    rewrite (string_app_cons a x), replaceFirst_eq.
    cbn [String.prefix]. apply Ascii.eqb_neq in Ha.
    destruct (ascii_dec c a); [done|]. by rewrite IH, string_app_cons.
Qed.

Lemma replaceFirst_suffix c pat (x : string) :
  Str.contains (String c "") x = false ->
  Str.replaceFirst (String c pat) "" (x +:+ String c pat) = x.
Proof.
  intros Hx. pose proof (replaceFirst_first c pat "" x "" Hx) as Hfirst.
  by rewrite !string_app_nil_r in Hfirst.
Qed.

Lemma join_app_last_sep sep (l : list string) (f : string) :
  l <> [] -> Str.join sep (l ++ [f]) = Str.join sep l +:+ sep +:+ f.
Proof.
  induction l as [|a l IH]; [done|]. intros _.
  destruct l as [|b l]; [done|].
  change ((a :: b :: l) ++ [f]) with (a :: ((b :: l) ++ [f])).
  rewrite !join_cons by done. rewrite IH by done.
  by rewrite !string_app_assoc.
Qed.

Lemma dirNames_noSlash dirs :
  Forall dirName dirs -> Forall (fun x => noSlash x = true /\ x <> "") dirs.
Proof.
  intros H. eapply Forall_impl; [exact H|].
  intros d (Hsep & Hne & _). split; [by apply noPathSep_noSlash|done].
Qed.

Lemma dirNames_not_dot a dirs : Forall dirName (a :: dirs) -> Str.join "/" (a :: dirs) <> ".".
Proof.
  intros [(_ & Hne & Hdot & _) _]%Forall_cons.
  destruct dirs as [|b dirs]; [done|].
  rewrite join_cons by done. intros Heq.
  apply (f_equal String.length) in Heq. rewrite !string_length_app in Heq.
  destruct a; [done|]. simpl in Heq. lia.
Qed.

Lemma topLevelModule_parts env dirs file :
  Forall dirName dirs -> noSlash file = true -> file <> "" ->
  topLevelModule env (Str.join "/" (dirs ++ [file]))
  = let moduleName :=
      Str.replaceChar "." "_"
        (Path.basenameExt (Str.join "/" (dirs ++ [file])) ".py") in
    if Str.contains "autogen" moduleName &&
       existsSync env
         (Path.resolve (cwd env)
            [pySrcDir env;
             match dirs with [] => "." | _ => Str.join "/" dirs end;
             Str.replaceFirst "_autogen" "" moduleName +:+ ".py"])
    then None
    else Some ("." +:+ Str.join "." (dirs ++ [moduleName])).
Proof.
  intros Hdirs Hfile Hne. unfold topLevelModule.
  rewrite relpath_dirname by (by try apply dirNames_noSlash).
  cbv zeta. destruct (_ && _); [done|].
  destruct dirs as [|a dirs]; [done|].
  pose proof (dirNames_not_dot a dirs Hdirs) as Hdot.
  apply String.eqb_neq in Hdot. rewrite Hdot. cbn [negb].
  rewrite splitOn_pathSep_join; [|done|].
  - rewrite (join_app_last_sep "." (a :: dirs)) by done. reflexivity.
  - eapply Forall_impl; [exact Hdirs|]. by intros d (? & _).
Qed.

(** X24: the top-level package file imports a Python module by the dotted
    form of its path: a dot, the directories and the module name joined by
    dots, the dots of the file name itself turned into underscores. *)
Theorem top_level_import_path
  (env : Env) (dirs : list string) (X importPath : string) :
  Forall dirName dirs ->
  noSlash X = true ->
  X <> "" ->
  topLevelModule env (Str.join "/" (dirs ++ [X +:+ ".py"])) = Some importPath ->
  importPath = "." +:+ Str.join "." (dirs ++ [Str.replaceChar "." "_" X]).
Proof.
  intros Hdirs HX Hne.
  rewrite topLevelModule_parts; [|done| |].
  - rewrite relpath_basenameExt; [|by eapply Forall_impl;
      [apply dirNames_noSlash, Hdirs|intros ? [? _]]|done..].
    cbv zeta. destruct (_ && _); [done|]. by intros [= <-].
  - by rewrite noSlash_app, HX.
  - intros Heq. by apply string_app_eq_nil in Heq.
Qed.

Lemma top_level_import_path_witness :
  topLevelModule sceneEnv "materials/Material.py" = Some ".materials.Material" /\
  ".materials.Material"
  = "." +:+ Str.join "." (["materials"] ++ [Str.replaceChar "." "_" "Material"]).
Proof.
  split; [reflexivity|].
  apply (top_level_import_path sceneEnv ["materials"] "Material").
  - repeat constructor; discriminate.
  - reflexivity.
  - discriminate.
  - reflexivity.
Defined.

(** X25: a generated Python module whose hand-written override exists in
    the same directory is never imported by the top-level package file:
    for a class name without dot and underscore, [X_autogen.py] is skipped
    as soon as [X.py] exists next to it. *)
Theorem top_level_skips_overridden (env : Env) (dirs : list string) (X : string) :
  Forall dirName dirs ->
  noSlash X = true ->
  X <> "" ->
  Str.contains "." X = false ->
  Str.contains "_" X = false ->
  existsSync env
    (Path.resolve (cwd env)
       [pySrcDir env; match dirs with [] => "." | _ => Str.join "/" dirs end;
        X +:+ ".py"]) = true ->
  topLevelModule env (Str.join "/" (dirs ++ [X +:+ "_autogen.py"])) = None.
Proof.
  intros Hdirs HX Hne Hdot Hunder Hexists.
  assert (Forall (fun x => noSlash x = true) dirs) as Hslash.
  { eapply Forall_impl; [apply dirNames_noSlash, Hdirs|]. by intros ? [? _]. }
  rewrite topLevelModule_parts; [|done| |].
  - replace (X +:+ "_autogen.py") with ((X +:+ "_autogen") +:+ ".py")
      by (by rewrite string_app_assoc).
    rewrite relpath_basenameExt; [|done| | |done|done].
    + cbv zeta.
      rewrite replaceChar_absent by (by rewrite contains_char_app, Hdot).
      rewrite contains_app_r by reflexivity.
      rewrite (replaceFirst_suffix "_" "autogen" X Hunder), Hexists. done.
    + by rewrite noSlash_app, HX.
    + intros Heq. by apply string_app_eq_nil in Heq.
  - by rewrite noSlash_app, HX.
  - intros Heq. by apply string_app_eq_nil in Heq.
Qed.

Lemma top_level_skips_overridden_witness :
  topLevelModule sceneEnv "materials/Material_autogen.py" = None.
Proof.
  apply (top_level_skips_overridden sceneEnv ["materials"] "Material");
    try reflexivity; try discriminate.
  repeat constructor; discriminate.
Defined.

(** ** The documentation address *)

Lemma prefix_trans (p q s : string) :
  String.prefix p q = true -> String.prefix q s = true -> String.prefix p s = true.
Proof.
  revert q s. induction p as [|a p IH]; intros q s; [by destruct s|].
  destruct q as [|b q]; [done|]. destruct s as [|c s]; [done|]. cbn [String.prefix].
  destruct (ascii_dec a b) as [->|]; [|done].
  destruct (ascii_dec b c); [apply IH|done].
Qed.

Lemma replaceFirst_absent (p pattern replacement s : string) :
  String.prefix p pattern = true ->
  Str.contains p s = false ->
  Str.replaceFirst pattern replacement s = s.
Proof.
  intros Hp. induction s as [|a s IH]; intros Hs; rewrite replaceFirst_eq.
  - destruct (String.prefix pattern "") eqn:Hpre; [|done].
    apply (prefix_trans p) in Hpre; [|done]. cbn [Str.contains] in Hs. by rewrite Hpre in Hs.
  - cbn [Str.contains] in Hs. apply orb_false_iff in Hs as [Hhere Hs].
    destruct (String.prefix pattern (String a s)) eqn:Hpre.
    + apply (prefix_trans p) in Hpre; [|done]. congruence.
    + by rewrite IH.
Qed.

Lemma join_last_app sep (l : list string) (a b : string) :
  Str.join sep (l ++ [a +:+ b]) = Str.join sep (l ++ [a]) +:+ b.
Proof.
  destruct l as [|x l]; [done|].
  rewrite !join_app_last_sep by done. by rewrite !string_app_assoc.
Qed.

Lemma prefix_app_mono (p s t : string) :
  String.prefix p s = true -> String.prefix p (s +:+ t) = true.
Proof.
  revert s. induction p as [|a p IH]; intros s; [by destruct (s +:+ t)|].
  destruct s as [|b s]; [done|]. rewrite string_app_cons. cbn [String.prefix].
  destruct (ascii_dec a b); [apply IH|done].
Qed.

Lemma contains_app_l pat (s t : string) :
  Str.contains pat s = true -> Str.contains pat (s +:+ t) = true.
Proof.
  induction s as [|a s IH]; cbn [Str.contains].
  - rewrite orb_false_r. intros H. rewrite string_app_nil.
    replace pat with "" by (by destruct pat). by destruct t.
  - intros [H|H]%orb_true_iff; rewrite string_app_cons; cbn [Str.contains].
    + pose proof (prefix_app_mono pat (String a s) t H) as Hp.
      rewrite string_app_cons in Hp. by rewrite Hp.
    + by rewrite IH, orb_true_r.
Qed.

Lemma contains_skip c pat (pre s : string) :
  Str.contains (String c "") pre = false ->
  Str.contains (String c pat) (pre +:+ s) = Str.contains (String c pat) s.
Proof.
  induction pre as [|a pre IH]; [done|].
  rewrite contains_char_cons. intros [Ha Hpre]%orb_false_iff.
  rewrite string_app_cons. cbn [Str.contains String.prefix].
  apply Ascii.eqb_neq in Ha. destruct (ascii_dec c a); [done|]. by rewrite IH.
Qed.

(** X26: for a module whose path has no directory written [Renderers/] or
    [Extras/] with a capital, as every path of the three.js source tree,
    the documentation address is [http://threejs.org/docs/#api/] followed
    by the path of the module without its [.js] extension: none of the
    replacements of capitalised directory names applies. *)
Theorem docs_url_of_lower_case_path (dirs : list string) (X : string) :
  Forall (fun d => noPathSep d = true) dirs ->
  noPathSep X = true ->
  X <> "" ->
  Str.contains "Renderers/" (Str.join "/" (dirs ++ [X +:+ ".js"])) = false ->
  Str.contains "Extras/" (Str.join "/" (dirs ++ [X +:+ ".js"])) = false ->
  PythonWrapper.processDocsUrl (Str.join "/" (dirs ++ [X +:+ ".js"]))
  = "http://threejs.org/docs/#api/" +:+ Str.join "/" (dirs ++ [X]).
Proof.
  intros Hdirs HX Hne HR HE. unfold PythonWrapper.processDocsUrl.
  rewrite splitOn_pathSep_join.
  2: by destruct dirs.
  2: { apply Forall_app. split; [done|]. constructor; [|done].
       by rewrite noPathSep_app, HX. }
  rewrite length_app. cbn [length].
  replace (length dirs + 1 - 1) with (length dirs) by lia.
  rewrite take_app_length, last_last.
  pose proof (relpath_basenameExt [] X ".js") as Hbase. cbn [app Str.join] in Hbase.
  rewrite Hbase; [|done|by apply noPathSep_noSlash|done..].
  rewrite join_last_app in HR, HE.
  set (path := Str.join "/" (dirs ++ [X])) in *.
  assert (Str.contains "Renderers/" path = false) as HRpath.
  { destruct (Str.contains "Renderers/" path) eqn:H; [|done].
    by rewrite (contains_app_l _ _ ".js" H) in HR. }
  assert (Str.contains "Extras/" path = false) as HEpath.
  { destruct (Str.contains "Extras/" path) eqn:H; [|done].
    by rewrite (contains_app_l _ _ ".js" H) in HE. }
  assert (Str.contains "Renderers/" ("http://threejs.org/docs/#api/" +:+ path) = false)
    as HRurl by (by rewrite contains_skip).
  assert (Str.contains "Extras/" ("http://threejs.org/docs/#api/" +:+ path) = false)
    as HEurl by (by rewrite contains_skip).
  set (url := "http://threejs.org/docs/#api/" +:+ path) in *. clearbody url.
  rewrite (replaceFirst_absent "Renderers/" "Renderers/WebGL/Plugins/"
             "Renderers.WebGL.Plugins/" url eq_refl HRurl).
  rewrite (replaceFirst_absent "Renderers/" "Renderers/WebGL/"
             "Renderers.WebGL/" url eq_refl HRurl).
  rewrite (replaceFirst_absent "Renderers/" "Renderers/Shaders/"
             "Renderers.Shaders/" url eq_refl HRurl).
  rewrite (replaceFirst_absent "Extras/" "Extras/Animation/"
             "Extras.Animation/" url eq_refl HEurl).
  rewrite (replaceFirst_absent "Extras/" "Extras/Core/"
             "Extras.Core/" url eq_refl HEurl).
  rewrite (replaceFirst_absent "Extras/" "Extras/Curves/"
             "Extras.Curves/" url eq_refl HEurl).
  rewrite (replaceFirst_absent "Extras/" "Extras/Geometries/"
             "Extras.Geometries/" url eq_refl HEurl).
  rewrite (replaceFirst_absent "Extras/" "Extras/Helpers/"
             "Extras.Helpers/" url eq_refl HEurl).
  rewrite (replaceFirst_absent "Extras/" "Extras/Objects/"
             "Extras.Objects/" url eq_refl HEurl).
  reflexivity.
Qed.

Lemma docs_url_of_lower_case_path_witness :
  PythonWrapper.processDocsUrl "renderers/webgl/WebGLRenderTarget.js"
  = "http://threejs.org/docs/#api/renderers/webgl/WebGLRenderTarget".
Proof.
  apply (docs_url_of_lower_case_path ["renderers"; "webgl"] "WebGLRenderTarget");
    try reflexivity; try discriminate.
  repeat constructor.
Defined.

(** ** How many files a source unit gives *)

Lemma no_files_bind {A B} (m : Gen A) (f : A -> Gen B) :
  (forall a, outputFiles (effects (f a)) = []) ->
  outputFiles (effects (m ≫= f)) = outputFiles (effects m).
Proof.
  intros Hf. rewrite gen_bind_effects. destruct (outcome m); [|done].
  simpl. by rewrite Hf, app_nil_r.
Qed.

Lemma liftRes_no_files {A B} (r : Res A) (f : A -> Gen B) :
  (forall a, outputFiles (effects (f a)) = []) ->
  outputFiles (effects (liftRes r ≫= f)) = [].
Proof. intros Hf. by rewrite no_files_bind. Qed.

Lemma forEachGen_forEffects_files {A} (f : A -> Gen CreateResult) l :
  outputFiles (effects (forEachGen (fun a => forEffects (f a)) l))
  = concat (map (fun a => outputFiles (effects (f a))) l).
Proof.
  induction l as [|a l IH]; [done|]. cbn [forEachGen map concat].
  rewrite (gen_bind_effects_Ok _ _ tt) by done. simpl. by rewrite IH.
Qed.

Lemma JavascriptWrapper_nameClass_files createExtra env modulePath className auto :
  outputFiles (effects (JavascriptWrapper.nameClass createExtra env modulePath className auto))
  = if Str.truthy className then []
    else concat (map (fun extra => outputFiles (effects (createExtra modulePath (Some extra))))
                     (extraClassesOf env modulePath)).
Proof.
  unfold JavascriptWrapper.nameClass, extraClassesOf, wrapperClassName.
  destruct (Str.truthy className); [done|]. cbn [Str.truthy].
  destruct (getExtraDefines _ _) as [extras|e]; [|done].
  rewrite (gen_bind_effects_Ok _ _ extras) by done. simpl.
  rewrite (gen_bind_effects_Ok _ _ tt) by apply logExtraDefines_outcome. simpl.
  rewrite logExtraDefines_outputFiles. simpl.
  rewrite no_files_bind by done. apply forEachGen_forEffects_files.
Qed.

Lemma PythonWrapper_nameClass_files createExtra env modulePath className :
  outputFiles (effects (PythonWrapper.nameClass createExtra env modulePath className))
  = if Str.truthy className then []
    else concat (map (fun extra => outputFiles (effects (createExtra modulePath (Some extra))))
                     (extraClassesOf env modulePath)).
Proof.
  unfold PythonWrapper.nameClass, extraClassesOf, wrapperClassName.
  destruct (Str.truthy className); [done|]. cbn [Str.truthy].
  destruct (getExtraDefines _ _) as [extras|e]; [|done].
  rewrite (gen_bind_effects_Ok _ _ extras) by done. simpl.
  rewrite (gen_bind_effects_Ok _ _ tt) by apply logExtraDefines_outcome. simpl.
  rewrite logExtraDefines_outputFiles. simpl.
  rewrite no_files_bind by done. apply forEachGen_forEffects_files.
Qed.

Lemma JavascriptWrapper_new_files createExtra env template now modulePath className :
  exists auto,
    outputFiles (effects
      (JavascriptWrapper.new createExtra env template now modulePath className))
    = outputFiles (effects
        (JavascriptWrapper.nameClass createExtra env modulePath className auto)).
Proof.
  unfold JavascriptWrapper.new. eexists. apply no_files_bind. intros named.
  apply liftRes_no_files. intros config.
  apply liftRes_no_files. intros sup.
  apply liftRes_no_files. intros deps.
  destruct (JavascriptWrapper.processProperties config) as [[p sp] ep].
  apply liftRes_no_files. intros args.
  rewrite no_files_bind by done.
  unfold JavascriptWrapper.processOverrideClass. by destruct (negb _).
Qed.

Lemma PythonWrapper_new_files createExtra env template now modulePath className :
  outputFiles (effects
    (PythonWrapper.new createExtra env template now modulePath className))
  = outputFiles (effects (PythonWrapper.nameClass createExtra env modulePath className)).
Proof.
  unfold PythonWrapper.new. apply no_files_bind. intros named.
  apply liftRes_no_files. intros config.
  apply liftRes_no_files. intros sup.
  apply liftRes_no_files. intros deps.
  apply liftRes_no_files. intros args. done.
Qed.

Lemma createJavascriptWrapperAt_own depth env template now modulePath className :
  let constructed :=
    JavascriptWrapper.new (createJavascriptWrapperAt depth env template now)
      env template now modulePath className in
  length (outputFiles (effects
    (createJavascriptWrapperAt (S depth) env template now modulePath className)))
  <= length (outputFiles (effects constructed)) + 1.
Proof.
  intros constructed. cbn [createJavascriptWrapperAt]. fold constructed.
  destruct (outcome constructed); unfold mbind, Gen_bind; simpl;
    rewrite ?length_app, ?app_nil_r; simpl; lia.
Qed.

Lemma createPythonWrapperAt_own depth env template now modulePath className :
  let constructed :=
    PythonWrapper.new (createPythonWrapperAt depth env template now)
      env template now modulePath className in
  length (outputFiles (effects
    (createPythonWrapperAt (S depth) env template now modulePath className)))
  <= length (outputFiles (effects constructed)) + 1.
Proof.
  intros constructed. cbn [createPythonWrapperAt]. fold constructed.
  destruct (outcome constructed); unfold mbind, Gen_bind; simpl;
    rewrite ?length_app, ?app_nil_r; simpl; lia.
Qed.

Lemma length_concat_le {A B} (f : A -> list B) l :
  (forall a, In a l -> length (f a) <= 1) ->
  length (concat (map f l)) <= length l.
Proof.
  induction l as [|a l IH]; intros H; [done|]. cbn [map concat length].
  rewrite List.length_app. pose proof (H a (or_introl eq_refl)).
  assert (length (concat (map f l)) <= length l) by (apply IH; intros; apply H; by right).
  lia.
Qed.

Lemma extraClassesOf_truthy env modulePath extra :
  JsObject.has "" (classConfigs env) = false ->
  In extra (extraClassesOf env modulePath) ->
  Str.truthy (Some extra) = true.
Proof.
  unfold extraClassesOf. intros Hempty Hin.
  destruct (getExtraDefines _ _) as [extras|] eqn:Hextras; [|done].
  assert (exists cur, classConfigAt (classConfigs env)
            (normalizeClassName (wrapperClassName modulePath None)) = Some cur) as [cur Hcur].
  { destruct (classConfigAt (classConfigs env)
                (normalizeClassName (wrapperClassName modulePath None))) as [cur|] eqn:Hcur;
      [eauto|].
    unfold getExtraDefines in Hextras. by rewrite Hcur in Hextras. }
  pose proof (proj1 (getExtraDefines_In _ _ cur _ _ Hcur Hextras) Hin) as (c & Hget & _).
  simpl. apply negb_true_iff, String.eqb_neq. intros ->.
  unfold JsObject.has in Hempty. by rewrite Hget in Hempty.
Qed.

Lemma createJavascriptWrapperAt_named depth env template now modulePath className :
  Str.truthy className = true ->
  length (outputFiles (effects
    (createJavascriptWrapperAt depth env template now modulePath className))) <= 1.
Proof.
  intros Htruthy. destruct depth as [|depth]; [simpl; lia|].
  pose proof (createJavascriptWrapperAt_own depth env template now modulePath className) as H.
  cbv zeta in H.
  destruct (JavascriptWrapper_new_files (createJavascriptWrapperAt depth env template now)
              env template now modulePath className) as [auto Hnew].
  rewrite Hnew, JavascriptWrapper_nameClass_files, Htruthy in H. exact H.
Qed.

Lemma createPythonWrapperAt_named depth env template now modulePath className :
  Str.truthy className = true ->
  length (outputFiles (effects
    (createPythonWrapperAt depth env template now modulePath className))) <= 1.
Proof.
  intros Htruthy. destruct depth as [|depth]; [simpl; lia|].
  pose proof (createPythonWrapperAt_own depth env template now modulePath className) as H.
  cbv zeta in H.
  rewrite PythonWrapper_new_files, PythonWrapper_nameClass_files, Htruthy in H.
  exact H.
Qed.

(** X27: a source unit gives at most one file for each class it defines:
    the wrapper of a class given by name never looks for extra classes and
    writes at most one file, and the wrapper of a source unit writes at
    most one file more than the unit has extra classes.  This holds for
    both generators, in a table without an empty key. *)
Theorem files_per_source_unit
  (env : Env) (jsTemplate : JsContext.t -> string) (pyTemplate : PyContext.t -> string)
  (now : Date) (modulePath : string) (depth : nat) :
  JsObject.has "" (classConfigs env) = false ->
  (forall className,
     Str.truthy className = true ->
     length (outputFiles (effects
       (createJavascriptWrapperAt depth env jsTemplate now modulePath className))) <= 1 /\
     length (outputFiles (effects
       (createPythonWrapperAt depth env pyTemplate now modulePath className))) <= 1)
  /\
  length (outputFiles (effects
    (createJavascriptWrapperAt depth env jsTemplate now modulePath None)))
    <= 1 + length (extraClassesOf env modulePath)
  /\
  length (outputFiles (effects
    (createPythonWrapperAt depth env pyTemplate now modulePath None)))
    <= 1 + length (extraClassesOf env modulePath).
Proof.
  intros Hempty. split; [|split].
  - intros className Htruthy. split.
    + by apply createJavascriptWrapperAt_named.
    + by apply createPythonWrapperAt_named.
  - destruct depth as [|depth]; [simpl; lia|].
    pose proof (createJavascriptWrapperAt_own depth env jsTemplate now modulePath None) as H.
    cbv zeta in H.
    destruct (JavascriptWrapper_new_files (createJavascriptWrapperAt depth env jsTemplate now)
                env jsTemplate now modulePath None) as [auto Hnew].
    rewrite Hnew, JavascriptWrapper_nameClass_files in H. cbn [Str.truthy] in H.
    pose proof (length_concat_le
      (fun extra => outputFiles (effects
         (createJavascriptWrapperAt depth env jsTemplate now modulePath (Some extra))))
      (extraClassesOf env modulePath)) as Hextras.
    cbv beta in Hextras.
    assert (forall a, In a (extraClassesOf env modulePath) ->
      length (outputFiles (effects
        (createJavascriptWrapperAt depth env jsTemplate now modulePath (Some a)))) <= 1)
      as Heach.
    { intros extra Hin. apply createJavascriptWrapperAt_named.
      by apply (extraClassesOf_truthy env modulePath). }
    specialize (Hextras Heach). lia.
  - destruct depth as [|depth]; [simpl; lia|].
    pose proof (createPythonWrapperAt_own depth env pyTemplate now modulePath None) as H.
    cbv zeta in H.
    rewrite PythonWrapper_new_files, PythonWrapper_nameClass_files in H.
    cbn [Str.truthy] in H.
    pose proof (length_concat_le
      (fun extra => outputFiles (effects
         (createPythonWrapperAt depth env pyTemplate now modulePath (Some extra))))
      (extraClassesOf env modulePath)) as Hextras.
    cbv beta in Hextras.
    assert (forall a, In a (extraClassesOf env modulePath) ->
      length (outputFiles (effects
        (createPythonWrapperAt depth env pyTemplate now modulePath (Some a)))) <= 1)
      as Heach.
    { intros extra Hin. apply createPythonWrapperAt_named.
      by apply (extraClassesOf_truthy env modulePath). }
    specialize (Hextras Heach). lia.
Qed.

Lemma files_per_source_unit_witness :
  (forall className,
     Str.truthy className = true ->
     length (outputFiles (effects
       (createJavascriptWrapperAt 16 exampleEnv datedJsTemplate "now"
          "geometries/Ring.js" className))) <= 1 /\
     length (outputFiles (effects
       (createPythonWrapperAt 16 exampleEnv datedPyTemplate "now"
          "geometries/Ring.js" className))) <= 1)
  /\
  length (outputFiles (effects
    (createJavascriptWrapperAt 16 exampleEnv datedJsTemplate "now" "geometries/Ring.js" None)))
    <= 1 + length (extraClassesOf exampleEnv "geometries/Ring.js")
  /\
  length (outputFiles (effects
    (createPythonWrapperAt 16 exampleEnv datedPyTemplate "now" "geometries/Ring.js" None)))
    <= 1 + length (extraClassesOf exampleEnv "geometries/Ring.js").
Proof.
  apply (files_per_source_unit exampleEnv datedJsTemplate datedPyTemplate "now"
           "geometries/Ring.js" 16).
  reflexivity.
Defined.

(** ** The property tables of a JavaScript wrapper *)

Section TableFacts.
Context {V W : Type}.

Lemma get_entries (k : string) (o : JsObject.t V) :
  JsObject.get k (JsObject.entries o) = JsObject.get k o.
Proof.
  unfold JsObject.entries.
  assert (forall ks : list string,
    JsObject.get k
      (omap (fun k' => match JsObject.get k' o with Some v => Some (k', v) | None => None end) ks)
    = if existsb (String.eqb k) ks then JsObject.get k o else None) as Hks.
  { induction ks as [|k' ks IH]; [done|]. cbn [omap list_omap existsb].
    destruct (JsObject.get k' o) as [v|] eqn:Hget; cbn [JsObject.get].
    - destruct (String.eqb_spec k' k) as [->|Hne].
      + by rewrite String.eqb_refl, Hget.
      + rewrite IH. apply not_eq_sym, String.eqb_neq in Hne. by rewrite Hne.
    - rewrite IH. destruct (String.eqb_spec k k') as [->|Hne]; [|done].
      rewrite Hget. by destruct (existsb _ ks). }
  rewrite Hks.
  destruct (JsObject.get k o) as [v|] eqn:Hget; [|by destruct (existsb _ _)].
  apply JsObjectFacts.get_Some_in_keys in Hget.
  assert (existsb (String.eqb k) (JsObject.keys o) = true) as ->; [|done].
  apply existsb_exists. exists k. split; [done|apply String.eqb_refl].
Qed.

Lemma get_map_values (f : V -> W) k (l : JsObject.t V) :
  JsObject.get k (map (fun kv : string * V => (fst kv, f (snd kv))) l)
  = f <$> JsObject.get k l.
Proof.
  induction l as [|[k' v] l IH]; [done|]. cbn [map JsObject.get fst snd].
  by destruct (String.eqb k' k).
Qed.

Lemma functionalOn_tail k kv (l : JsObject.t V) :
  functionalOn k (kv :: l) -> functionalOn k l.
Proof. intros H v v' Hv Hv'. apply H; by right. Qed.

Lemma get_In k v (l : JsObject.t V) : JsObject.get k l = Some v -> In (k, v) l.
Proof.
  induction l as [|[k' v'] l IH]; [done|]. cbn [JsObject.get].
  destruct (String.eqb_spec k' k) as [->|Hne].
  - intros [= ->]. by left.
  - intros H. right. by apply IH.
Qed.

Lemma get_omap_picked (pick : V -> option W) k (l : JsObject.t V) :
  functionalOn k l ->
  JsObject.get k
    (omap (fun kv : string * V => option_map (pair (fst kv)) (pick (snd kv))) l)
  = JsObject.get k l ≫= pick.
Proof.
  induction l as [|[k' v] l IH]; intros Hfun; [done|].
  cbn [omap list_omap JsObject.get fst snd].
  specialize (IH (functionalOn_tail _ _ _ Hfun)).
  destruct (pick v) as [w|] eqn:Hpick; cbn [option_map JsObject.get].
  - destruct (String.eqb k' k); [by rewrite <- Hpick|done].
  - rewrite IH. destruct (String.eqb_spec k' k) as [->|Hne]; [|done].
    destruct (JsObject.get k l) as [v'|] eqn:Hget; [|done].
    assert (v' = v) as -> by (apply Hfun; [right; by apply get_In|by left]).
    done.
Qed.

Lemma get_fold_picked (pick : V -> option W) k (l : JsObject.t V) : forall init,
  functionalOn k l ->
  JsObject.get k
    (fold_left (fun result (kv : string * V) =>
                  match pick (snd kv) with
                  | Some w => JsObject.set (fst kv) w result
                  | None => result
                  end) l init)
  = match JsObject.get k l with
    | Some v => match pick v with Some w => Some w | None => JsObject.get k init end
    | None => JsObject.get k init
    end.
Proof.
  induction l as [|[k' v] l IH]; intros init Hfun; [done|].
  cbn [fold_left JsObject.get fst snd].
  rewrite (IH _ (functionalOn_tail _ _ _ Hfun)).
  destruct (String.eqb_spec k' k) as [->|Hne].
  - destruct (JsObject.get k l) as [v'|] eqn:Hget.
    + assert (v' = v) as -> by (apply Hfun; [right; by apply get_In|by left]).
      destruct (pick v); [done|done].
    + destruct (pick v); [by rewrite JsObjectFacts.get_set_eq|done].
  - destruct (pick v) as [w|]; [|done].
    rewrite JsObjectFacts.get_set_ne by done. done.
Qed.

Lemma entries_functionalOn k (o : JsObject.t V) : functionalOn k (JsObject.entries o).
Proof.
  intros v v' Hv%JsObjectFacts.entries_sound Hv'%JsObjectFacts.entries_sound. congruence.
Qed.

End TableFacts.

Lemma omap_pointwise {A B} (f g : A -> option B) (l : list A) :
  (forall a, f a = g a) -> omap f l = omap g l.
Proof.
  intros H. induction l as [|a l IH]; [done|]. cbn [omap list_omap]. by rewrite H, IH.
Qed.

Lemma fold_left_pointwise {A B} (f g : A -> B -> A) (l : list B) : forall init,
  (forall a b, f a b = g a b) -> fold_left f l init = fold_left g l init.
Proof.
  induction l as [|b l IH]; intros init H; [done|]. cbn [fold_left]. by rewrite H, IH.
Qed.

(** X28: the three property tables of a JavaScript wrapper are read off the
    own properties of the class, key by key: the render record of every own
    property, the serializer of those that have a non-empty one, the enum
    type of those that have a non-empty one; a property without a
    serializer or an enum type has no entry in the respective table. *)
Theorem property_tables_of_own_properties (config : ClassConfig) (k : string) :
  let own := JsObject.get k (default [] (properties config)) in
  let '(rendered, serialized, enums) := JavascriptWrapper.processProperties config in
  JsObject.get k rendered = jsPropertyOf <$> own /\
  JsObject.get k serialized = own ≫= (fun prop => truthyString (serializer prop)) /\
  JsObject.get k enums = own ≫= (fun prop => truthyString (enumTypeName prop)).
Proof.
  unfold JavascriptWrapper.processProperties. cbv zeta.
  set (o := default [] (properties config)).
  split; [|split].
  - rewrite <- (get_entries k o). apply (get_map_values jsPropertyOf).
  - rewrite <- (get_entries k o).
    rewrite <- (get_omap_picked (fun prop => truthyString (serializer prop)) k
                  (JsObject.entries o) (entries_functionalOn k o)).
    f_equal. apply omap_pointwise. intros [k' prop].
    unfold truthyString. cbn [fst snd]. by destruct (Str.truthy _).
  - rewrite <- (get_entries k o).
    pose proof (get_fold_picked (fun prop => truthyString (enumTypeName prop)) k
                  (JsObject.entries o) [] (entries_functionalOn k o)) as Hfold.
    cbn [JsObject.get] in Hfold.
    assert (JsObject.get k (JsObject.entries o)
              ≫= (fun prop => truthyString (enumTypeName prop))
            = match JsObject.get k (JsObject.entries o) with
              | Some v => match truthyString (enumTypeName v) with
                          | Some w => Some w | None => None end
              | None => None
              end) as ->.
    { destruct (JsObject.get k (JsObject.entries o)) as [v|]; [|done].
      simpl. by destruct (truthyString _). }
    rewrite <- Hfold. f_equal.
    apply fold_left_pointwise. intros result [k' prop].
    unfold truthyString. cbn [fst snd].
    destruct (Str.truthy (enumTypeName prop)) eqn:Htruthy; [|done].
    destruct (enumTypeName prop); done.
Qed.

Lemma property_tables_of_own_properties_witness :
  let '(rendered, serialized, enums) := JavascriptWrapper.processProperties textureConfig in
  (JsObject.get "image" serialized = Some "serializers.image" /\
   JsObject.get "wrapS" serialized = None /\
   JsObject.get "name" serialized = None) /\
  (JsObject.get "wrapS" enums = Some "WrappingModes" /\
   JsObject.get "image" enums = None).
Proof.
  pose proof (property_tables_of_own_properties textureConfig "image") as Himage.
  pose proof (property_tables_of_own_properties textureConfig "wrapS") as Hwrap.
  pose proof (property_tables_of_own_properties textureConfig "name") as Hname.
  cbv zeta in Himage, Hwrap, Hname.
  destruct (JavascriptWrapper.processProperties textureConfig) as [[rendered serialized] enums].
  destruct Himage as (_ & Hs1 & He1), Hwrap as (_ & Hs2 & He2), Hname as (_ & Hs3 & _).
  repeat split; assumption.
Defined.

(** ** Absolute paths given by their segments *)


















(** ** Where a wrapper is written and where its override is looked for *)















(** ** The writes of a run, whatever the order of the matches *)


Section Writes.
Context {X : Type}.
(** [written] is one of the two lists of writes of a run. *)
Variable written : Effects -> list X.
Hypothesis written_noEffects : written noEffects = [].
Hypothesis written_andThen : forall a b, written (andThen a b) = written a ++ written b.







End Writes.








